(** * Mermaid syntax validators: a shallow embedding and its properties

    The repository ships three validators behind one calling convention
    ([validateSyntax]):

    - [Flexible]  : src/validators/mermaid-validator-flexible.js, the one the
                    server and the test-suite import;
    - [Simple]    : mermaid-validator-simple.js, one scan routine per dialect;
    - [Delegate]  : the engine-delegating validator, of which only the error
                    classifier and the suggestion table are embedded here.

    Strings are [string]s whose characters are read as UTF-16 code units
    below 256 (Latin-1); the JavaScript primitives used by the validators
    ([trim], [split], [startsWith], [toLowerCase], [includes] and
    [RegExp.prototype.test]) are modelled on that domain. *)

From Stdlib Require Import Bool Arith Lia List ZArith Ascii String Permutation.
Import ListNotations.
Open Scope string_scope.

(* ------------------------------------------------------------------ *)
(** ** JavaScript string primitives *)

Module JS.

Definition code (c : ascii) : nat := nat_of_ascii c.

Definition between (lo hi : nat) (c : ascii) : bool :=
  Nat.leb lo (code c) && Nat.leb (code c) hi.

(** [isCode n c]: the code unit [c] is [n]. *)
Definition isCode (n : nat) (c : ascii) : bool := Nat.eqb (code c) n.

(** WhiteSpace and LineTerminator code units below 256:
    TAB, LF, VT, FF, CR, SP and NBSP. *)
Definition isWhiteSpace (c : ascii) : bool :=
  between 9 13 c || (isCode 32 c) || (isCode 160 c).

Definition isLineTerminator (c : ascii) : bool :=
  (isCode 10 c) || (isCode 13 c).

Definition isAsciiLetter (c : ascii) : bool :=
  between 65 90 c || between 97 122 c.

(** [\w] *)
Definition isWordChar (c : ascii) : bool :=
  isAsciiLetter c || between 48 57 c || (isCode 95 c).

Definition swapCase (c : ascii) : ascii :=
  if between 65 90 c then ascii_of_nat (code c + 32)
  else if between 97 122 c then ascii_of_nat (code c - 32)
  else c.

(** [String.prototype.toLowerCase] on one Latin-1 code unit. *)
Definition lowerChar (c : ascii) : ascii :=
  if between 65 90 c || between 192 214 c || between 216 222 c
  then ascii_of_nat (code c + 32) else c.

Fixpoint toLowerCase (s : string) : string :=
  match s with
  | EmptyString => EmptyString
  | String c s' => String (lowerChar c) (toLowerCase s')
  end.

Fixpoint trimStart (s : string) : string :=
  match s with
  | EmptyString => EmptyString
  | String c s' => if isWhiteSpace c then trimStart s' else s
  end.

Fixpoint trimEnd (s : string) : string :=
  match s with
  | EmptyString => EmptyString
  | String c s' =>
      match trimEnd s' with
      | EmptyString => if isWhiteSpace c then EmptyString else String c EmptyString
      | t => String c t
      end
  end.

Definition trim (s : string) : string := trimEnd (trimStart s).

(** [s.startsWith(p)] *)
Definition startsWith (s p : string) : bool := String.prefix p s.

(** [s.includes(sub)] *)
Fixpoint includes (s sub : string) : bool :=
  String.prefix sub s ||
  match s with
  | EmptyString => false
  | String _ s' => includes s' sub
  end.

(** Truthiness of a string: the empty string is falsy. *)
Definition truthy (s : string) : bool :=
  match s with EmptyString => false | _ => true end.

Definition LF : ascii := ascii_of_nat 10.

(** [s.split('\n')]: never empty, one more piece than line feeds. *)
Fixpoint split (s : string) : list string :=
  match s with
  | EmptyString => [EmptyString]
  | String c s' =>
      if Ascii.eqb c LF then EmptyString :: split s'
      else match split s' with
           | [] => [String c EmptyString]
           | l :: ls => String c l :: ls
           end
  end.

(** [lines.join('\n')] *)
Fixpoint join (ls : list string) : string :=
  match ls with
  | [] => EmptyString
  | [l] => l
  | l :: ls' => l ++ String LF (join ls')
  end.

(** The double-quote character, spliced into messages and patterns. *)
Definition dq : string := String (ascii_of_nat 34) EmptyString.

End JS.

(* ------------------------------------------------------------------ *)
(** ** Regular expressions: syntax, parser and backtracking matcher *)

Module RegExp.
Import JS.

(** A character class is a list of inclusive code-unit ranges. *)
Definition ranges := list (nat * nat).

Inductive regex : Type :=
| Empty                                   (* empty alternative *)
| CharSet (invert : bool) (rs : ranges)   (* c, [..], [^..], ., \s, \w, \d *)
| Seq (a b : regex)
| Disj (a b : regex)                      (* a|b *)
| Star (greedy : bool) (a : regex)        (* a*  a*? *)
| Plus (greedy : bool) (a : regex)        (* a+  a+? *)
| Opt (greedy : bool) (a : regex)         (* a?  a?? *)
| AssertStart                             (* ^ *)
| AssertEnd                               (* $ *)
| WordBoundary.                           (* \b *)

Definition rsSpace : ranges := [(9, 13); (32, 32); (160, 160)].
Definition rsWord  : ranges := [(48, 57); (65, 90); (95, 95); (97, 122)].
Definition rsDigit : ranges := [(48, 57)].
Definition rsLineTerminator : ranges := [(10, 10); (13, 13)].

Definition inRanges (rs : ranges) (c : ascii) : bool :=
  existsb (fun r => between (fst r) (snd r) c) rs.

(** CharacterSetMatcher: with the [i] flag both sides are canonicalized;
    on classes written with ASCII characters this adds, for an ASCII
    letter, the letter of the other case. *)
Definition charIn (ic invert : bool) (rs : ranges) (c : ascii) : bool :=
  xorb invert
    (inRanges rs c || (ic && isAsciiLetter c && inRanges rs (swapCase c))).

(* ---- parser for the pattern syntax used in the rule tables ---- *)

Inductive classAtom : Type :=
| CAChar (n : nat)
| CASet (rs : ranges).

Definition isDigitChar (c : ascii) : bool := between 48 57 c.

Definition pClassAtom (s : string) : option (classAtom * string) :=
  match s with
  | EmptyString => None
  | String c s' =>
      if (isCode 92 c) then          (* backslash *)
        match s' with
        | EmptyString => None
        | String e s'' =>
            if (isCode 115 e) then Some (CASet rsSpace, s'')
            else if (isCode 119 e) then Some (CASet rsWord, s'')
            else if (isCode 100 e) then Some (CASet rsDigit, s'')
            else if isWordChar e then None
            else Some (CAChar (code e), s'')
        end
      else Some (CAChar (code c), s')
  end.

Fixpoint pClassItems (fuel : nat) (s : string) : option (ranges * string) :=
  match fuel with
  | 0 => None
  | S fuel' =>
      match s with
      | EmptyString => None
      | String c s' =>
          if (isCode 93 c) then Some ([], s')      (* ] *)
          else
            match pClassAtom s with
            | None => None
            | Some (a, s1) =>
                let single :=
                  match pClassItems fuel' s1 with
                  | None => None
                  | Some (rs, s2) =>
                      Some (match a with
                            | CAChar n => (n, n) :: rs
                            | CASet r => (r ++ rs)%list
                            end, s2)
                  end in
                match a, s1 with
                | CAChar lo, String d (String e s2) =>
                    if (isCode 45 d) && negb (isCode 93 e) then   (* lo-hi *)
                      match pClassAtom (String e s2) with
                      | Some (CAChar hi, s3) =>
                          match pClassItems fuel' s3 with
                          | None => None
                          | Some (rs, s4) => Some ((lo, hi) :: rs, s4)
                          end
                      | _ => None
                      end
                    else single
                | _, _ => single
                end
            end
      end
  end.

Definition pClass (s : string) : option (regex * string) :=
  let '(inv, s0) :=
    match s with
    | String c s' => if (isCode 94 c) then (true, s') else (false, s)
    | EmptyString => (false, s)
    end in
  match pClassItems (S (String.length s0)) s0 with
  | None => None
  | Some (rs, s1) => Some (CharSet inv rs, s1)
  end.

Definition pQuantifier (a : regex) (s : string) : regex * string :=
  let lazy (s' : string) : bool * string :=
    match s' with
    | String q s'' => if (isCode 63 q) then (false, s'') else (true, s')
    | EmptyString => (true, s')
    end in
  match s with
  | String c s' =>
      if (isCode 42 c) then let '(g, r) := lazy s' in (Star g a, r)
      else if (isCode 43 c) then let '(g, r) := lazy s' in (Plus g a, r)
      else if (isCode 63 c) then let '(g, r) := lazy s' in (Opt g a, r)
      else (a, s)
  | EmptyString => (a, s)
  end.

Definition seq (a b : regex) : regex :=
  match b with Empty => a | _ => Seq a b end.

Fixpoint pDisjunction (fuel : nat) (s : string) : option (regex * string) :=
  match fuel with
  | 0 => None
  | S fuel' =>
      match pAlternative fuel' s with
      | Some (a, String c s') =>
          if (isCode 124 c) then                       (* | *)
            match pDisjunction fuel' s' with
            | Some (b, s'') => Some (Disj a b, s'')
            | None => None
            end
          else Some (a, String c s')
      | r => r
      end
  end
with pAlternative (fuel : nat) (s : string) : option (regex * string) :=
  match fuel with
  | 0 => None
  | S fuel' =>
      match s with
      | EmptyString => Some (Empty, s)
      | String c _ =>
          if (isCode 124 c) || (isCode 41 c) then Some (Empty, s)
          else
            match pTerm fuel' s with
            | None => None
            | Some (t, s') =>
                match pAlternative fuel' s' with
                | None => None
                | Some (r, s'') => Some (seq t r, s'')
                end
            end
      end
  end
with pTerm (fuel : nat) (s : string) : option (regex * string) :=
  match fuel with
  | 0 => None
  | S fuel' =>
      match s with
      | EmptyString => None
      | String c s' =>
          if (isCode 94 c) then Some (AssertStart, s')
          else if (isCode 36 c) then Some (AssertEnd, s')
          else if (isCode 46 c) then
            Some (pQuantifier (CharSet true rsLineTerminator) s')
          else if (isCode 91 c) then
            match pClass s' with
            | Some (a, s1) => Some (pQuantifier a s1)
            | None => None
            end
          else if (isCode 40 c) then                   (* ( or (?: *)
            let body :=
              match s' with
              | String q (String k s1) =>
                  if (isCode 63 q) then
                    if (isCode 58 k) then Some s1 else None
                  else Some s'
              | _ => Some s'
              end in
            match body with
            | None => None
            | Some s1 =>
                match pDisjunction fuel' s1 with
                | Some (a, String z s2) =>
                    if (isCode 41 z) then Some (pQuantifier a s2) else None
                | _ => None
                end
            end
          else if (isCode 92 c) then                   (* escapes *)
            match s' with
            | EmptyString => None
            | String e s1 =>
                if (isCode 98 e) then Some (WordBoundary, s1)
                else if (isCode 115 e) then Some (pQuantifier (CharSet false rsSpace) s1)
                else if (isCode 119 e) then Some (pQuantifier (CharSet false rsWord) s1)
                else if (isCode 100 e) then Some (pQuantifier (CharSet false rsDigit) s1)
                else if isWordChar e then None
                else Some (pQuantifier (CharSet false [(code e, code e)]) s1)
            end
          else if (isCode 42 c) || (isCode 43 c) || (isCode 63 c)
                  || (isCode 41 c) || (isCode 124 c) then None
          else if (isCode 123 c) &&
                  match s' with String d _ => isDigitChar d | _ => false end
          then None                                      (* {n..}: not used *)
          else Some (pQuantifier (CharSet false [(code c, code c)]) s')
      end
  end.

(** The pattern between the slashes of a regular-expression literal. *)
Definition parse (src : string) : option regex :=
  match pDisjunction (3 * String.length src + 3) src with
  | Some (r, EmptyString) => Some r
  | _ => None
  end.

(* ---- matcher ---- *)

(** A match state: the input still to be read and the code unit just
    before it ([None] at index 0). *)
Record state : Type := { prev : option ascii; rest : string }.

Definition cont := state -> bool.

Definition remaining (x : state) : nat := String.length (rest x).

Definition wordAt (o : option ascii) : bool :=
  match o with Some c => isWordChar c | None => false end.

Definition next (x : state) : option ascii :=
  match rest x with String c _ => Some c | EmptyString => None end.

(** RepeatMatcher with min = 0 and max = infinity.  An iteration that
    consumes nothing is a failure; [n] bounds the iterations by the number
    of code units left, which every successful iteration decreases. *)
Definition repeat (ma : state -> cont -> bool) (greedy : bool) (k : cont)
  : nat -> state -> bool :=
  fix rep (n : nat) (x : state) : bool :=
    let again :=
      match n with
      | 0 => false
      | S n' =>
          ma x (fun y => negb (Nat.eqb (remaining y) (remaining x)) && rep n' y)
      end in
    if greedy then again || k x else k x || again.

Fixpoint m (ic : bool) (r : regex) (x : state) (k : cont) {struct r} : bool :=
  match r with
  | Empty => k x
  | CharSet inv rs =>
      match rest x with
      | EmptyString => false
      | String c s =>
          if charIn ic inv rs c then k {| prev := Some c; rest := s |}
          else false
      end
  | Seq a b => m ic a x (fun y => m ic b y k)
  | Disj a b => m ic a x k || m ic b x k
  | Star g a => repeat (m ic a) g k (remaining x) x
  | Plus g a => m ic a x (fun y => repeat (m ic a) g k (remaining y) y)
  | Opt g a =>
      let once := m ic a x (fun y => negb (Nat.eqb (remaining y) (remaining x)) && k y) in
      if g then once || k x else k x || once
  | AssertStart => match prev x with None => k x | Some _ => false end
  | AssertEnd => match rest x with EmptyString => k x | String _ _ => false end
  | WordBoundary =>
      if xorb (wordAt (prev x)) (wordAt (next x)) then k x else false
  end.

(** RegExpBuiltinExec without the [g] and [y] flags: try every start
    index from 0 up to the length of the input. *)
Fixpoint search (ic : bool) (r : regex) (p : option ascii) (s : string) : bool :=
  m ic r {| prev := p; rest := s |} (fun _ => true) ||
  match s with
  | EmptyString => false
  | String c s' => search ic r (Some c) s'
  end.

Record t : Type := { pattern : regex; ignoreCase : bool }.

(** [re src i] is the literal [/src/] (or [/src/i]); a pattern outside the
    supported syntax would become one that matches nothing. *)
Definition re (src : string) (i : bool) : t :=
  match parse src with
  | Some r => {| pattern := r; ignoreCase := i |}
  | None => {| pattern := CharSet false []; ignoreCase := i |}
  end.

Definition test (r : t) (s : string) : bool :=
  search (ignoreCase r) (pattern r) None s.

End RegExp.

(* ------------------------------------------------------------------ *)
(** ** Data model shared by the validators *)

(** The strings returned by [detectDiagramType]. *)
Inductive DiagramType : Type :=
| graph | sequence | classDiagram | stateDiagram | erDiagram
| gantt | journey | pie | gitGraph | mindmap | unknown.

Definition typeName (d : DiagramType) : string :=
  match d with
  | graph => "graph"
  | sequence => "sequence"
  | classDiagram => "classDiagram"
  | stateDiagram => "stateDiagram"
  | erDiagram => "erDiagram"
  | gantt => "gantt"
  | journey => "journey"
  | pie => "pie"
  | gitGraph => "gitGraph"
  | mindmap => "mindmap"
  | unknown => "unknown"
  end.

Definition isGraph (d : DiagramType) : bool :=
  match d with graph => true | _ => false end.

(** The object returned by a dialect scan ([validateByType] and the
    [validateX] routines): the five result fields. *)
Module Outcome.
Record t : Type := {
  isValid : bool;
  error : option string;
  type : option string;
  line : option nat;
  suggestion : option string
}.

Definition valid : t :=
  {| isValid := true; error := None; type := None;
     line := None; suggestion := None |}.
End Outcome.

(** The object returned by [validateSyntax]. *)
Record Diagnostic : Type := {
  isValid : bool;
  error : option string;
  type : option string;
  line : option nat;
  suggestion : option string;
  processingTime : Z;
  diagramType : DiagramType;
  elementCount : nat
}.

(** [{ ...validationResult, processingTime, diagramType, elementCount }] *)
Definition assemble (o : Outcome.t) (time : Z) (d : DiagramType) (n : nat)
  : Diagnostic :=
  {| isValid := Outcome.isValid o;
     error := Outcome.error o;
     type := Outcome.type o;
     line := Outcome.line o;
     suggestion := Outcome.suggestion o;
     processingTime := time;
     diagramType := d;
     elementCount := n |}.

(** Values a caller can pass as [diagramCode]. *)
Inductive value : Type :=
| VUndefined
| VNull
| VBoolean (b : bool)
| VNumber (z : Z)
| VString (s : string)
| VObject.

(** [!diagramCode || typeof diagramCode !== 'string'] is false exactly on
    a non-empty string; [asCode] returns that string. *)
Definition toBoolean (v : value) : bool :=
  match v with
  | VUndefined | VNull => false
  | VBoolean b => b
  | VNumber z => negb (Z.eqb z 0)
  | VString s => JS.truthy s
  | VObject => true
  end.

Definition typeofString (v : value) : bool :=
  match v with VString _ => true | _ => false end.

Definition asCode (v : value) : option string :=
  if negb (toBoolean v) || negb (typeofString v) then None
  else match v with VString s => Some s | _ => None end.

(** The result returned for a rejected [diagramCode]. *)
Definition inputError : Diagnostic :=
  {| isValid := false;
     error := Some "Diagram code must be a non-empty string";
     type := Some "input_error";
     line := None;
     suggestion := None;
     processingTime := 0;
     diagramType := unknown;
     elementCount := 0 |}.

(** [for (let i = 0; i < lines.length; i++) { body }]: the body either
    goes on to the next line with an updated state, returns from the
    enclosing function, or raises. *)
Inductive flow (St : Type) : Type :=
| Next (st : St)
| Return (o : Outcome.t)
| Raise (msg : string).
Arguments Next {St} st.
Arguments Return {St} o.
Arguments Raise {St} msg.

Fixpoint forLines {St : Type} (body : nat -> string -> St -> flow St)
  (lines : list string) (i : nat) (st : St) : flow St :=
  match lines with
  | [] => Next st
  | l :: ls =>
      match body i l st with
      | Next st' => forLines body ls (S i) st'
      | r => r
      end
  end.

(** A line that the scans and the element count look at: not blank after
    trimming and not a [%%] comment. *)
Definition meaningful (l : string) : bool :=
  JS.truthy (JS.trim l) && negb (JS.startsWith (JS.trim l) "%%").

(** [countElements] (the same text in both regex validators). *)
Definition countElements (lines : list string) : nat :=
  List.length (filter (fun l =>
    let trimmed := JS.trim l in
    JS.truthy trimmed && negb (JS.startsWith trimmed "%%")) lines).

(** [detectDiagramType], over the ten type-declaration rules of a table. *)
Section Detector.
Variables graphTypes sequenceType classDiagramType stateDiagramType
          erDiagramType ganttType journeyType pieType gitGraphType
          mindmapType : RegExp.t.

Definition detect (lines : list string) : DiagramType :=
  let nonEmptyLines :=
    filter (fun l => JS.truthy (JS.trim l)
                     && negb (JS.startsWith (JS.trim l) "%%")) lines in
  match nonEmptyLines with
  | [] => unknown
  | l0 :: _ =>
      let firstLine := JS.toLowerCase (JS.trim l0) in
      if RegExp.test graphTypes firstLine then graph
      else if RegExp.test sequenceType firstLine then sequence
      else if RegExp.test classDiagramType firstLine then classDiagram
      else if RegExp.test stateDiagramType firstLine then stateDiagram
      else if RegExp.test erDiagramType firstLine then erDiagram
      else if RegExp.test ganttType firstLine then gantt
      else if RegExp.test journeyType firstLine then journey
      else if RegExp.test pieType firstLine then pie
      else if RegExp.test gitGraphType firstLine then gitGraph
      else if RegExp.test mindmapType firstLine then mindmap
      else unknown
  end.
End Detector.

(** The completion of a call that may throw. *)
Inductive completion (A : Type) : Type :=
| Normal (a : A)
| Throw (msg : string).
Arguments Normal {A} a.
Arguments Throw {A} msg.

(** The end of a scan routine: the loop returned, raised, or ran through
    all lines, after which [atEnd] builds the result from the state. *)
Definition complete {St : Type} (r : flow St) (atEnd : St -> Outcome.t)
  : completion Outcome.t :=
  match r with
  | Return o => Normal o
  | Raise msg => Throw msg
  | Next st => Normal (atEnd st)
  end.

(** The message of the TypeError raised by reading property [key] of
    [undefined]. *)
Definition undefinedRead (key : string) : string :=
  "Cannot read properties of undefined (reading '" ++ key ++ "')".

(** The result of the [catch] clause of [validateSyntax]. *)
Definition caught (msg : string) (time : Z) (d : DiagramType) : Diagnostic :=
  {| isValid := false;
     error := Some msg;
     type := Some "general";
     line := None;
     suggestion := Some "Check diagram syntax and structure";
     processingTime := time;
     diagramType := d;
     elementCount := 0 |}.

(** The result returned when no diagram type is detected. *)
Definition noTypeDetected (time : Z) : Diagnostic :=
  {| isValid := false;
     error := Some "No valid diagram type detected";
     type := Some "no_type";
     line := Some 1;
     suggestion := Some "Add a diagram type at the beginning (e.g., graph TD, sequenceDiagram, classDiagram)";
     processingTime := time;
     diagramType := unknown;
     elementCount := 0 |}.

(* ------------------------------------------------------------------ *)
(** ** The flexible validator (mermaid-validator-flexible.js) *)

Module Flexible.
Import JS RegExp.

(** The shape of one entry of [this.patterns]; a key that an entry does
    not define reads as [undefined] ([None]). *)
Module Pat.
Record t : Type := {
  types : option RegExp.t;
  type : option RegExp.t;
  validLine : option RegExp.t;
  comment : option RegExp.t;
  subgraph : option RegExp.t;
  end_ : option RegExp.t
}.
End Pat.

(** [initializePatterns] *)
Module patterns.
Module graph.
Definition types : RegExp.t := Eval vm_compute in re "^(graph|flowchart)\s*(TB|TD|BT|RL|LR)?\s*$" true.
Definition validLine : RegExp.t := Eval vm_compute in re ("^\s*[A-Za-z0-9_\s\[\]\(\)\{\}<>" ++ dq ++ "':|+\-\*\/\\\.,\->]+\s*$") false.
Definition comment : RegExp.t := Eval vm_compute in re "^%%.*$" false.
Definition subgraph : RegExp.t := Eval vm_compute in re "^subgraph" false.
Definition end_ : RegExp.t := Eval vm_compute in re "^end\s*$" false.
End graph.
Module sequence.
Definition type : RegExp.t := Eval vm_compute in re "^sequenceDiagram\s*$" true.
Definition validLine : RegExp.t := Eval vm_compute in re "^\s*(participant|loop|alt|else|end|note|actor)\b.*$|^\s*[A-Za-z0-9_]+\s*(->>|-->>|\-\->|-\-\->|->|-->|x|-\-x|\-\-x)\s*[A-Za-z0-9_]+.*$" true.
Definition comment : RegExp.t := Eval vm_compute in re "^%%.*$" false.
End sequence.
Module classDiagram.
Definition type : RegExp.t := Eval vm_compute in re "^classDiagram\s*$" true.
Definition validLine : RegExp.t := Eval vm_compute in re "^\s*(class|interface|enum)\b.*$|^\s*[A-Za-z0-9_]+\s*(--|\.\.\.|<\|--|\*--|o--|\|\.\.\.)\s*[A-Za-z0-9_]+.*$|^\s*[+\-#~]?\s*[A-Za-z0-9_]+(\(\))?\s*[:{].*$" true.
Definition comment : RegExp.t := Eval vm_compute in re "^%%.*$" false.
End classDiagram.
Module stateDiagram.
Definition type : RegExp.t := Eval vm_compute in re "^stateDiagram(-v2)?\s*$" true.
Definition validLine : RegExp.t := Eval vm_compute in re "^\s*\[*\]*\s*-->\s*\w+.*$|^\s*\w+\s*-->\s*\[*\]*.*$|^\s*\[\*\]\s*-->\s*\w+.*$|^\s*\w+\s*-->\s*\[\*\].*$" true.
Definition comment : RegExp.t := Eval vm_compute in re "^%%.*$" false.
End stateDiagram.
Module erDiagram.
Definition type : RegExp.t := Eval vm_compute in re "^erDiagram\s*$" true.
Definition validLine : RegExp.t := Eval vm_compute in re "^\s*\w+\s*\{.*$|^\s*\w+\s*:\s*\w+.*$|^\s*\w+\s*(\|\||\{o|o\||}o|o{|\|\}|}\||\{\{)\s*\w+.*$|^\s*\}\s*$" true.
Definition comment : RegExp.t := Eval vm_compute in re "^%%.*$" false.
End erDiagram.
Module gantt.
Definition type : RegExp.t := Eval vm_compute in re "^gantt\s*$" true.
Definition validLine : RegExp.t := Eval vm_compute in re "^\s*(title|dateFormat|section)\b.*$|^\s*\w+\s*:\s*.*$" true.
Definition comment : RegExp.t := Eval vm_compute in re "^%%.*$" false.
End gantt.
Module journey.
Definition type : RegExp.t := Eval vm_compute in re "^journey\s*$" true.
Definition validLine : RegExp.t := Eval vm_compute in re "^\s*(title|section)\b.*$|^\s*[^:]+:\s*\d+\s*:\s*\w+.*$" true.
Definition comment : RegExp.t := Eval vm_compute in re "^%%.*$" false.
End journey.
Module pie.
Definition type : RegExp.t := Eval vm_compute in re "^pie\s*(title\s+.+)?\s*$" true.
Definition validLine : RegExp.t := Eval vm_compute in re ("^\s*" ++ dq ++ "[^" ++ dq ++ "]+" ++ dq ++ "\s*:\s*\d+\s*$") true.
Definition comment : RegExp.t := Eval vm_compute in re "^%%.*$" false.
End pie.
Module gitGraph.
Definition type : RegExp.t := Eval vm_compute in re "^gitGraph\s*$" true.
Definition validLine : RegExp.t := Eval vm_compute in re "^\s*(commit|branch|checkout|merge|cherry-pick)\b.*$" true.
Definition comment : RegExp.t := Eval vm_compute in re "^%%.*$" false.
End gitGraph.
Module mindmap.
Definition type : RegExp.t := Eval vm_compute in re "^mindmap\s*$" true.
Definition validLine : RegExp.t := Eval vm_compute in re "^\s*[\s]*[\+\-\*].*$" true.
Definition comment : RegExp.t := Eval vm_compute in re "^%%.*$" false.
End mindmap.
End patterns.

(** An entry with a [type] rule, a [validLine] rule and a [comment] rule. *)
Definition entry (type validLine comment : RegExp.t) : Pat.t :=
  {| Pat.types := None; Pat.type := Some type;
     Pat.validLine := Some validLine; Pat.comment := Some comment;
     Pat.subgraph := None; Pat.end_ := None |}.

(** [this.patterns[diagramType]].  The flowchart entry names its
    declaration rule [types]; it has no [type] key. *)
Definition lookup (d : DiagramType) : option Pat.t :=
  match d with
  | graph =>
      Some {| Pat.types := Some patterns.graph.types;
              Pat.type := None;
              Pat.validLine := Some patterns.graph.validLine;
              Pat.comment := Some patterns.graph.comment;
              Pat.subgraph := Some patterns.graph.subgraph;
              Pat.end_ := Some patterns.graph.end_ |}
  | sequence =>
      Some (entry patterns.sequence.type patterns.sequence.validLine
                  patterns.sequence.comment)
  | classDiagram =>
      Some (entry patterns.classDiagram.type patterns.classDiagram.validLine
                  patterns.classDiagram.comment)
  | stateDiagram =>
      Some (entry patterns.stateDiagram.type patterns.stateDiagram.validLine
                  patterns.stateDiagram.comment)
  | erDiagram =>
      Some (entry patterns.erDiagram.type patterns.erDiagram.validLine
                  patterns.erDiagram.comment)
  | gantt =>
      Some (entry patterns.gantt.type patterns.gantt.validLine
                  patterns.gantt.comment)
  | journey =>
      Some (entry patterns.journey.type patterns.journey.validLine
                  patterns.journey.comment)
  | pie =>
      Some (entry patterns.pie.type patterns.pie.validLine
                  patterns.pie.comment)
  | gitGraph =>
      Some (entry patterns.gitGraph.type patterns.gitGraph.validLine
                  patterns.gitGraph.comment)
  | mindmap =>
      Some (entry patterns.mindmap.type patterns.mindmap.validLine
                  patterns.mindmap.comment)
  | unknown => None
  end.

Definition detectDiagramType : list string -> DiagramType :=
  detect patterns.graph.types patterns.sequence.type
         patterns.classDiagram.type patterns.stateDiagram.type
         patterns.erDiagram.type patterns.gantt.type patterns.journey.type
         patterns.pie.type patterns.gitGraph.type patterns.mindmap.type.

(** [r && r.test(line)] for a rule that may be undefined. *)
Definition testIfDefined (r : option RegExp.t) (line : string) : bool :=
  match r with Some p => test p line | None => false end.

Definition invalidSyntax (diagramType : DiagramType) (line : string) (i : nat)
  : Outcome.t :=
  {| Outcome.isValid := false;
     Outcome.error :=
       Some ("Invalid " ++ typeName diagramType ++ " syntax: " ++ dq ++ line ++ dq);
     Outcome.type := Some "syntax";
     Outcome.line := Some (i + 1);
     Outcome.suggestion :=
       Some ("Check " ++ typeName diagramType ++ " diagram syntax") |}.

Definition missingDeclaration (diagramType : DiagramType) : Outcome.t :=
  {| Outcome.isValid := false;
     Outcome.error := Some ("Missing " ++ typeName diagramType ++ " declaration");
     Outcome.type := Some "no_type";
     Outcome.line := Some 1;
     Outcome.suggestion :=
       Some ("Add " ++ dq ++ typeName diagramType ++ dq ++ " at the beginning") |}.

(** The body of the loop of [validateByType]; the state is [hasType]. *)
Definition lineBody (diagramType : DiagramType) (i : nat) (raw : string)
  (hasType : bool) : flow bool :=
  let line := trim raw in
  if negb (truthy line) then Next hasType
  else if startsWith line "%%" then Next hasType
  else
    match lookup diagramType with
    | None => Raise (undefinedRead "type")
    | Some patterns =>
        let typePattern := Pat.type patterns in
        if testIfDefined typePattern line then Next true
        else
          let isValidLine := testIfDefined (Pat.validLine patterns) line in
          (* diagramType === 'graph' &&
             (patterns.subgraph.test(line) || patterns.end.test(line)) *)
          let special : option bool :=
            if isGraph diagramType then
              match Pat.subgraph patterns with
              | None => None
              | Some sg =>
                  if test sg line then Some true
                  else match Pat.end_ patterns with
                       | None => None
                       | Some en => Some (test en line)
                       end
              end
            else Some false in
          match special with
          | None => Raise (undefinedRead "test")
          | Some sp =>
              if negb (isValidLine || sp)
              then Return (invalidSyntax diagramType line i)
              else Next hasType
          end
    end.

Definition validateByType (diagramType : DiagramType) (lines : list string)
  : completion Outcome.t :=
  complete (forLines (lineBody diagramType) lines 0 false)
    (fun hasType =>
       if negb hasType then missingDeclaration diagramType
       else Outcome.valid).

(** [validateSyntax]; [startTime] and [now] are the readings of
    [Date.now()] on entry and at the return. *)
Definition validateSyntax (startTime now : Z) (diagramCode : value)
  : Diagnostic :=
  match asCode diagramCode with
  | None => inputError
  | Some code =>
      let lines := split code in
      let diagramType := detectDiagramType lines in
      match diagramType with
      | unknown => noTypeDetected (now - startTime)
      | _ =>
          match validateByType diagramType lines with
          | Normal validationResult =>
              assemble validationResult (now - startTime) diagramType
                       (countElements lines)
          | Throw msg => caught msg (now - startTime) diagramType
          end
      end
  end.

(** [validateBatch]: each result with its index. *)
Definition validateBatch (clock : nat -> Z * Z) (diagrams : list value)
  : list (nat * Diagnostic) :=
  map (fun '(i, v) => (i, validateSyntax (fst (clock i)) (snd (clock i)) v))
      (combine (List.seq 0 (List.length diagrams)) diagrams).
End Flexible.

(* ------------------------------------------------------------------ *)
(** ** The simple validator (mermaid-validator-simple.js) *)

Module Simple.
Import JS RegExp.

(** [initializePatterns] *)
Module patterns.
Module graph.
Definition types : RegExp.t := Eval vm_compute in re "^(graph|flowchart)\s*(TB|TD|BT|RL|LR)?\s*$" true.
Definition node : RegExp.t := Eval vm_compute in re "^[A-Za-z0-9_]+(\[[^\]]*\]|\([^\)]*\)|\{[^}]*\}|[^:]*?:[^:]*|<[^>]*>|\*[^*]*\*)?\s*$" false.
Definition connection : RegExp.t := Eval vm_compute in re "^\s*[A-Za-z0-9_]+\s*(-->|---|\.\.\.>|==>|---\|>|\.\.\.\|>|\.\.\.)\s*[A-Za-z0-9_]+\s*(\[[^\]]*\]|\([^\)]*\)|\{[^}]*\})?(\s*\|\s*.+?\s*\|)?\s*$" false.
Definition subgraph : RegExp.t := Eval vm_compute in re "^subgraph\s+(.+)\s*$" true.
Definition endSubgraph : RegExp.t := Eval vm_compute in re "^end\s*$" true.
Definition comment : RegExp.t := Eval vm_compute in re "^%%.*$" false.
End graph.
Module sequence.
Definition type : RegExp.t := Eval vm_compute in re "^sequenceDiagram\s*$" true.
Definition participant : RegExp.t := Eval vm_compute in re "^participant\s+(.+?)\s+as\s+(.+?)\s*$" true.
Definition message : RegExp.t := Eval vm_compute in re "^\s*(.+?)\s*(->>|-->>|\-\->|-\-\->|->|-->|x|-\-x|\-\-x)\s*(.+?):\s*(.+?)\s*$" false.
Definition note : RegExp.t := Eval vm_compute in re "^note\s+(right|left|over)\s+(.+?):\s*(.*?)\s*$" true.
Definition loop : RegExp.t := Eval vm_compute in re "^loop\s+(.*?)\s*$" true.
Definition alt : RegExp.t := Eval vm_compute in re "^alt\s+(.*?)\s*$" true.
Definition else_ : RegExp.t := Eval vm_compute in re "^else\s+(.*?)\s*$" true.
Definition end_ : RegExp.t := Eval vm_compute in re "^end\s*$" true.
Definition comment : RegExp.t := Eval vm_compute in re "^%%.*$" false.
End sequence.
Module classDiagram.
Definition type : RegExp.t := Eval vm_compute in re "^classDiagram\s*$" true.
Definition classDef : RegExp.t := Eval vm_compute in re "^class\s+(\w+)(\s+<\|\-.*|\s*\{[^}]*\})?\s*$" true.
Definition relation : RegExp.t := Eval vm_compute in re "^\s*(\w+)\s*(--|\.\.\.|<\|--|\*--|o--|\|\.\.\.)\s*(\w+)\s*$" true.
Definition method : RegExp.t := Eval vm_compute in re "^\s*[+\-#~]?\s*\w+\([^)]*\)(\s*:\s*\w+)?\s*$" false.
Definition property : RegExp.t := Eval vm_compute in re "^\s*[+\-#~]?\s*\w+(\s*:\s*\w+)?\s*$" false.
Definition comment : RegExp.t := Eval vm_compute in re "^%%.*$" false.
End classDiagram.
Module stateDiagram.
Definition type : RegExp.t := Eval vm_compute in re "^stateDiagram(-v2)?\s*$" true.
Definition state : RegExp.t := Eval vm_compute in re "^\s*\[?\*?\]?\s*-->\s*\w+(\s*:\s*.+?)?\s*$" true.
Definition transition : RegExp.t := Eval vm_compute in re "^\s*(\w+|\[*\]?)\s*-->\s*(\w+|\[*\]?)(\s*:\s*.+?)?\s*$" true.
Definition initial : RegExp.t := Eval vm_compute in re "^\s*\[\*\]\s*-->\s*\w+\s*$" true.
Definition final : RegExp.t := Eval vm_compute in re "^\s*\w+\s*-->\s*\[\*\]\s*$" true.
Definition comment : RegExp.t := Eval vm_compute in re "^%%.*$" false.
End stateDiagram.
Module erDiagram.
Definition type : RegExp.t := Eval vm_compute in re "^erDiagram\s*$" true.
Definition entity : RegExp.t := Eval vm_compute in re "^(\w+)\s*\{\s*$" false.
Definition attribute : RegExp.t := Eval vm_compute in re "^\s*(\w+)\s+(\w+)(\s+(PK|FK))?\s*$" false.
Definition relationship : RegExp.t := Eval vm_compute in re "^\s*(\w+)\s*(\|\||\{o|o\||}o|o{|\|\}|}\||\{\{)\s*(\w+)\s*:\s*(.+?)\s*$" false.
Definition endEntity : RegExp.t := Eval vm_compute in re "^\s*\}\s*$" false.
Definition simpleRelationship : RegExp.t := Eval vm_compute in re "^\s*(\w+)\s*(\|\||\{o|o\||}o|o{|\|\}|}\||\{\{)\s*(\w+)\s*$" false.
Definition comment : RegExp.t := Eval vm_compute in re "^%%.*$" false.
End erDiagram.
Module gantt.
Definition type : RegExp.t := Eval vm_compute in re "^gantt\s*$" true.
Definition title : RegExp.t := Eval vm_compute in re "^title\s+(.+?)\s*$" true.
Definition dateFormat : RegExp.t := Eval vm_compute in re "^dateFormat\s+(.+?)\s*$" true.
Definition section : RegExp.t := Eval vm_compute in re "^section\s+(.+?)\s*$" true.
Definition task : RegExp.t := Eval vm_compute in re "^\s*(\w+)\s*:\s*(.+?),\s*(.+?)(\s*,\s*(.+?))?\s*$" false.
Definition milestone : RegExp.t := Eval vm_compute in re "^\s*(\w+)\s*:\s*milestone,\s*(.+?)\s*$" false.
Definition comment : RegExp.t := Eval vm_compute in re "^%%.*$" false.
End gantt.
Module journey.
Definition type : RegExp.t := Eval vm_compute in re "^journey\s*$" true.
Definition title : RegExp.t := Eval vm_compute in re "^title\s+(.+?)\s*$" true.
Definition section : RegExp.t := Eval vm_compute in re "^section\s+(.+?)\s*$" true.
Definition task : RegExp.t := Eval vm_compute in re "^\s*(.+?)\s*:\s*(\d+)\s*:\s*(.+?)\s*$" false.
Definition comment : RegExp.t := Eval vm_compute in re "^%%.*$" false.
End journey.
Module pie.
Definition type : RegExp.t := Eval vm_compute in re "^pie\s*(title\s+(.+?))?\s*$" true.
Definition data : RegExp.t := Eval vm_compute in re ("^\s*" ++ dq ++ "(.*?)" ++ dq ++ "\s*:\s*(\d+)\s*$") false.
Definition comment : RegExp.t := Eval vm_compute in re "^%%.*$" false.
End pie.
Module gitGraph.
Definition type : RegExp.t := Eval vm_compute in re "^gitGraph\s*$" true.
Definition commit : RegExp.t := Eval vm_compute in re "^\s*commit\s*(?:type:\s*(\w+))?\s*$" true.
Definition branch : RegExp.t := Eval vm_compute in re "^\s*branch\s+(.+?)\s*$" true.
Definition checkout : RegExp.t := Eval vm_compute in re "^\s*checkout\s+(.+?)\s*$" true.
Definition merge : RegExp.t := Eval vm_compute in re "^\s*merge\s+(.+?)\s*$" true.
Definition cherryPick : RegExp.t := Eval vm_compute in re "^\s*cherry-pick\s+(.+?)\s*$" true.
Definition comment : RegExp.t := Eval vm_compute in re "^%%.*$" false.
End gitGraph.
Module mindmap.
Definition type : RegExp.t := Eval vm_compute in re "^mindmap\s*$" true.
Definition node : RegExp.t := Eval vm_compute in re "^\s*([\s]*)([\+\-\*])(.+?)(\(\(.*?\)\))?(\[.*?\])?(\{.*?\})?\s*$" false.
Definition comment : RegExp.t := Eval vm_compute in re "^%%.*$" false.
End mindmap.
End patterns.

Definition detectDiagramType : list string -> DiagramType :=
  detect patterns.graph.types patterns.sequence.type
         patterns.classDiagram.type patterns.stateDiagram.type
         patterns.erDiagram.type patterns.gantt.type patterns.journey.type
         patterns.pie.type patterns.gitGraph.type patterns.mindmap.type.

Definition failure (msg kind : string) (n : nat) (hint : string) : Outcome.t :=
  {| Outcome.isValid := false;
     Outcome.error := Some msg;
     Outcome.type := Some kind;
     Outcome.line := Some n;
     Outcome.suggestion := Some hint |}.

(** [!line || line.startsWith('%%')] *)
Definition skipped (line : string) : bool :=
  negb (truthy line) || startsWith line "%%".

(** ["<what>: "<line>""] *)
Definition quoted (what line : string) : string :=
  what ++ ": " ++ dq ++ line ++ dq.

(** The body of the loop of [validateGraph]; the state is
    [(hasType, hasNodes, hasConnections)]. *)
Definition graphBody (i : nat) (raw : string) (st : bool * bool * bool)
  : flow (bool * bool * bool) :=
  let '(hasType, hasNodes, hasConnections) := st in
  let line := trim raw in
  if skipped line then Next st
  else if test patterns.graph.types line
       then Next (true, hasNodes, hasConnections)
  else if test patterns.graph.subgraph line then Next st
  else if test patterns.graph.endSubgraph line then Next st
  else if test patterns.graph.node line
       then Next (hasType, true, hasConnections)
  else if test patterns.graph.connection line
       then Next (hasType, hasNodes, true)
  else Return (failure (quoted "Invalid graph syntax" line) "syntax" (i + 1)
         "Check graph syntax. Valid formats: A[Text], A --> B, subgraph Title").

Definition validateGraph (lines : list string) : completion Outcome.t :=
  complete (forLines graphBody lines 0 (false, false, false))
    (fun '(hasType, _, _) =>
       if negb hasType then
         failure "Missing graph type declaration" "no_type" 1
           ("Add " ++ dq ++ "graph TB" ++ dq ++ " or " ++ dq ++ "graph TD" ++ dq
            ++ " at the beginning")
       else Outcome.valid).

(** The scan shared, statement for statement, by the eight routines that
    keep only [hasType]: a declaration rule, the rules that accept a
    line, and the two failure results. *)
Definition rulesBody (type : RegExp.t) (accepted : string -> bool)
  (invalid : string -> nat -> Outcome.t) (i : nat) (raw : string)
  (hasType : bool) : flow bool :=
  let line := trim raw in
  if skipped line then Next hasType
  else if test type line then Next true
  else if accepted line then Next hasType
  else Return (invalid line (i + 1)).

Definition declarationThenRules (type : RegExp.t) (accepted : string -> bool)
  (invalid : string -> nat -> Outcome.t) (missing : Outcome.t)
  (lines : list string) : completion Outcome.t :=
  complete (forLines (rulesBody type accepted invalid) lines 0 false)
    (fun hasType => if negb hasType then missing else Outcome.valid).

Definition validateSequence : list string -> completion Outcome.t :=
  declarationThenRules patterns.sequence.type
    (fun line =>
       test patterns.sequence.participant line ||
       test patterns.sequence.message line ||
       test patterns.sequence.note line ||
       test patterns.sequence.loop line ||
       test patterns.sequence.alt line ||
       test patterns.sequence.else_ line ||
       test patterns.sequence.end_ line)
    (fun line n =>
       failure (quoted "Invalid sequence diagram syntax" line) "syntax" n
         "Check sequence diagram syntax. Valid formats: A->>B: Message, participant A as Alice")
    (failure "Missing sequence diagram declaration" "no_type" 1
       ("Add " ++ dq ++ "sequenceDiagram" ++ dq ++ " at the beginning")).

Definition validateClassDiagram : list string -> completion Outcome.t :=
  declarationThenRules patterns.classDiagram.type
    (fun line =>
       test patterns.classDiagram.classDef line ||
       test patterns.classDiagram.relation line ||
       test patterns.classDiagram.method line ||
       test patterns.classDiagram.property line)
    (fun line n =>
       failure (quoted "Invalid class diagram syntax" line) "syntax" n
         "Check class diagram syntax. Valid formats: class ClassName, A --> B")
    (failure "Missing class diagram declaration" "no_type" 1
       ("Add " ++ dq ++ "classDiagram" ++ dq ++ " at the beginning")).

Definition validateStateDiagram : list string -> completion Outcome.t :=
  declarationThenRules patterns.stateDiagram.type
    (fun line =>
       test patterns.stateDiagram.state line ||
       test patterns.stateDiagram.transition line ||
       test patterns.stateDiagram.initial line ||
       test patterns.stateDiagram.final line)
    (fun line n =>
       failure (quoted "Invalid state diagram syntax" line) "syntax" n
         "Check state diagram syntax. Valid formats: [*] --> State, State1 --> State2")
    (failure "Missing state diagram declaration" "no_type" 1
       ("Add " ++ dq ++ "stateDiagram" ++ dq ++ " or " ++ dq ++ "stateDiagram-v2"
        ++ dq ++ " at the beginning")).

Definition validateERDiagram : list string -> completion Outcome.t :=
  declarationThenRules patterns.erDiagram.type
    (fun line =>
       test patterns.erDiagram.entity line ||
       test patterns.erDiagram.attribute line ||
       test patterns.erDiagram.relationship line ||
       test patterns.erDiagram.simpleRelationship line ||
       test patterns.erDiagram.endEntity line)
    (fun line n =>
       failure (quoted "Invalid ER diagram syntax" line) "syntax" n
         "Check ER diagram syntax. Valid formats: ENTITY { }, ENTITY ||--o{ ENTITY : relationship")
    (failure "Missing ER diagram declaration" "no_type" 1
       ("Add " ++ dq ++ "erDiagram" ++ dq ++ " at the beginning")).

Definition validateGantt : list string -> completion Outcome.t :=
  declarationThenRules patterns.gantt.type
    (fun line =>
       test patterns.gantt.title line ||
       test patterns.gantt.dateFormat line ||
       test patterns.gantt.section line ||
       test patterns.gantt.task line ||
       test patterns.gantt.milestone line)
    (fun line n =>
       failure (quoted "Invalid Gantt chart syntax" line) "syntax" n
         "Check Gantt chart syntax. Valid formats: title Text, section Name, task : id, date, duration")
    (failure "Missing Gantt chart declaration" "no_type" 1
       ("Add " ++ dq ++ "gantt" ++ dq ++ " at the beginning")).

Definition validateJourney : list string -> completion Outcome.t :=
  declarationThenRules patterns.journey.type
    (fun line =>
       test patterns.journey.title line ||
       test patterns.journey.section line ||
       test patterns.journey.task line)
    (fun line n =>
       failure (quoted "Invalid journey diagram syntax" line) "syntax" n
         "Check journey diagram syntax. Valid formats: title Text, section Name, Task: score: User")
    (failure "Missing journey diagram declaration" "no_type" 1
       ("Add " ++ dq ++ "journey" ++ dq ++ " at the beginning")).

(** The body of the loop of [validatePie]; the state is
    [(hasType, hasData)]. *)
Definition pieBody (i : nat) (raw : string) (st : bool * bool)
  : flow (bool * bool) :=
  let '(hasType, hasData) := st in
  let line := trim raw in
  if skipped line then Next st
  else if test patterns.pie.type line then Next (true, hasData)
  else if test patterns.pie.data line then Next (hasType, true)
  else Return (failure (quoted "Invalid pie chart syntax" line) "syntax" (i + 1)
         ("Check pie chart syntax. Valid formats: " ++ dq ++ "Label" ++ dq
          ++ " : value")).

Definition noData : Outcome.t :=
  failure "No data found in pie chart" "no_data" 2
    ("Add data in format: " ++ dq ++ "Label" ++ dq ++ " : value").

Definition validatePie (lines : list string) : completion Outcome.t :=
  complete (forLines pieBody lines 0 (false, false))
    (fun '(hasType, hasData) =>
       if negb hasType then
         failure "Missing pie chart declaration" "no_type" 1
           ("Add " ++ dq ++ "pie" ++ dq ++ " or " ++ dq ++ "pie title Text" ++ dq
            ++ " at the beginning")
       else if negb hasData then noData
       else Outcome.valid).

Definition validateGitGraph : list string -> completion Outcome.t :=
  declarationThenRules patterns.gitGraph.type
    (fun line =>
       test patterns.gitGraph.commit line ||
       test patterns.gitGraph.branch line ||
       test patterns.gitGraph.checkout line ||
       test patterns.gitGraph.merge line ||
       test patterns.gitGraph.cherryPick line)
    (fun line n =>
       failure (quoted "Invalid Git graph syntax" line) "syntax" n
         "Check Git graph syntax. Valid formats: commit, branch name, checkout name, merge name")
    (failure "Missing Git graph declaration" "no_type" 1
       ("Add " ++ dq ++ "gitGraph" ++ dq ++ " at the beginning")).

Definition validateMindmap : list string -> completion Outcome.t :=
  declarationThenRules patterns.mindmap.type
    (fun line => test patterns.mindmap.node line)
    (fun line n =>
       failure (quoted "Invalid mind map syntax" line) "syntax" n
         "Check mind map syntax. Use indentation and +, -, or * for hierarchy")
    (failure "Missing mind map declaration" "no_type" 1
       ("Add " ++ dq ++ "mindmap" ++ dq ++ " at the beginning")).

Definition validateByType (diagramType : DiagramType) (lines : list string)
  : completion Outcome.t :=
  match diagramType with
  | graph => validateGraph lines
  | sequence => validateSequence lines
  | classDiagram => validateClassDiagram lines
  | stateDiagram => validateStateDiagram lines
  | erDiagram => validateERDiagram lines
  | gantt => validateGantt lines
  | journey => validateJourney lines
  | pie => validatePie lines
  | gitGraph => validateGitGraph lines
  | mindmap => validateMindmap lines
  | unknown =>                                             (* default: *)
      Normal (failure ("Unsupported diagram type: " ++ typeName diagramType)
                "unsupported" 1 "Use a supported diagram type")
  end.

(** [validateSyntax]; [startTime] and [now] are the readings of
    [Date.now()] on entry and at the return. *)
Definition validateSyntax (startTime now : Z) (diagramCode : value)
  : Diagnostic :=
  match asCode diagramCode with
  | None => inputError
  | Some code =>
      let lines := split code in
      let diagramType := detectDiagramType lines in
      match diagramType with
      | unknown => noTypeDetected (now - startTime)
      | _ =>
          match validateByType diagramType lines with
          | Normal validationResult =>
              assemble validationResult (now - startTime) diagramType
                       (countElements lines)
          | Throw msg => caught msg (now - startTime) diagramType
          end
      end
  end.
End Simple.

(* ------------------------------------------------------------------ *)
(** ** The error classifier of the engine-delegating validator *)

Module Delegate.
Import JS.

(** A caught error: [error.message] may be missing. *)
Record Error : Type := { message : option string }.

(** [error.message?.toLowerCase() || ''] *)
Definition lowered (e : Error) : string :=
  match message e with
  | Some msg => toLowerCase msg
  | None => EmptyString
  end.

Definition _classifyError (e : Error) : string :=
  let message := lowered e in
  if includes message "syntax error" then "syntax"
  else if includes message "no diagram type" then "no_type"
  else if includes message "unknown" then "unknown_command"
  else if includes message "parse" then "parse"
  else if includes message "identifier" then "identifier"
  else if includes message "relation" then "relation"
  else "general".

(** The object literal [suggestions], in key order. *)
Definition suggestions : list (string * string) :=
  [ ("syntax", "Check for missing semicolons, brackets, or incorrect syntax");
    ("no_type", "Add a diagram type at the beginning (e.g., graph TD, sequenceDiagram)");
    ("unknown_command", "Verify the command is supported in your Mermaid version");
    ("parse", "Check the structure and syntax of your diagram");
    ("identifier", "Ensure all identifiers are valid and properly referenced");
    ("relation", "Check arrow syntax and node connections");
    ("general", "Review the diagram syntax and structure") ].

(** [suggestions[key]] *)
Fixpoint get (tbl : list (string * string)) (key : string) : option string :=
  match tbl with
  | [] => None
  | (k, v) :: tbl' => if String.eqb k key then Some v else get tbl' key
  end.

(** [suggestions[errorType] || suggestions.general] *)
Definition _getSuggestion (e : Error) : option string :=
  let errorType := _classifyError e in
  match get suggestions errorType with
  | Some v => if truthy v then Some v else get suggestions "general"
  | None => get suggestions "general"
  end.
End Delegate.

(* ------------------------------------------------------------------ *)
(** ** Vocabulary of the properties *)

(** A matcher only hands to its continuation states that lie further on
    in the input, and fails when its continuation always fails. *)
Definition forward (ma : RegExp.state -> RegExp.cont -> bool) : Prop :=
  forall x k k',
    (forall y, RegExp.remaining y <= RegExp.remaining x -> k y = k' y) ->
    ma x k = ma x k'.

Definition failing (ma : RegExp.state -> RegExp.cont -> bool) : Prop :=
  forall x, ma x (fun _ => false) = false.

(** [parsed r]: the pattern of [r] is not the one that stands for a
    source text outside the supported syntax. *)
Definition parsed (r : RegExp.t) : bool :=
  match RegExp.pattern r with
  | RegExp.CharSet false [] => false
  | _ => true
  end.

(** The code units that a pattern can consume. *)
Fixpoint alphabet (ic : bool) (r : RegExp.regex) (c : ascii) : bool :=
  match r with
  | RegExp.CharSet inv rs => RegExp.charIn ic inv rs c
  | RegExp.Seq a b | RegExp.Disj a b => alphabet ic a c || alphabet ic b c
  | RegExp.Star _ a | RegExp.Plus _ a | RegExp.Opt _ a => alphabet ic a c
  | _ => false
  end.

(** A pattern whose every match ends on [$]. *)
Fixpoint endsAtEnd (r : RegExp.regex) : bool :=
  match r with
  | RegExp.Seq _ b => endsAtEnd b
  | RegExp.Disj a b => endsAtEnd a && endsAtEnd b
  | RegExp.AssertEnd => true
  | _ => false
  end.

Fixpoint allChars (P : ascii -> bool) (s : string) : bool :=
  match s with
  | EmptyString => true
  | String c s' => P c && allChars P s'
  end.

(** [consumed P x y]: from [x] to [y] the matcher has read code units
    that satisfy [P]. *)
Definition consumed (P : ascii -> bool) (x y : RegExp.state) : Prop :=
  exists w, RegExp.rest x = w ++ RegExp.rest y /\ allChars P w = true.

(** The character class of the flowchart [validLine] rule. *)
Definition lineClass : RegExp.ranges :=
  match RegExp.pattern Flexible.patterns.graph.validLine with
  | RegExp.Seq _ (RegExp.Seq _ (RegExp.Seq (RegExp.Plus _ (RegExp.CharSet _ rs)) _)) => rs
  | _ => []
  end.

(** A result either is the valid one or carries a message, a kind, a line
    and a suggestion. *)
Definition rejection (o : Outcome.t) : Prop :=
  Outcome.isValid o = false /\
  (exists e, Outcome.error o = Some e) /\
  (exists k, Outcome.type o = Some k) /\
  (exists n, Outcome.line o = Some n) /\
  (exists h, Outcome.suggestion o = Some h).

Definition allErrorFieldsNull (r : Diagnostic) : Prop :=
  error r = None /\ type r = None /\ line r = None /\ suggestion r = None.

(** The invariant of the data model. *)
Definition coherent (r : Diagnostic) : Prop :=
  isValid r = true <-> allErrorFieldsNull r.

Definition nl : string := String JS.LF EmptyString.

(** The first valid diagram of the test-suite ('Simple Flowchart'). *)
Definition simpleFlowchart : string :=
  "graph TD" ++ nl ++
  "    A[Start] --> B{Decision}" ++ nl ++
  "    B -->|Yes| C[Process]" ++ nl ++
  "    B -->|No| D[End]" ++ nl ++
  "    C --> D".

(** The classification as the specification words it: ordered substring
    tests on the lower-cased message, the first match wins. *)
Definition classificationOrder : list (string * string) :=
  [ ("syntax error", "syntax");
    ("no diagram type", "no_type");
    ("unknown", "unknown_command");
    ("parse", "parse");
    ("identifier", "identifier");
    ("relation", "relation") ].

Fixpoint firstContained (order : list (string * string)) (msg : string) : string :=
  match order with
  | [] => "general"
  | (sub, kind) :: order' =>
      if JS.includes msg sub then kind else firstContained order' msg
  end.

(** The type-declaration rules of each table, in the order in which
    [detectDiagramType] tests them. *)
Definition Flexible_declarationRules : list (DiagramType * RegExp.t) :=
  [ (graph, Flexible.patterns.graph.types);
    (sequence, Flexible.patterns.sequence.type);
    (classDiagram, Flexible.patterns.classDiagram.type);
    (stateDiagram, Flexible.patterns.stateDiagram.type);
    (erDiagram, Flexible.patterns.erDiagram.type);
    (gantt, Flexible.patterns.gantt.type);
    (journey, Flexible.patterns.journey.type);
    (pie, Flexible.patterns.pie.type);
    (gitGraph, Flexible.patterns.gitGraph.type);
    (mindmap, Flexible.patterns.mindmap.type) ].

Definition Simple_declarationRules : list (DiagramType * RegExp.t) :=
  [ (graph, Simple.patterns.graph.types);
    (sequence, Simple.patterns.sequence.type);
    (classDiagram, Simple.patterns.classDiagram.type);
    (stateDiagram, Simple.patterns.stateDiagram.type);
    (erDiagram, Simple.patterns.erDiagram.type);
    (gantt, Simple.patterns.gantt.type);
    (journey, Simple.patterns.journey.type);
    (pie, Simple.patterns.pie.type);
    (gitGraph, Simple.patterns.gitGraph.type);
    (mindmap, Simple.patterns.mindmap.type) ].

(** Lines removed before detection, in the words of the specification:
    empty after trimming, or the trimmed text starts with the comment
    marker. *)
Definition blankOrComment (l : string) : bool :=
  String.eqb (JS.trim l) EmptyString || JS.startsWith (JS.trim l) "%%".

(** Detection as the specification words it, over an ordered rule list. *)
Definition detectFirstMatch (rules : list (DiagramType * RegExp.t))
  (lines : list string) : DiagramType :=
  match filter (fun l => negb (blankOrComment l)) lines with
  | [] => unknown
  | l :: _ =>
      match find (fun dr => RegExp.test (snd dr) (JS.toLowerCase (JS.trim l))) rules with
      | Some (d, _) => d
      | None => unknown
      end
  end.

Section FirstRejected.
Context {St : Type}.
(** What a meaningful, trimmed line does to the scan state; [None] when
    no rule accepts it. *)
Variable step : St -> string -> option St.
(** The result built for a rejected line at index [i]. *)
Variable reject : string -> nat -> Outcome.t.

Definition stepBody (i : nat) (raw : string) (st : St) : flow St :=
  if meaningful raw then
    match step st (JS.trim raw) with
    | Some st' => Next st'
    | None => Return (reject (JS.trim raw) i)
    end
  else Next st.

(** Index and trimmed text of the first rejected line, or the final
    state. *)
Fixpoint firstRejected (lines : list string) (i : nat) (st : St)
  : (nat * string) + St :=
  match lines with
  | [] => inr st
  | raw :: ls =>
      if meaningful raw then
        match step st (JS.trim raw) with
        | Some st' => firstRejected ls (S i) st'
        | None => inl (i, JS.trim raw)
        end
      else firstRejected ls (S i) st
  end.
End FirstRejected.

(** The rules that the flexible scan consults for a dialect: the [type]
    rule of its entry when there is one, its [validLine] rule and, for the
    flowchart dialect, the [subgraph] and [end] markers. *)
Definition Flexible_declares (d : DiagramType) (line : string) : bool :=
  match Flexible.lookup d with
  | Some ps => Flexible.testIfDefined (Flexible.Pat.type ps) line
  | None => false
  end.

Definition Flexible_lineShape (d : DiagramType) (line : string) : bool :=
  match Flexible.lookup d with
  | Some ps =>
      Flexible.testIfDefined (Flexible.Pat.validLine ps) line
      || (isGraph d &&
          (Flexible.testIfDefined (Flexible.Pat.subgraph ps) line
           || Flexible.testIfDefined (Flexible.Pat.end_ ps) line))
  | None => false
  end.

Definition Flexible_accepts (d : DiagramType) (line : string) : bool :=
  Flexible_declares d line || Flexible_lineShape d line.

Definition Flexible_step (d : DiagramType) (hasType : bool) (line : string)
  : option bool :=
  if Flexible_declares d line then Some true
  else if Flexible_lineShape d line then Some hasType
  else None.

(** The rules of a dialect as the specification lists them: its
    type-declaration rule (the flowchart entry calls it [types]), its
    line-shape rule and, for the flowchart dialect, the structural markers. *)
Definition Flexible_declarationRule (d : DiagramType) : option RegExp.t :=
  match Flexible.lookup d with
  | Some ps =>
      match Flexible.Pat.types ps with
      | Some r => Some r
      | None => Flexible.Pat.type ps
      end
  | None => None
  end.

Definition Flexible_rules (d : DiagramType) (line : string) : bool :=
  Flexible.testIfDefined (Flexible_declarationRule d) line
  || Flexible_lineShape d line.

Definition commentLine (c : string) : Prop :=
  JS.startsWith (JS.trim c) "%%" = true.

(** [interleaved L L']: [L'] is [L] with comment lines inserted anywhere
    (in front, in between, at the end). *)
Inductive interleaved : list string -> list string -> Prop :=
| interleaved_nil : interleaved [] []
| interleaved_keep (l : string) (L L' : list string) :
    interleaved L L' -> interleaved (l :: L) (l :: L')
| interleaved_comment (c : string) (L L' : list string) :
    commentLine c -> interleaved L L' -> interleaved L (c :: L').

(** Where a list and its interleaving hold the same line [raw]. *)
Definition sameLineAt (L L' : list string) (raw : string) (n n' : nat) : Prop :=
  exists A B A' B',
    L = (A ++ raw :: B)%list /\ L' = (A' ++ raw :: B')%list /\
    interleaved A A' /\ interleaved B B' /\
    n = List.length A /\ n' = List.length A'.

(** A literal pattern character. *)
Definition lit (n : nat) : RegExp.regex := RegExp.CharSet false [(n, n)].

(** ASCII lower-casing, and the first two characters of a line under
    it. *)
Definition lowerAscii (c : ascii) : ascii :=
  if JS.between 65 90 c then ascii_of_nat (JS.code c + 32) else c.

Definition lead (s : string) : string :=
  match s with
  | String a (String b _) =>
      String (lowerAscii a) (String (lowerAscii b) EmptyString)
  | _ => EmptyString
  end.

(** The first two letters, lower-cased, of the lines that a dialect's
    declaration rule can match. *)
Definition leads (d : DiagramType) : list string :=
  match d with
  | graph => ["gr"; "fl"]
  | sequence => ["se"]
  | classDiagram => ["cl"]
  | stateDiagram => ["st"]
  | erDiagram => ["er"]
  | gantt => ["ga"]
  | journey => ["jo"]
  | pie => ["pi"]
  | gitGraph => ["gi"]
  | mindmap => ["mi"]
  | unknown => []
  end.

(** First-match detection over a list in which at most one rule can
    match does not depend on the order of the list. *)
Definition firstDialect (p : DiagramType * RegExp.t -> bool)
  (rules : list (DiagramType * RegExp.t)) : DiagramType :=
  match find p rules with
  | Some (d, _) => d
  | None => unknown
  end.

(* ------------------------------------------------------------------ *)
(** ** Vocabulary of the further properties *)

(** Index and trimmed text of the first meaningful line that [accepts]
    turns down. *)
Fixpoint firstBad (accepts : string -> bool) (lines : list string) (i : nat)
  : option (nat * string) :=
  match lines with
  | [] => None
  | raw :: ls =>
      if meaningful raw && negb (accepts (JS.trim raw))
      then Some (i, JS.trim raw)
      else firstBad accepts ls (S i)
  end.

(** Some meaningful line, trimmed, satisfies [p]. *)
Definition seenLine (p : string -> bool) (lines : list string) : bool :=
  existsb (fun l => meaningful l && p (JS.trim l)) lines.

(** The step of a scan that keeps [hasType]: a declaration sets it, a
    line of another accepted shape leaves it. *)
Definition declStep (declares shape : string -> bool) (hasType : bool)
  (line : string) : option bool :=
  if declares line then Some true
  else if shape line then Some hasType
  else None.

(** Kind and line of the result of a scan, read off the text as a whole:
    the first line that no rule accepts; else a missing declaration; else,
    where data is required, missing data; else nothing. *)
Definition scanKind (needsData : bool) (declares shape data : string -> bool)
  (lines : list string) : option string * option nat :=
  match firstBad (fun l => declares l || shape l) lines 0 with
  | Some (j, _) => (Some "syntax", Some (j + 1))
  | None =>
      if negb (seenLine declares lines) then (Some "no_type", Some 1)
      else if needsData && negb (seenLine data lines) then (Some "no_data", Some 2)
      else (None, None)
  end.

(** The rules of the simple validator, dialect by dialect: the
    declaration rule and the other rules that let a line pass. *)
Definition Simple_declares (d : DiagramType) (line : string) : bool :=
  match d with
  | graph => RegExp.test Simple.patterns.graph.types line
  | sequence => RegExp.test Simple.patterns.sequence.type line
  | classDiagram => RegExp.test Simple.patterns.classDiagram.type line
  | stateDiagram => RegExp.test Simple.patterns.stateDiagram.type line
  | erDiagram => RegExp.test Simple.patterns.erDiagram.type line
  | gantt => RegExp.test Simple.patterns.gantt.type line
  | journey => RegExp.test Simple.patterns.journey.type line
  | pie => RegExp.test Simple.patterns.pie.type line
  | gitGraph => RegExp.test Simple.patterns.gitGraph.type line
  | mindmap => RegExp.test Simple.patterns.mindmap.type line
  | unknown => false
  end.

Definition Simple_shape (d : DiagramType) (line : string) : bool :=
  match d with
  | graph =>
      RegExp.test Simple.patterns.graph.subgraph line ||
      (RegExp.test Simple.patterns.graph.endSubgraph line ||
       (RegExp.test Simple.patterns.graph.node line ||
        RegExp.test Simple.patterns.graph.connection line))
  | sequence =>
      RegExp.test Simple.patterns.sequence.participant line ||
      RegExp.test Simple.patterns.sequence.message line ||
      RegExp.test Simple.patterns.sequence.note line ||
      RegExp.test Simple.patterns.sequence.loop line ||
      RegExp.test Simple.patterns.sequence.alt line ||
      RegExp.test Simple.patterns.sequence.else_ line ||
      RegExp.test Simple.patterns.sequence.end_ line
  | classDiagram =>
      RegExp.test Simple.patterns.classDiagram.classDef line ||
      RegExp.test Simple.patterns.classDiagram.relation line ||
      RegExp.test Simple.patterns.classDiagram.method line ||
      RegExp.test Simple.patterns.classDiagram.property line
  | stateDiagram =>
      RegExp.test Simple.patterns.stateDiagram.state line ||
      RegExp.test Simple.patterns.stateDiagram.transition line ||
      RegExp.test Simple.patterns.stateDiagram.initial line ||
      RegExp.test Simple.patterns.stateDiagram.final line
  | erDiagram =>
      RegExp.test Simple.patterns.erDiagram.entity line ||
      RegExp.test Simple.patterns.erDiagram.attribute line ||
      RegExp.test Simple.patterns.erDiagram.relationship line ||
      RegExp.test Simple.patterns.erDiagram.simpleRelationship line ||
      RegExp.test Simple.patterns.erDiagram.endEntity line
  | gantt =>
      RegExp.test Simple.patterns.gantt.title line ||
      RegExp.test Simple.patterns.gantt.dateFormat line ||
      RegExp.test Simple.patterns.gantt.section line ||
      RegExp.test Simple.patterns.gantt.task line ||
      RegExp.test Simple.patterns.gantt.milestone line
  | journey =>
      RegExp.test Simple.patterns.journey.title line ||
      RegExp.test Simple.patterns.journey.section line ||
      RegExp.test Simple.patterns.journey.task line
  | pie => RegExp.test Simple.patterns.pie.data line
  | gitGraph =>
      RegExp.test Simple.patterns.gitGraph.commit line ||
      RegExp.test Simple.patterns.gitGraph.branch line ||
      RegExp.test Simple.patterns.gitGraph.checkout line ||
      RegExp.test Simple.patterns.gitGraph.merge line ||
      RegExp.test Simple.patterns.gitGraph.cherryPick line
  | mindmap => RegExp.test Simple.patterns.mindmap.node line
  | unknown => false
  end.

Definition isPie (d : DiagramType) : bool :=
  match d with pie => true | _ => false end.

(** A pie line that counts as data: not a declaration, and matching the
    data rule. *)
Definition Simple_pieData (line : string) : bool :=
  negb (RegExp.test Simple.patterns.pie.type line)
  && RegExp.test Simple.patterns.pie.data line.

Definition Simple_scanKind (d : DiagramType) (lines : list string)
  : option string * option nat :=
  scanKind (isPie d) (Simple_declares d) (Simple_shape d) Simple_pieData lines.

Definition Flexible_scanKind (d : DiagramType) (lines : list string)
  : option string * option nat :=
  scanKind false (Flexible_declares d) (Flexible_lineShape d) (fun _ => false) lines.

(** The steps of the two scans of the simple validator that keep more
    than [hasType]. *)
Definition Simple_graphStep (st : bool * bool * bool) (line : string)
  : option (bool * bool * bool) :=
  let '(hasType, hasNodes, hasConnections) := st in
  if RegExp.test Simple.patterns.graph.types line
  then Some (true, hasNodes, hasConnections)
  else if RegExp.test Simple.patterns.graph.subgraph line then Some st
  else if RegExp.test Simple.patterns.graph.endSubgraph line then Some st
  else if RegExp.test Simple.patterns.graph.node line
       then Some (hasType, true, hasConnections)
  else if RegExp.test Simple.patterns.graph.connection line
       then Some (hasType, hasNodes, true)
  else None.

Definition Simple_pieStep (st : bool * bool) (line : string)
  : option (bool * bool) :=
  let '(hasType, hasData) := st in
  if RegExp.test Simple.patterns.pie.type line then Some (true, hasData)
  else if RegExp.test Simple.patterns.pie.data line then Some (hasType, true)
  else None.

(** [o] has the kind and line [kl] and is valid exactly when it has no
    kind. *)
Definition hasKind (o : Outcome.t) (kl : option string * option nat) : Prop :=
  (Outcome.type o, Outcome.line o) = kl /\
  Outcome.isValid o = match fst kl with None => true | Some _ => false end.

(** Every code unit of the model. *)
Definition allCodeUnits : list ascii := map ascii_of_nat (List.seq 0 256).

(** No character class of the pattern tells a code unit from its lower
    case. *)
Fixpoint lowerClosed (ic : bool) (r : RegExp.regex) : bool :=
  match r with
  | RegExp.CharSet inv rs =>
      forallb (fun c => Bool.eqb (RegExp.charIn ic inv rs (JS.lowerChar c))
                                 (RegExp.charIn ic inv rs c)) allCodeUnits
  | RegExp.Seq a b | RegExp.Disj a b => lowerClosed ic a && lowerClosed ic b
  | RegExp.Star _ a | RegExp.Plus _ a | RegExp.Opt _ a => lowerClosed ic a
  | _ => true
  end.

Definition lowerState (x : RegExp.state) : RegExp.state :=
  {| RegExp.prev := option_map JS.lowerChar (RegExp.prev x);
     RegExp.rest := JS.toLowerCase (RegExp.rest x) |}.

(** A result for a first rejected line [fb] is the syntax failure of its
    scan routine: it quotes the trimmed line and carries its 1-based index. *)
Definition syntaxAt (o : Outcome.t) (fb : option (nat * string)) : Prop :=
  forall j x, fb = Some (j, x) ->
    exists label hint,
      o = Simple.failure (Simple.quoted label x) "syntax" (j + 1) hint.

(** The pattern with every quantifier made lazy. *)
Fixpoint lazify (r : RegExp.regex) : RegExp.regex :=
  match r with
  | RegExp.Seq a b => RegExp.Seq (lazify a) (lazify b)
  | RegExp.Disj a b => RegExp.Disj (lazify a) (lazify b)
  | RegExp.Star _ a => RegExp.Star false (lazify a)
  | RegExp.Plus _ a => RegExp.Plus false (lazify a)
  | RegExp.Opt _ a => RegExp.Opt false (lazify a)
  | _ => r
  end.

(** Two rules that differ at most in the greediness of their
    quantifiers. *)
Definition sameUpToGreed (r1 r2 : RegExp.t) : Prop :=
  lazify (RegExp.pattern r1) = lazify (RegExp.pattern r2) /\
  RegExp.ignoreCase r1 = RegExp.ignoreCase r2.

(** The loop of [validateBatch]:
    [for (let i = 0; i < diagrams.length; i++)
       results.push({ index: i, ...this.validateSyntax(diagrams[i]) })];
    [clock i] holds the two readings of [Date.now()] of the [i]-th call. *)
Fixpoint batchLoop (validateSyntax : Z -> Z -> value -> Diagnostic)
  (clock : nat -> Z * Z) (diagrams : list value) (i : nat)
  (results : list (nat * Diagnostic)) : list (nat * Diagnostic) :=
  match diagrams with
  | [] => results
  | v :: rest =>
      batchLoop validateSyntax clock rest (S i)
        (results ++ [(i, validateSyntax (fst (clock i)) (snd (clock i)) v)])
  end.

(** [validateBatch] of the simple validator. *)
Definition Simple_validateBatch (clock : nat -> Z * Z) (diagrams : list value)
  : list (nat * Diagnostic) :=
  batchLoop Simple.validateSyntax clock diagrams 0 [].

(** [_countElements] of the engine-delegating validator: the loop over
    the lines of the text, with its counter. *)
Definition Delegate_countLine (count : nat) (line : string) : nat :=
  let trimmed := JS.trim line in
  if JS.truthy trimmed && negb (JS.startsWith trimmed "%%")
     && negb (JS.startsWith trimmed "%%{")
  then S count else count.

Definition Delegate_countElements (code : string) : nat :=
  fold_left Delegate_countLine (JS.split code) 0.

(** Two results that differ at most in the line they report. *)
Definition sameButLine (o o' : Outcome.t) : Prop :=
  Outcome.isValid o' = Outcome.isValid o /\
  Outcome.error o' = Outcome.error o /\
  Outcome.type o' = Outcome.type o /\
  Outcome.suggestion o' = Outcome.suggestion o.

(** How the result [o] of a scan of [L] and the result [o'] of the scan
    of [L'], which is [L] with comment lines inserted, compare: equal, or two
    syntax failures that blame the same line at its two indices. *)
Definition commentShift (L L' : list string) (o o' : Outcome.t) : Prop :=
  (Outcome.type o <> Some "syntax" /\ o' = o) \/
  (Outcome.type o = Some "syntax" /\ sameButLine o o' /\
   exists raw n n',
     sameLineAt L L' raw n n' /\
     Outcome.line o = Some (S n) /\ Outcome.line o' = Some (S n')).

(** The counts in the [summary] of [handleValidateBatch] (server.js):
    [results.length], [results.filter(r => r.isValid).length] and
    [results.filter(r => !r.isValid).length]. *)
Definition summaryTotal (results : list (nat * Diagnostic)) : nat :=
  List.length results.

Definition summaryValid (results : list (nat * Diagnostic)) : nat :=
  List.length (filter (fun r => isValid (snd r)) results).

Definition summaryInvalid (results : list (nat * Diagnostic)) : nat :=
  List.length (filter (fun r => negb (isValid (snd r))) results).

(* ------------------------------------------------------------------ *)
(** ** Properties *)

(** *** The matcher *)

Section Matcher.
Import JS RegExp.

Lemma repeat_forward (ma : state -> cont -> bool) (g : bool) :
  forward ma ->
  forall n x k k',
    (forall y, remaining y <= remaining x -> k y = k' y) ->
    repeat ma g k n x = repeat ma g k' n x.
Proof.
  intros Hf n; induction n as [|n IH]; intros x k k' H; simpl.
  - now rewrite (H x (Nat.le_refl _)).
  - rewrite (H x (Nat.le_refl _)).
    rewrite (Hf x _ (fun y => negb (Nat.eqb (remaining y) (remaining x))
                              && repeat ma g k' n y)); [reflexivity|].
    intros y Hy. f_equal. apply IH. intros z Hz. apply H. lia.
Qed.

Lemma repeat_failing (ma : state -> cont -> bool) (g : bool) :
  forward ma -> failing ma ->
  forall n x, repeat ma g (fun _ => false) n x = false.
Proof.
  intros Hf H0 n; induction n as [|n IH]; intros x; simpl.
  - now destruct g.
  - rewrite (Hf x _ (fun _ => false)).
    + rewrite H0. now destruct g.
    + intros y _. rewrite IH. apply andb_false_r.
Qed.

Lemma m_forward (ic : bool) (r : regex) : forward (m ic r).
Proof.
  induction r as [|inv rs|a IHa b IHb|a IHa b IHb|g a IHa|g a IHa|g a IHa| | |];
    intros x k k' H; simpl.
  - apply H; lia.
  - destruct x as [p s]; simpl in *. destruct s as [|c s]; [reflexivity|].
    destruct (charIn ic inv rs c); [|reflexivity].
    apply H. unfold remaining; simpl. lia.
  - apply IHa. intros y Hy. apply IHb. intros z Hz. apply H. lia.
  - now rewrite (IHa x k k' H), (IHb x k k' H).
  - now apply repeat_forward.
  - apply IHa. intros y Hy. apply repeat_forward; [exact IHa|].
    intros z Hz. apply H. lia.
  - rewrite (H x (Nat.le_refl _)).
    rewrite (IHa x _ (fun y => negb (Nat.eqb (remaining y) (remaining x)) && k' y));
      [reflexivity|].
    intros y Hy. f_equal. now apply H.
  - destruct (prev x); [reflexivity|]. apply H; lia.
  - destruct (rest x); [|reflexivity]. apply H; lia.
  - destruct (xorb _ _); [|reflexivity]. apply H; lia.
Qed.

Lemma m_failing (ic : bool) (r : regex) : failing (m ic r).
Proof.
  induction r as [|inv rs|a IHa b IHb|a IHa b IHb|g a IHa|g a IHa|g a IHa| | |];
    intros x; simpl.
  - reflexivity.
  - destruct (rest x); [reflexivity|]. now destruct (charIn ic inv rs a).
  - rewrite (m_forward ic a x _ (fun _ => false)); [apply IHa|].
    intros y _. apply IHb.
  - now rewrite IHa, IHb.
  - apply repeat_failing; [apply m_forward|exact IHa].
  - rewrite (m_forward ic a x _ (fun _ => false)); [apply IHa|].
    intros y _. apply repeat_failing; [apply m_forward|exact IHa].
  - rewrite (m_forward ic a x _ (fun _ => false)); [rewrite IHa; now destruct g|].
    intros y _. apply andb_false_r.
  - now destruct (prev x).
  - now destruct (rest x).
  - now destruct (xorb _ _).
Qed.

(** The iteration bound of [repeat] is never what stops it: any bound
    at least the number of code units left gives the same answer. *)
Lemma repeat_bound_irrelevant (ic : bool) (a : regex) (g : bool) (k : cont)
  (n : nat) (x : state) :
  remaining x <= n ->
  repeat (m ic a) g k n x = repeat (m ic a) g k (remaining x) x.
Proof.
  assert (Hstep : forall n x, remaining x <= n ->
            repeat (m ic a) g k (S n) x = repeat (m ic a) g k n x).
  { clear n x. intros n; induction n as [|n IH]; intros x Hx.
    - simpl.
      rewrite (m_forward ic a x _ (fun _ => false)).
      + rewrite !m_failing. now destruct g.
      + intros y Hy. replace (remaining y) with (remaining x) by lia.
        now rewrite Nat.eqb_refl.
    - change (repeat (m ic a) g k (S (S n)) x) with
        (let again := m ic a x (fun y => negb (Nat.eqb (remaining y) (remaining x))
                                          && repeat (m ic a) g k (S n) y) in
         if g then again || k x else k x || again).
      change (repeat (m ic a) g k (S n) x) with
        (let again := m ic a x (fun y => negb (Nat.eqb (remaining y) (remaining x))
                                          && repeat (m ic a) g k n y) in
         if g then again || k x else k x || again).
      cbv zeta.
      rewrite (m_forward ic a x _
                 (fun y => negb (Nat.eqb (remaining y) (remaining x))
                           && repeat (m ic a) g k n y)); [reflexivity|].
      intros y Hy. destruct (Nat.eqb (remaining y) (remaining x)) eqn:E;
        [reflexivity|]. simpl. apply Nat.eqb_neq in E. apply IH. lia. }
  induction n as [|n IH]; intros Hx.
  - now replace (remaining x) with 0 by lia.
  - destruct (Nat.eq_dec (remaining x) (S n)) as [->|Hne]; [reflexivity|].
    rewrite Hstep by lia. apply IH. lia.
Qed.

Lemma consumed_refl P x : consumed P x x.
Proof. exists EmptyString. split; reflexivity. Qed.

Lemma allChars_app P (u v : string) :
  allChars P u = true -> allChars P v = true -> allChars P (u ++ v) = true.
Proof.
  induction u as [|c u IH]; simpl; [auto|].
  intros H Hv. apply andb_prop in H as [-> Hu]. simpl. auto.
Qed.

Lemma allChars_weaken (P Q : ascii -> bool) (w : string) :
  (forall c, P c = true -> Q c = true) -> allChars P w = true -> allChars Q w = true.
Proof.
  intros H. induction w as [|c w IH]; simpl; [auto|].
  intros Hw. apply andb_prop in Hw as [Hc Hw]. rewrite (H c Hc). simpl. auto.
Qed.

Lemma append_assoc (u v w : string) : (u ++ v) ++ w = u ++ (v ++ w).
Proof. induction u as [|c u IH]; simpl; [reflexivity|now rewrite IH]. Qed.

Lemma consumed_trans P x y z : consumed P x y -> consumed P y z -> consumed P x z.
Proof.
  intros (u & Hu & Pu) (v & Hv & Pv). exists (u ++ v). split.
  - rewrite Hu, Hv. symmetry. apply append_assoc.
  - now apply allChars_app.
Qed.

Lemma consumed_weaken (P Q : ascii -> bool) x y :
  (forall c, P c = true -> Q c = true) -> consumed P x y -> consumed Q x y.
Proof.
  intros H (w & Hw & Pw). exists w. split; [exact Hw|]. eapply allChars_weaken; eassumption.
Qed.

Lemma repeat_consumes (ma : state -> cont -> bool) (P : ascii -> bool) (g : bool)
  (k : cont) :
  (forall x k', ma x k' = true -> exists y, k' y = true /\ consumed P x y) ->
  forall n x, repeat ma g k n x = true -> exists y, k y = true /\ consumed P x y.
Proof.
  intros Hma n; induction n as [|n IH]; intros x; simpl.
  - destruct g; simpl; intros H; exists x; (split; [|apply consumed_refl]);
      [exact H | now rewrite orb_false_r in H].
  - intros H.
    assert (Hc : ma x (fun y => negb (Nat.eqb (remaining y) (remaining x))
                                && repeat ma g k n y) = true \/ k x = true).
    { destruct g; apply orb_prop in H; tauto. }
    destruct Hc as [Hc|Hc].
    + apply Hma in Hc as (y & Hy & Hxy). apply andb_prop in Hy as [_ Hy].
      apply IH in Hy as (z & Hz & Hyz). exists z. split; [exact Hz|].
      eapply consumed_trans; eassumption.
    + exists x. split; [exact Hc|apply consumed_refl].
Qed.

Lemma m_consumes (ic : bool) (r : regex) :
  forall x k, m ic r x k = true ->
    exists y, k y = true /\ consumed (alphabet ic r) x y /\
              (endsAtEnd r = true -> rest y = EmptyString).
Proof.
  induction r as [|inv rs|a IHa b IHb|a IHa b IHb|g a IHa|g a IHa|g a IHa| | |];
    intros x k; simpl.
  - intros H. exists x. repeat split; [exact H|apply consumed_refl|discriminate].
  - destruct x as [p s]; simpl. destruct s as [|c s]; [discriminate|].
    destruct (charIn ic inv rs c) eqn:E; [|discriminate].
    intros H. eexists. repeat split; [exact H| |discriminate].
    exists (String c EmptyString). simpl. now rewrite E.
  - intros H. apply IHa in H as (y & Hy & Hxy & _).
    apply IHb in Hy as (z & Hz & Hyz & He). exists z. repeat split; [exact Hz| |exact He].
    eapply consumed_trans; eapply consumed_weaken; try eassumption;
      intros c Hc; rewrite Hc; auto using orb_true_r.
  - intros H. apply orb_prop in H as [H|H].
    + apply IHa in H as (y & Hy & Hxy & He). exists y. repeat split; [exact Hy| |].
      * eapply consumed_weaken; [|exact Hxy]. intros c Hc; now rewrite Hc.
      * intros E. apply andb_prop in E as [E _]. auto.
    + apply IHb in H as (y & Hy & Hxy & He). exists y. repeat split; [exact Hy| |].
      * eapply consumed_weaken; [|exact Hxy]. intros c Hc; rewrite Hc; apply orb_true_r.
      * intros E. apply andb_prop in E as [_ E]. auto.
  - intros H. apply (repeat_consumes _ (alphabet ic a)) in H as (y & Hy & Hxy).
    + exists y. repeat split; [exact Hy|exact Hxy|discriminate].
    + intros x' k' H'. apply IHa in H' as (y & Hy & Hxy & _). eauto.
  - intros H. apply IHa in H as (y & Hy & Hxy & _).
    apply (repeat_consumes _ (alphabet ic a)) in Hy as (z & Hz & Hyz).
    + exists z. repeat split; [exact Hz| |discriminate].
      eapply consumed_trans; eassumption.
    + intros x' k' H'. apply IHa in H' as (y' & Hy' & Hxy' & _). eauto.
  - intros H.
    assert (Hc : m ic a x (fun y => negb (Nat.eqb (remaining y) (remaining x)) && k y)
                 = true \/ k x = true).
    { destruct g; apply orb_prop in H; tauto. }
    destruct Hc as [Hc|Hc].
    + apply IHa in Hc as (y & Hy & Hxy & _). apply andb_prop in Hy as [_ Hy].
      exists y. repeat split; [exact Hy|exact Hxy|discriminate].
    + exists x. repeat split; [exact Hc|apply consumed_refl|discriminate].
  - destruct (prev x); [discriminate|]. intros H.
    exists x. repeat split; [exact H|apply consumed_refl|discriminate].
  - destruct (rest x) eqn:E; [|discriminate]. intros H.
    exists x. repeat split; [exact H|apply consumed_refl|auto].
  - destruct (xorb _ _); [|discriminate]. intros H.
    exists x. repeat split; [exact H|apply consumed_refl|discriminate].
Qed.

Lemma append_empty_r (w : string) : w ++ EmptyString = w.
Proof. induction w as [|c w IH]; simpl; [reflexivity|now rewrite IH]. Qed.

(** A pattern that starts with [^] can only match from index 0. *)
Lemma search_anchored (ic : bool) (body : regex) (c : ascii) (s : string) :
  search ic (Seq AssertStart body) (Some c) s = false.
Proof.
  revert c; induction s as [|c' s IH]; intros c; simpl; [reflexivity|apply IH].
Qed.

Lemma test_anchored (ic : bool) (body : regex) (s : string) :
  test {| pattern := Seq AssertStart body; ignoreCase := ic |} s =
  m ic body {| prev := None; rest := s |} (fun _ => true).
Proof.
  unfold test. destruct s as [|c s]; simpl.
  - now rewrite orb_false_r.
  - rewrite search_anchored. now rewrite orb_false_r.
Qed.

(** A line matched by a pattern anchored at both ends is made of code units
    of the pattern's alphabet. *)
Lemma test_alphabet (ic : bool) (body : regex) (s : string) :
  endsAtEnd body = true ->
  test {| pattern := Seq AssertStart body; ignoreCase := ic |} s = true ->
  allChars (alphabet ic body) s = true.
Proof.
  intros He H. rewrite test_anchored in H.
  apply m_consumes in H as (y & _ & (w & Hw & Pw) & Hy).
  simpl in Hw. rewrite (Hy He), append_empty_r in Hw. now subst.
Qed.

Lemma repeat_skip (ma : state -> cont -> bool) (k : cont) (n : nat) (x : state) :
  k x = true -> repeat ma true k n x = true.
Proof. intros H. destruct n; simpl; rewrite H; [reflexivity|apply orb_true_r]. Qed.

Lemma repeat_class_all (ic inv : bool) (rs : ranges) (k : cont) :
  (forall p, k {| prev := p; rest := EmptyString |} = true) ->
  forall s p, allChars (charIn ic inv rs) s = true ->
    repeat (m ic (CharSet inv rs)) true k (String.length s)
      {| prev := p; rest := s |} = true.
Proof.
  intros Hk s; induction s as [|c s IH]; intros p H.
  - apply repeat_skip. apply Hk.
  - cbn [allChars] in H. apply andb_prop in H as [Hc Hs].
    change (m ic (CharSet inv rs) {| prev := p; rest := String c s |}
              (fun y => negb (Nat.eqb (remaining y)
                                (remaining {| prev := p; rest := String c s |}))
                        && repeat (m ic (CharSet inv rs)) true k (String.length s) y)
            || k {| prev := p; rest := String c s |} = true).
    apply orb_true_intro. left.
    change ((if charIn ic inv rs c
             then negb (Nat.eqb (String.length s) (S (String.length s)))
                  && repeat (m ic (CharSet inv rs)) true k (String.length s)
                       {| prev := Some c; rest := s |}
             else false) = true).
    rewrite Hc, (IH (Some c) Hs).
    replace (Nat.eqb (String.length s) (S (String.length s))) with false; [reflexivity|].
    symmetry. apply Nat.eqb_neq. lia.
Qed.

Lemma graph_validLine_complete (s : string) :
  s <> EmptyString ->
  allChars (charIn false false lineClass) s = true ->
  test Flexible.patterns.graph.validLine s = true.
Proof.
  intros Hne H. unfold Flexible.patterns.graph.validLine. rewrite test_anchored.
  cbn [m]. apply repeat_skip. cbn [m].
  destruct s as [|c s]; [congruence|].
  cbn [allChars] in H. apply andb_prop in H as [Hc Hs].
  cbn [rest]. change (charIn false false _ c) with (charIn false false lineClass c).
  rewrite Hc. apply repeat_class_all; [reflexivity|exact Hs].
Qed.

Lemma graph_types_alphabet (c : ascii) :
  alphabet true (pattern Flexible.patterns.graph.types) c = true ->
  charIn false false lineClass c = true.
Proof.
  destruct c as [[] [] [] [] [] [] [] []]; vm_compute; intros H;
    first [reflexivity | discriminate H].
Qed.

Lemma graph_types_validLine (s : string) :
  test Flexible.patterns.graph.types s = true ->
  test Flexible.patterns.graph.validLine s = true.
Proof.
  intros H. apply graph_validLine_complete.
  - intros ->. vm_compute in H. discriminate.
  - apply (allChars_weaken (alphabet true (pattern Flexible.patterns.graph.types)));
      [apply graph_types_alphabet|].
    unfold Flexible.patterns.graph.types in *.
    apply test_alphabet in H; [|reflexivity].
    eapply allChars_weaken; [|exact H]. intros c Hc. simpl. exact Hc.
Qed.

(** Every rule of both tables is in the supported pattern syntax. *)
Lemma rule_tables_parsed :
  forallb parsed
    [ Flexible.patterns.graph.types; Flexible.patterns.graph.validLine;
      Flexible.patterns.graph.comment; Flexible.patterns.graph.subgraph;
      Flexible.patterns.graph.end_;
      Flexible.patterns.sequence.type; Flexible.patterns.sequence.validLine;
      Flexible.patterns.classDiagram.type; Flexible.patterns.classDiagram.validLine;
      Flexible.patterns.stateDiagram.type; Flexible.patterns.stateDiagram.validLine;
      Flexible.patterns.erDiagram.type; Flexible.patterns.erDiagram.validLine;
      Flexible.patterns.gantt.type; Flexible.patterns.gantt.validLine;
      Flexible.patterns.journey.type; Flexible.patterns.journey.validLine;
      Flexible.patterns.pie.type; Flexible.patterns.pie.validLine;
      Flexible.patterns.gitGraph.type; Flexible.patterns.gitGraph.validLine;
      Flexible.patterns.mindmap.type; Flexible.patterns.mindmap.validLine;
      Simple.patterns.graph.types; Simple.patterns.graph.node;
      Simple.patterns.graph.connection; Simple.patterns.graph.subgraph;
      Simple.patterns.graph.endSubgraph;
      Simple.patterns.sequence.type; Simple.patterns.sequence.participant;
      Simple.patterns.sequence.message; Simple.patterns.sequence.note;
      Simple.patterns.sequence.loop; Simple.patterns.sequence.alt;
      Simple.patterns.sequence.else_; Simple.patterns.sequence.end_;
      Simple.patterns.classDiagram.type; Simple.patterns.classDiagram.classDef;
      Simple.patterns.classDiagram.relation; Simple.patterns.classDiagram.method;
      Simple.patterns.classDiagram.property;
      Simple.patterns.stateDiagram.type; Simple.patterns.stateDiagram.state;
      Simple.patterns.stateDiagram.transition; Simple.patterns.stateDiagram.initial;
      Simple.patterns.stateDiagram.final;
      Simple.patterns.erDiagram.type; Simple.patterns.erDiagram.entity;
      Simple.patterns.erDiagram.attribute; Simple.patterns.erDiagram.relationship;
      Simple.patterns.erDiagram.endEntity; Simple.patterns.erDiagram.simpleRelationship;
      Simple.patterns.gantt.type; Simple.patterns.gantt.title;
      Simple.patterns.gantt.dateFormat; Simple.patterns.gantt.section;
      Simple.patterns.gantt.task; Simple.patterns.gantt.milestone;
      Simple.patterns.journey.type; Simple.patterns.journey.title;
      Simple.patterns.journey.section; Simple.patterns.journey.task;
      Simple.patterns.pie.type; Simple.patterns.pie.data;
      Simple.patterns.gitGraph.type; Simple.patterns.gitGraph.commit;
      Simple.patterns.gitGraph.branch; Simple.patterns.gitGraph.checkout;
      Simple.patterns.gitGraph.merge; Simple.patterns.gitGraph.cherryPick;
      Simple.patterns.mindmap.type; Simple.patterns.mindmap.node ] = true.
Proof. reflexivity. Qed.
End Matcher.

(** *** The loop *)

Lemma forLines_app {St : Type} (body : nat -> string -> St -> flow St)
  (l1 l2 : list string) (i : nat) (st : St) :
  forLines body (l1 ++ l2)%list i st =
  match forLines body l1 i st with
  | Next st' => forLines body l2 (i + List.length l1) st'
  | r => r
  end.
Proof.
  revert i st; induction l1 as [|l l1 IH]; intros i st; simpl.
  - now rewrite Nat.add_0_r.
  - destruct (body i l st); try reflexivity.
    rewrite IH. now rewrite Nat.add_succ_r.
Qed.

Lemma forLines_Return_inv {St : Type} (body : nat -> string -> St -> flow St)
  (P : Outcome.t -> Prop) :
  (forall i raw st o, body i raw st = Return o -> P o) ->
  forall lines i st o, forLines body lines i st = Return o -> P o.
Proof.
  intros Hb lines; induction lines as [|l ls IH]; intros i st o; simpl.
  - discriminate.
  - destruct (body i l st) eqn:E; intro H.
    + eapply IH; eassumption.
    + inversion H; subst. eapply Hb; eassumption.
    + discriminate.
Qed.

Lemma forLines_no_Raise {St : Type} (body : nat -> string -> St -> flow St) :
  (forall i raw st msg, body i raw st <> Raise msg) ->
  forall lines i st msg, forLines body lines i st <> Raise msg.
Proof.
  intros Hb lines; induction lines as [|l ls IH]; intros i st msg; simpl.
  - discriminate.
  - destruct (body i l st) eqn:E.
    + apply IH.
    + discriminate.
    + exfalso. eapply Hb; eassumption.
Qed.

(** *** Shape of the results *)

Lemma coherent_assemble_valid (t : Z) (d : DiagramType) (n : nat) :
  coherent (assemble Outcome.valid t d n).
Proof. unfold coherent, allErrorFieldsNull; simpl; tauto. Qed.

Lemma coherent_assemble_rejection (o : Outcome.t) (t : Z) (d : DiagramType) (n : nat) :
  rejection o -> coherent (assemble o t d n).
Proof.
  intros (Hv & (e & He) & _). unfold coherent, allErrorFieldsNull; simpl.
  rewrite Hv, He. split; [discriminate | intros (H & _); discriminate].
Qed.

Lemma coherent_rejected (r : Diagnostic) (e : string) :
  isValid r = false -> error r = Some e -> coherent r.
Proof.
  intros Hv He. unfold coherent, allErrorFieldsNull. rewrite Hv, He.
  split; [discriminate | intros (H & _); discriminate].
Qed.

Lemma failure_rejection (msg kind : string) (n : nat) (hint : string) :
  rejection (Simple.failure msg kind n hint).
Proof. unfold rejection; simpl; eauto 10. Qed.

Lemma invalidSyntax_rejection (d : DiagramType) (l : string) (i : nat) :
  rejection (Flexible.invalidSyntax d l i).
Proof. unfold rejection; simpl; eauto 10. Qed.

Lemma missingDeclaration_rejection (d : DiagramType) :
  rejection (Flexible.missingDeclaration d).
Proof. unfold rejection; simpl; eauto 10. Qed.

Create HintDb outcome.
#[local] Hint Resolve failure_rejection invalidSyntax_rejection
  missingDeclaration_rejection : outcome.

Ltac break_if :=
  match goal with
  | |- context [if ?b then _ else _] => destruct b eqn:?
  | H : context [if ?b then _ else _] |- _ => destruct b eqn:?
  end.

Lemma Flexible_lineBody_Return (d : DiagramType) (i : nat) (raw : string)
  (st : bool) (o : Outcome.t) :
  Flexible.lineBody d i raw st = Return o ->
  o = Flexible.invalidSyntax d (JS.trim raw) i.
Proof.
  unfold Flexible.lineBody.
  destruct (negb (JS.truthy (JS.trim raw))); [discriminate|].
  destruct (JS.startsWith (JS.trim raw) "%%"); [discriminate|].
  destruct (Flexible.lookup d) as [ps|]; [|discriminate].
  destruct (Flexible.testIfDefined (Flexible.Pat.type ps) (JS.trim raw)); [discriminate|].
  match goal with |- match ?s with _ => _ end = _ -> _ => destruct s as [sp|] end;
    [|discriminate].
  destruct (negb _); [|discriminate].
  now inversion 1.
Qed.

Lemma Flexible_validateByType_shape (d : DiagramType) (lines : list string)
  (o : Outcome.t) :
  Flexible.validateByType d lines = Normal o ->
  o = Outcome.valid \/ rejection o.
Proof.
  unfold Flexible.validateByType, complete.
  destruct (forLines _ _ _ _) as [hasType|o'|msg] eqn:E; [| |discriminate].
  - destruct hasType; simpl; inversion 1; subst; auto with outcome.
  - inversion 1; subst. right.
    eapply (forLines_Return_inv _ rejection); [|exact E].
    intros i raw st o0 H0. apply Flexible_lineBody_Return in H0. subst.
    auto with outcome.
Qed.

Lemma complete_shape {St : Type} (body : nat -> string -> St -> flow St)
  (atEnd : St -> Outcome.t) (lines : list string) (st0 : St) (o : Outcome.t) :
  (forall i raw st o', body i raw st = Return o' -> rejection o') ->
  (forall st, atEnd st = Outcome.valid \/ rejection (atEnd st)) ->
  complete (forLines body lines 0 st0) atEnd = Normal o ->
  o = Outcome.valid \/ rejection o.
Proof.
  intros Hb He. unfold complete.
  destruct (forLines _ _ _ _) as [st|o'|msg] eqn:E; [| |discriminate].
  - inversion 1; subst. apply He.
  - inversion 1; subst. right.
    eapply (forLines_Return_inv _ rejection); eassumption.
Qed.

Lemma complete_Normal {St : Type} (body : nat -> string -> St -> flow St)
  (atEnd : St -> Outcome.t) (lines : list string) (st0 : St) :
  (forall i raw st msg, body i raw st <> Raise msg) ->
  exists o, complete (forLines body lines 0 st0) atEnd = Normal o.
Proof.
  intros Hb. unfold complete.
  destruct (forLines _ _ _ _) as [st|o'|msg] eqn:E; eauto.
  exfalso. eapply forLines_no_Raise; eassumption.
Qed.

Lemma Simple_declarationThenRules_shape (ty : RegExp.t) (accepted : string -> bool)
  (invalid : string -> nat -> Outcome.t) (missing : Outcome.t)
  (lines : list string) (o : Outcome.t) :
  (forall l n, rejection (invalid l n)) -> rejection missing ->
  Simple.declarationThenRules ty accepted invalid missing lines = Normal o ->
  o = Outcome.valid \/ rejection o.
Proof.
  intros Hi Hm. unfold Simple.declarationThenRules. apply complete_shape.
  - intros i raw st o'. unfold Simple.rulesBody.
    repeat break_if; try discriminate.
    inversion 1; subst. apply Hi.
  - intros []; simpl; auto.
Qed.

Lemma Simple_declarationThenRules_Normal (ty : RegExp.t) (accepted : string -> bool)
  (invalid : string -> nat -> Outcome.t) (missing : Outcome.t)
  (lines : list string) :
  exists o, Simple.declarationThenRules ty accepted invalid missing lines = Normal o.
Proof.
  unfold Simple.declarationThenRules. apply complete_Normal.
  intros i raw st msg. unfold Simple.rulesBody. repeat break_if; discriminate.
Qed.

Lemma Simple_validateByType_shape (d : DiagramType) (lines : list string)
  (o : Outcome.t) :
  Simple.validateByType d lines = Normal o ->
  o = Outcome.valid \/ rejection o.
Proof.
  destruct d; simpl;
    try (apply Simple_declarationThenRules_shape; auto with outcome).
  - (* graph *)
    unfold Simple.validateGraph. apply complete_shape.
    + intros i raw [[a b] c] o'. unfold Simple.graphBody.
      repeat break_if; try discriminate.
      inversion 1; subst; auto with outcome.
    + intros [[[] b] c]; simpl; auto with outcome.
  - (* pie *)
    unfold Simple.validatePie. apply complete_shape.
    + intros i raw [a b] o'. unfold Simple.pieBody.
      repeat break_if; try discriminate.
      inversion 1; subst; auto with outcome.
    + intros [[] []]; simpl; unfold Simple.noData; auto with outcome.
  - inversion 1; subst; auto with outcome.
Qed.

Lemma Simple_validateByType_Normal (d : DiagramType) (lines : list string) :
  exists o, Simple.validateByType d lines = Normal o.
Proof.
  destruct d; simpl; try apply Simple_declarationThenRules_Normal; eauto.
  - unfold Simple.validateGraph. apply complete_Normal.
    intros i raw [[a b] c] msg. unfold Simple.graphBody.
    repeat break_if; discriminate.
  - unfold Simple.validatePie. apply complete_Normal.
    intros i raw [a b] msg. unfold Simple.pieBody.
    repeat break_if; discriminate.
Qed.

Lemma coherent_inputError : coherent inputError.
Proof. eapply coherent_rejected; reflexivity. Qed.

Lemma coherent_noTypeDetected (t : Z) : coherent (noTypeDetected t).
Proof. eapply coherent_rejected; reflexivity. Qed.

Lemma coherent_caught (msg : string) (t : Z) (d : DiagramType) :
  coherent (caught msg t d).
Proof. eapply coherent_rejected; reflexivity. Qed.

Lemma coherent_assemble (o : Outcome.t) (t : Z) (d : DiagramType) (n : nat) :
  o = Outcome.valid \/ rejection o -> coherent (assemble o t d n).
Proof.
  intros [->|H]; [apply coherent_assemble_valid|now apply coherent_assemble_rejection].
Qed.

(** C3. For every value passed to [validateSyntax], of either regex
    validator and at any clock readings, the returned Diagnostic has
    [isValid] true if and only if its error message, error kind, line number
    and suggestion are all null. *)
Theorem validity_iff_error_fields_null (startTime now : Z) (input : value) :
  coherent (Flexible.validateSyntax startTime now input) /\
  coherent (Simple.validateSyntax startTime now input).
Proof.
  split.
  - unfold Flexible.validateSyntax.
    destruct (asCode input) as [code|]; [|apply coherent_inputError].
    cbv zeta.
    destruct (Flexible.validateByType _ _) as [o|msg] eqn:E.
    + apply Flexible_validateByType_shape in E.
      destruct (Flexible.detectDiagramType _);
        try apply coherent_noTypeDetected; now apply coherent_assemble.
    + destruct (Flexible.detectDiagramType _);
        try apply coherent_noTypeDetected; apply coherent_caught.
  - unfold Simple.validateSyntax.
    destruct (asCode input) as [code|]; [|apply coherent_inputError].
    cbv zeta.
    destruct (Simple.validateByType _ _) as [o|msg] eqn:E.
    + apply Simple_validateByType_shape in E.
      destruct (Simple.detectDiagramType _);
        try apply coherent_noTypeDetected; now apply coherent_assemble.
    + destruct (Simple.detectDiagramType _);
        try apply coherent_noTypeDetected; apply coherent_caught.
Qed.

(** *** Rejected input values *)

(** C4. An empty string and every value that is not a string are rejected
    by both regex validators with the fixed [inputError] result, whatever the
    clock readings: kind [input_error], the fixed message, processing time 0,
    dialect [unknown], element count 0.  The result is returned before the
    input is split into lines. *)
Theorem empty_or_non_string_is_input_error (startTime now : Z) (input : value) :
  input = VString EmptyString \/ typeofString input = false ->
  Flexible.validateSyntax startTime now input = inputError /\
  Simple.validateSyntax startTime now input = inputError /\
  isValid inputError = false /\
  type inputError = Some "input_error" /\
  error inputError = Some "Diagram code must be a non-empty string" /\
  processingTime inputError = 0%Z /\
  diagramType inputError = unknown /\
  elementCount inputError = 0.
Proof.
  intros H.
  assert (E : asCode input = None).
  { destruct H as [->|H]; [reflexivity|].
    unfold asCode. rewrite H. now rewrite orb_true_r. }
  unfold Flexible.validateSyntax, Simple.validateSyntax. rewrite E.
  repeat split.
Qed.

Lemma empty_or_non_string_is_input_error_witness :
  (Flexible.validateSyntax 5 9 VNull = inputError /\
   Simple.validateSyntax 5 9 VNull = inputError) /\
  (Flexible.validateSyntax 5 9 (VString EmptyString) = inputError /\
   Simple.validateSyntax 5 9 (VString EmptyString) = inputError).
Proof.
  split.
  - destruct (empty_or_non_string_is_input_error 5 9 VNull) as (A & B & _);
      [right; reflexivity | split; assumption].
  - destruct (empty_or_non_string_is_input_error 5 9 (VString EmptyString))
      as (A & B & _); [left; reflexivity | split; assumption].
Defined.

(** *** The flowchart scenario *)

(** C1. On the flowchart scenario the detected dialect is [graph] and the
    element count is 5, but neither regex validator accepts the text: the
    flexible scan reads the [type] key, which the flowchart entry does not
    have, so the declaration is never seen and the result is [no_type] at
    line 1; the simple scan rejects line 2, which matches neither its [node]
    nor its [connection] rule. *)
Theorem simpleFlowchart_is_rejected (startTime now : Z) :
  Flexible.validateSyntax startTime now (VString simpleFlowchart) =
    {| isValid := false;
       error := Some "Missing graph declaration";
       type := Some "no_type";
       line := Some 1;
       suggestion := Some ("Add " ++ JS.dq ++ "graph" ++ JS.dq ++ " at the beginning");
       processingTime := now - startTime;
       diagramType := graph;
       elementCount := 5 |} /\
  Simple.validateSyntax startTime now (VString simpleFlowchart) =
    {| isValid := false;
       error := Some ("Invalid graph syntax: " ++ JS.dq ++ "A[Start] --> B{Decision}" ++ JS.dq);
       type := Some "syntax";
       line := Some 2;
       suggestion := Some "Check graph syntax. Valid formats: A[Text], A --> B, subgraph Title";
       processingTime := now - startTime;
       diagramType := graph;
       elementCount := 5 |}.
Proof. split; vm_compute; reflexivity. Qed.

(** *** The error classifier *)

(** C8, as stated, fails: a message classified [unknown_command] does
    not get the suggestion text of the specification. *)
Lemma unknown_command_suggestion_differs :
  let e := {| Delegate.message := Some "Unknown command" |} in
  Delegate._classifyError e = "unknown_command" /\
  Delegate._getSuggestion e <>
    Some "Verify the command is supported in your diagram syntax version".
Proof. split; vm_compute; [reflexivity | discriminate]. Qed.

(** C8, amended. The classifier is the ordered first-match substring test
    on the lower-cased message (an absent message counts as empty), and the
    suggestion of each kind is the fixed text, where [unknown_command] gives
    "Verify the command is supported in your Mermaid version". *)
Theorem classifier_and_suggestions (e : Delegate.Error) :
  let kind := Delegate._classifyError e in
  kind = firstContained classificationOrder (Delegate.lowered e) /\
  Delegate._getSuggestion e = Some
    (if String.eqb kind "syntax" then
       "Check for missing semicolons, brackets, or incorrect syntax"
     else if String.eqb kind "no_type" then
       "Add a diagram type at the beginning (e.g., graph TD, sequenceDiagram)"
     else if String.eqb kind "unknown_command" then
       "Verify the command is supported in your Mermaid version"
     else if String.eqb kind "parse" then
       "Check the structure and syntax of your diagram"
     else if String.eqb kind "identifier" then
       "Ensure all identifiers are valid and properly referenced"
     else if String.eqb kind "relation" then
       "Check arrow syntax and node connections"
     else "Review the diagram syntax and structure").
Proof.
  unfold Delegate._getSuggestion, Delegate._classifyError; simpl.
  repeat (destruct (JS.includes (Delegate.lowered e) _));
    (split; reflexivity).
Qed.

(** *** Type detection *)

Lemma truthy_eqb (s : string) : JS.truthy s = negb (String.eqb s EmptyString).
Proof. now destruct s. Qed.

Lemma meaningful_blankOrComment (l : string) :
  meaningful l = negb (blankOrComment l).
Proof.
  unfold meaningful, blankOrComment. rewrite truthy_eqb.
  now rewrite negb_orb.
Qed.

Lemma filter_meaningful (lines : list string) :
  filter (fun l => JS.truthy (JS.trim l)
                   && negb (JS.startsWith (JS.trim l) "%%")) lines =
  filter (fun l => negb (blankOrComment l)) lines.
Proof.
  apply filter_ext. intros l. apply (meaningful_blankOrComment l).
Qed.

Lemma Flexible_detect_first_match (lines : list string) :
  Flexible.detectDiagramType lines = detectFirstMatch Flexible_declarationRules lines.
Proof.
  unfold Flexible.detectDiagramType, detect, detectFirstMatch.
  rewrite filter_meaningful.
  destruct (filter _ lines) as [|l0 rest]; [reflexivity|].
  unfold Flexible_declarationRules, find, snd.
  repeat (destruct (RegExp.test _ _); [reflexivity|]). reflexivity.
Qed.

Lemma Simple_detect_first_match (lines : list string) :
  Simple.detectDiagramType lines = detectFirstMatch Simple_declarationRules lines.
Proof.
  unfold Simple.detectDiagramType, detect, detectFirstMatch.
  rewrite filter_meaningful.
  destruct (filter _ lines) as [|l0 rest]; [reflexivity|].
  unfold Simple_declarationRules, find, snd.
  repeat (destruct (RegExp.test _ _); [reflexivity|]). reflexivity.
Qed.

(** C5. [detectDiagramType] of both regex validators is first-match
    detection: it drops the lines that are blank after trimming or whose
    trimmed text starts with [%%], answers [unknown] if nothing remains, and
    otherwise tests the trimmed, lower-cased first remaining line against the
    declaration rules in the order graph, sequence, classDiagram,
    stateDiagram, erDiagram, gantt, journey, pie, gitGraph, mindmap, answering
    the first dialect whose rule matches and [unknown] if none does. *)
Theorem detection_is_first_match (lines : list string) :
  Flexible.detectDiagramType lines = detectFirstMatch Flexible_declarationRules lines /\
  Simple.detectDiagramType lines = detectFirstMatch Simple_declarationRules lines /\
  map fst Flexible_declarationRules =
    [graph; sequence; classDiagram; stateDiagram; erDiagram;
     gantt; journey; pie; gitGraph; mindmap] /\
  map fst Simple_declarationRules = map fst Flexible_declarationRules.
Proof.
  repeat split.
  - apply Flexible_detect_first_match.
  - apply Simple_detect_first_match.
Qed.

(** *** Texts without a meaningful line *)

Lemma trimStart_allWhite (s : string) :
  allChars JS.isWhiteSpace s = true -> JS.trimStart s = EmptyString.
Proof.
  induction s as [|c s IH]; simpl; [reflexivity|].
  intros H. apply andb_prop in H as [Hc Hs]. rewrite Hc. auto.
Qed.

Lemma split_allChars (P : ascii -> bool) (s : string) :
  allChars P s = true -> Forall (fun l => allChars P l = true) (JS.split s).
Proof.
  induction s as [|c s IH]; simpl; intros H.
  - repeat constructor.
  - apply andb_prop in H as [Hc Hs]. specialize (IH Hs).
    destruct (Ascii.eqb c JS.LF).
    + constructor; [reflexivity|assumption].
    + destruct (JS.split s) as [|l ls]; inversion IH; subst;
        constructor; simpl; try rewrite Hc; auto.
Qed.

Lemma allWhite_not_meaningful (l : string) :
  allChars JS.isWhiteSpace l = true -> meaningful l = false.
Proof.
  intros H. unfold meaningful, JS.trim. now rewrite trimStart_allWhite.
Qed.

Lemma detect_no_meaningful_line (g s c st e ga j p gi mi : RegExp.t)
  (lines : list string) :
  (forall l, In l lines -> meaningful l = false) ->
  detect g s c st e ga j p gi mi lines = unknown.
Proof.
  intros H. unfold detect.
  replace (filter _ lines) with (@nil string); [reflexivity|].
  symmetry. induction lines as [|l ls IH]; [reflexivity|]. simpl.
  pose proof (H l (or_introl eq_refl)) as Hl. unfold meaningful in Hl.
  rewrite Hl. apply IH. intros l' Hin. apply H. now right.
Qed.

(** C10. A non-empty string made only of whitespace and line feeds, and
    more generally a non-empty string whose every line is blank or a
    [%%]-comment, is not an [input_error] for either regex validator: the
    result is the [no_type] one, at line 1, with dialect [unknown] and element
    count 0. *)
Theorem blank_text_is_no_type (startTime now : Z) (text : string) :
  text <> EmptyString ->
  (allChars JS.isWhiteSpace text = true \/
   forall l, In l (JS.split text) -> meaningful l = false) ->
  Flexible.validateSyntax startTime now (VString text) = noTypeDetected (now - startTime) /\
  Simple.validateSyntax startTime now (VString text) = noTypeDetected (now - startTime) /\
  isValid (noTypeDetected (now - startTime)) = false /\
  type (noTypeDetected (now - startTime)) = Some "no_type" /\
  line (noTypeDetected (now - startTime)) = Some 1 /\
  diagramType (noTypeDetected (now - startTime)) = unknown /\
  elementCount (noTypeDetected (now - startTime)) = 0.
Proof.
  intros Hne H.
  assert (Hl : forall l, In l (JS.split text) -> meaningful l = false).
  { destruct H as [H|H]; [|exact H].
    intros l Hin. apply allWhite_not_meaningful.
    pose proof (split_allChars _ _ H) as HF.
    rewrite Forall_forall in HF. now apply HF. }
  assert (E : asCode (VString text) = Some text).
  { destruct text; [congruence|reflexivity]. }
  unfold Flexible.validateSyntax, Simple.validateSyntax. rewrite E. cbv zeta.
  unfold Flexible.detectDiagramType, Simple.detectDiagramType.
  rewrite !detect_no_meaningful_line by assumption.
  repeat split.
Qed.

Lemma blank_text_is_no_type_witness :
  Flexible.validateSyntax 3 4 (VString ("  " ++ nl ++ " %% note" ++ nl)) = noTypeDetected 1 /\
  Simple.validateSyntax 3 4 (VString (" " ++ nl ++ "   ")) = noTypeDetected 1.
Proof.
  split.
  - refine (proj1 (blank_text_is_no_type 3 4 ("  " ++ nl ++ " %% note" ++ nl) _ _)).
    + discriminate.
    + right. intros l Hin. vm_compute in Hin.
      destruct Hin as [<-|[<-|[<-|[]]]]; reflexivity.
  - refine (proj1 (proj2 (blank_text_is_no_type 3 4 (" " ++ nl ++ "   ") _ _))).
    + discriminate.
    + left. reflexivity.
Defined.

(** *** The scan as a search for the first rejected line *)

Lemma skipped_meaningful (raw : string) :
  Simple.skipped (JS.trim raw) = negb (meaningful raw).
Proof.
  unfold Simple.skipped, meaningful. rewrite negb_andb. now rewrite negb_involutive.
Qed.

Lemma forLines_firstRejected {St : Type} (step : St -> string -> option St)
  (reject : string -> nat -> Outcome.t) (body : nat -> string -> St -> flow St) :
  (forall i raw st, body i raw st = stepBody step reject i raw st) ->
  forall lines i st,
    forLines body lines i st =
    match firstRejected step lines i st with
    | inl (j, x) => Return (reject x j)
    | inr st' => Next st'
    end.
Proof.
  intros Hb lines; induction lines as [|raw ls IH]; intros i st; simpl.
  - reflexivity.
  - rewrite Hb. unfold stepBody.
    destruct (meaningful raw); [|apply IH].
    destruct (step st (JS.trim raw)); [apply IH|reflexivity].
Qed.

(** The scan stops at the first rejected line: what follows it is not
    looked at. *)
Lemma firstRejected_prefix {St : Type} (step : St -> string -> option St)
  (pre : list string) (bad : string) (suf : list string) (i : nat) (st : St) :
  (forall l s, In l pre -> meaningful l = true -> step s (JS.trim l) <> None) ->
  meaningful bad = true ->
  (forall s, step s (JS.trim bad) = None) ->
  firstRejected step (pre ++ bad :: suf) i st = inl (i + List.length pre, JS.trim bad).
Proof.
  intros Hpre Hm Hbad. revert i st.
  induction pre as [|l pre IH]; intros i st; simpl.
  - rewrite Hm, Hbad. now rewrite Nat.add_0_r.
  - rewrite Nat.add_succ_r.
    destruct (meaningful l) eqn:El.
    + destruct (step st (JS.trim l)) eqn:Es.
      * apply IH. intros l' s' Hin. apply Hpre. now right.
      * exfalso. eapply Hpre; [left; reflexivity|exact El|exact Es].
    + apply IH. intros l' s' Hin. apply Hpre. now right.
Qed.

Lemma Flexible_lineBody_stepBody (d : DiagramType) :
  d <> unknown ->
  forall i raw st,
    Flexible.lineBody d i raw st =
    stepBody (Flexible_step d) (Flexible.invalidSyntax d) i raw st.
Proof.
  intros Hd i raw st.
  unfold Flexible.lineBody, stepBody, meaningful, Flexible_step,
    Flexible_declares, Flexible_lineShape.
  destruct (JS.truthy (JS.trim raw)); [|reflexivity].
  destruct (JS.startsWith (JS.trim raw) "%%"); [reflexivity|].
  cbn [negb andb].
  destruct d; try congruence;
    cbn [Flexible.lookup Flexible.entry Flexible.Pat.type Flexible.Pat.validLine
         Flexible.Pat.subgraph Flexible.Pat.end_ isGraph Flexible.testIfDefined
         andb orb];
    repeat match goal with
           | |- context [RegExp.test ?r ?l] =>
               destruct (RegExp.test r l); cbn [negb andb orb]
           end; reflexivity.
Qed.

Lemma Flexible_step_None (d : DiagramType) (s : bool) (line : string) :
  Flexible_step d s line = None <-> Flexible_accepts d line = false.
Proof.
  unfold Flexible_step, Flexible_accepts.
  destruct (Flexible_declares d line), (Flexible_lineShape d line); simpl;
    split; congruence.
Qed.

(** For the flexible scan the rules of a dialect are the rules it
    consults: the flowchart declaration rule, which the scan does not read,
    matches only lines that the flowchart [validLine] rule matches too. *)
Lemma Flexible_rules_accepts (d : DiagramType) (line : string) :
  Flexible_rules d line = Flexible_accepts d line.
Proof.
  destruct d; try reflexivity.
  unfold Flexible_rules, Flexible_accepts, Flexible_declares,
    Flexible_declarationRule, Flexible_lineShape.
  cbn [Flexible.lookup Flexible.Pat.types Flexible.Pat.type Flexible.Pat.validLine
       Flexible.testIfDefined orb].
  destruct (RegExp.test Flexible.patterns.graph.types line) eqn:E; [|reflexivity].
  now rewrite (graph_types_validLine _ E).
Qed.

Lemma Flexible_validateByType_scan (d : DiagramType) (lines : list string) :
  d <> unknown ->
  Flexible.validateByType d lines =
  match firstRejected (Flexible_step d) lines 0 false with
  | inl (j, x) => Normal (Flexible.invalidSyntax d x j)
  | inr hasType =>
      Normal (if negb hasType then Flexible.missingDeclaration d else Outcome.valid)
  end.
Proof.
  intros Hd. unfold Flexible.validateByType.
  rewrite (forLines_firstRejected (Flexible_step d) (Flexible.invalidSyntax d))
    by (apply Flexible_lineBody_stepBody; assumption).
  destruct (firstRejected _ _ _ _) as [[j x]|st]; reflexivity.
Qed.

Lemma detect_empty_text (g s c st e ga j p gi mi : RegExp.t) :
  detect g s c st e ga j p gi mi (JS.split EmptyString) = unknown.
Proof. reflexivity. Qed.

Lemma asCode_known (text : string) :
  text <> EmptyString -> asCode (VString text) = Some text.
Proof. destruct text; [congruence|reflexivity]. Qed.

(** *** Fail-fast scan of the flexible validator *)

(** C6. Let the lines of a text be [pre ++ bad :: suf], with a detected
    dialect [d]; if [bad] is a non-blank, non-comment line that, trimmed,
    matches none of the rules of [d], and no such line occurs in [pre], then
    the flexible validator reports kind [syntax] at the 1-based index of
    [bad], with the message [Invalid <d> syntax: ] followed by the trimmed
    line between double quotes; the scan result does not depend on the lines
    after [bad]. *)
Theorem first_offending_line_is_reported (startTime now : Z) (text : string)
  (pre : list string) (bad : string) (suf : list string) :
  JS.split text = (pre ++ bad :: suf)%list ->
  Flexible.detectDiagramType (JS.split text) <> unknown ->
  (forall l, In l pre -> meaningful l = true ->
     Flexible_rules (Flexible.detectDiagramType (JS.split text)) (JS.trim l) = true) ->
  meaningful bad = true ->
  Flexible_rules (Flexible.detectDiagramType (JS.split text)) (JS.trim bad) = false ->
  let d := Flexible.detectDiagramType (JS.split text) in
  let r := Flexible.validateSyntax startTime now (VString text) in
  isValid r = false /\
  type r = Some "syntax" /\
  line r = Some (S (List.length pre)) /\
  error r = Some ("Invalid " ++ typeName d ++ " syntax: " ++ JS.dq ++ JS.trim bad ++ JS.dq) /\
  diagramType r = d /\
  forall suf',
    Flexible.validateByType d (pre ++ bad :: suf')%list =
    Flexible.validateByType d (pre ++ bad :: suf)%list.
Proof.
  intros Hs. remember (Flexible.detectDiagramType (JS.split text)) as d eqn:Ed.
  intros Hd Hpre Hm Hbad. cbv zeta.
  assert (Hscan : forall tail,
    Flexible.validateByType d (pre ++ bad :: tail)%list =
    Normal (Flexible.invalidSyntax d (JS.trim bad) (List.length pre))).
  { intros tail. rewrite Flexible_validateByType_scan by exact Hd.
    rewrite firstRejected_prefix; [reflexivity| |exact Hm|].
    - intros l s Hin Hl Hn. apply Flexible_step_None in Hn.
      rewrite <- Flexible_rules_accepts, (Hpre l Hin Hl) in Hn. discriminate.
    - intros s. apply Flexible_step_None. now rewrite <- Flexible_rules_accepts. }
  assert (Hne : text <> EmptyString).
  { intros ->. apply Hd. rewrite Ed. apply detect_empty_text. }
  unfold Flexible.validateSyntax. rewrite (asCode_known _ Hne).
  cbv zeta. rewrite <- Ed. rewrite Hs. rewrite Hscan.
  assert (Hsuf : forall suf',
    Flexible.validateByType d (pre ++ bad :: suf')%list =
    Normal (Flexible.invalidSyntax d (JS.trim bad) (List.length pre)))
    by (intros suf'; apply Hscan).
  destruct d; try (exfalso; apply Hd; reflexivity);
    simpl; rewrite Nat.add_1_r; repeat split; exact Hsuf.
Qed.

Lemma first_offending_line_is_reported_witness :
  let r := Flexible.validateSyntax 0 2 (VString ("pie" ++ nl ++ "bad" ++ nl ++ "worse")) in
  type r = Some "syntax" /\ line r = Some 2.
Proof.
  pose proof (first_offending_line_is_reported 0 2
                ("pie" ++ nl ++ "bad" ++ nl ++ "worse") ["pie"] "bad" ["worse"]) as H.
  destruct H as (_ & Ht & Hl & _).
  - reflexivity.
  - vm_compute. discriminate.
  - intros l [<-|[]] _. vm_compute. reflexivity.
  - reflexivity.
  - vm_compute. reflexivity.
  - split; assumption.
Defined.

(** *** Pie charts without data *)

Lemma detect_known_meaningful (g s c st e ga j p gi mi : RegExp.t)
  (lines : list string) :
  detect g s c st e ga j p gi mi lines <> unknown ->
  exists l, In l lines /\ meaningful l = true.
Proof.
  intros H. destruct (existsb meaningful lines) eqn:E.
  - apply existsb_exists in E. exact E.
  - exfalso. apply H. apply detect_no_meaningful_line.
    intros l Hin. destruct (meaningful l) eqn:El; [|reflexivity].
    assert (existsb meaningful lines = true) by (apply existsb_exists; eauto).
    congruence.
Qed.

Lemma Simple_pie_only_declarations (lines : list string) (i : nat) (t : bool) :
  (forall l, In l lines -> meaningful l = true ->
     RegExp.test Simple.patterns.pie.type (JS.trim l) = true) ->
  forLines Simple.pieBody lines i (t, false) =
  Next (t || existsb meaningful lines, false).
Proof.
  revert i t; induction lines as [|l ls IH]; intros i t H; simpl.
  - now rewrite orb_false_r.
  - unfold Simple.pieBody at 1. rewrite skipped_meaningful.
    destruct (meaningful l) eqn:El; simpl.
    + rewrite (H l (or_introl eq_refl) El).
      rewrite IH by (intros l' Hin; apply H; now right).
      now rewrite orb_true_r.
    + apply IH. intros l' Hin; apply H; now right.
Qed.

Lemma Flexible_pie_only_declarations (lines : list string) (i : nat) (t : bool) :
  (forall l, In l lines -> meaningful l = true ->
     RegExp.test Flexible.patterns.pie.type (JS.trim l) = true) ->
  forLines (Flexible.lineBody pie) lines i t =
  Next (t || existsb meaningful lines).
Proof.
  revert i t; induction lines as [|l ls IH]; intros i t H; simpl.
  - now rewrite orb_false_r.
  - rewrite Flexible_lineBody_stepBody by discriminate. unfold stepBody.
    destruct (meaningful l) eqn:El; simpl.
    + unfold Flexible_step, Flexible_declares. simpl.
      rewrite (H l (or_introl eq_refl) El).
      rewrite IH by (intros l' Hin; apply H; now right).
      now rewrite orb_true_r.
    + apply IH. intros l' Hin; apply H; now right.
Qed.

(** C2, as stated, fails for the validator that the server runs: the
    flexible validator accepts a pie declaration without data. *)
Lemma flexible_accepts_pie_without_data :
  let r := Flexible.validateSyntax 0 0 (VString "pie title Pets") in
  diagramType r = pie /\ isValid r = true /\ type r <> Some "no_data".
Proof. vm_compute. repeat split; discriminate. Qed.

(** C2, amended. When the detected dialect is [pie], no line is rejected,
    the declaration is seen and no line matches the data rule, the simple
    validator ([validatePie]) answers [no_data] at line 2; the flexible
    validator has no data-line requirement and accepts a text whose
    meaningful lines are all pie declarations. *)
Theorem pie_without_data (startTime now : Z) (text : string) :
  (Simple.detectDiagramType (JS.split text) = pie ->
   (forall l, In l (JS.split text) -> meaningful l = true ->
      RegExp.test Simple.patterns.pie.type (JS.trim l) = true \/
      RegExp.test Simple.patterns.pie.data (JS.trim l) = true) ->
   (exists l, In l (JS.split text) /\ meaningful l = true /\
      RegExp.test Simple.patterns.pie.type (JS.trim l) = true) ->
   (forall l, In l (JS.split text) -> meaningful l = true ->
      RegExp.test Simple.patterns.pie.data (JS.trim l) = false) ->
   let r := Simple.validateSyntax startTime now (VString text) in
   r = assemble Simple.noData (now - startTime) pie (countElements (JS.split text)) /\
   isValid r = false /\ type r = Some "no_data" /\ line r = Some 2) /\
  (Flexible.detectDiagramType (JS.split text) = pie ->
   (forall l, In l (JS.split text) -> meaningful l = true ->
      RegExp.test Flexible.patterns.pie.type (JS.trim l) = true) ->
   let r := Flexible.validateSyntax startTime now (VString text) in
   r = assemble Outcome.valid (now - startTime) pie (countElements (JS.split text)) /\
   isValid r = true /\ type r = None /\ line r = None).
Proof.
  split.
  - intros Hd Hall Hty Hnd r.
    assert (Hne : text <> EmptyString).
    { intros ->. vm_compute in Hd. discriminate. }
    assert (Hr : r = assemble Simple.noData (now - startTime) pie
                       (countElements (JS.split text))).
    { subst r. unfold Simple.validateSyntax. rewrite (asCode_known _ Hne).
      cbv zeta. rewrite Hd. cbn [Simple.validateByType].
      unfold Simple.validatePie. rewrite Simple_pie_only_declarations.
      - destruct Hty as (l & Hin & Hm & _).
        assert (E : existsb meaningful (JS.split text) = true)
          by (apply existsb_exists; eauto).
        rewrite E. reflexivity.
      - intros l Hin Hm. destruct (Hall l Hin Hm) as [H|H]; [exact H|].
        rewrite (Hnd l Hin Hm) in H. discriminate. }
    rewrite Hr. repeat split.
  - intros Hd Hall r.
    assert (Hne : text <> EmptyString).
    { intros ->. vm_compute in Hd. discriminate. }
    assert (Hr : r = assemble Outcome.valid (now - startTime) pie
                       (countElements (JS.split text))).
    { subst r. unfold Flexible.validateSyntax. rewrite (asCode_known _ Hne).
      cbv zeta. rewrite Hd. unfold Flexible.validateByType.
      rewrite Flexible_pie_only_declarations by exact Hall.
      assert (Hk : Flexible.detectDiagramType (JS.split text) <> unknown)
        by (rewrite Hd; discriminate).
      apply detect_known_meaningful in Hk as (l & Hin & Hm).
      assert (E : existsb meaningful (JS.split text) = true)
        by (apply existsb_exists; eauto).
      rewrite E. reflexivity. }
    rewrite Hr. repeat split.
Qed.

Lemma pie_without_data_witness :
  (let r := Simple.validateSyntax 0 1 (VString "pie title Pets") in
   isValid r = false /\ type r = Some "no_data" /\ line r = Some 2) /\
  (let r := Flexible.validateSyntax 0 1 (VString "pie title Pets") in
   isValid r = true).
Proof.
  destruct (pie_without_data 0 1 "pie title Pets") as [S F]. split.
  - destruct S as (_ & Hv & Ht & Hl).
    + reflexivity.
    + intros l [<-|[]] _. left. reflexivity.
    + exists "pie title Pets". repeat split. now left.
    + intros l [<-|[]] _. reflexivity.
    + repeat split; assumption.
  - destruct F as (_ & Hv & _).
    + reflexivity.
    + intros l [<-|[]] _. reflexivity.
    + exact Hv.
Defined.

(** *** Comment lines *)

Lemma commentLine_not_meaningful (c : string) :
  commentLine c -> meaningful c = false.
Proof.
  unfold commentLine, meaningful. intros ->. now rewrite andb_false_r.
Qed.

Lemma interleaved_filter (L L' : list string) :
  interleaved L L' -> filter meaningful L' = filter meaningful L.
Proof.
  induction 1 as [|l L L' _ IH|c L L' Hc _ IH]; simpl.
  - reflexivity.
  - now rewrite IH.
  - now rewrite (commentLine_not_meaningful c Hc).
Qed.

Lemma interleaved_countElements (L L' : list string) :
  interleaved L L' -> countElements L' = countElements L.
Proof.
  intros H. unfold countElements.
  change (List.length (filter meaningful L') = List.length (filter meaningful L)).
  now rewrite (interleaved_filter _ _ H).
Qed.

Lemma interleaved_detect (g s c st e ga j p gi mi : RegExp.t) (L L' : list string) :
  interleaved L L' ->
  detect g s c st e ga j p gi mi L' = detect g s c st e ga j p gi mi L.
Proof.
  intros H. unfold detect.
  change (filter _ L') with (filter meaningful L').
  change (filter _ L) with (filter meaningful L).
  now rewrite (interleaved_filter _ _ H).
Qed.

Lemma firstRejected_interleaved {St : Type} (step : St -> string -> option St)
  (L L' : list string) :
  interleaved L L' ->
  forall i i' st,
    match firstRejected step L i st, firstRejected step L' i' st with
    | inr s1, inr s2 => s1 = s2
    | inl (j, x), inl (j', x') =>
        exists raw n n', sameLineAt L L' raw n n' /\
          j = i + n /\ j' = i' + n' /\ x = JS.trim raw /\ x' = JS.trim raw
    | _, _ => False
    end.
Proof.
  induction 1 as [|l L L' HL IH|c L L' Hc HL IH]; intros i i' st; simpl.
  - reflexivity.
  - destruct (meaningful l).
    + destruct (step st (JS.trim l)) as [st'|].
      * specialize (IH (S i) (S i') st').
        destruct (firstRejected step L (S i) st') as [[j x]|s1],
                 (firstRejected step L' (S i') st') as [[j' x']|s2]; try exact IH.
        destruct IH as (raw & n & n' & (A & B & A' & B' & -> & -> & HA & HB & -> & ->)
                        & -> & -> & -> & ->).
        exists raw, (S (List.length A)), (S (List.length A')). repeat split; try lia.
        exists (l :: A), B, (l :: A'), B'.
        repeat split; try assumption. now constructor.
      * exists l, 0, 0. repeat split; try lia.
        exists [], L, [], L'. repeat split; try assumption. constructor.
    + specialize (IH (S i) (S i') st).
      destruct (firstRejected step L (S i) st) as [[j x]|s1],
               (firstRejected step L' (S i') st) as [[j' x']|s2]; try exact IH.
      destruct IH as (raw & n & n' & (A & B & A' & B' & -> & -> & HA & HB & -> & ->)
                      & -> & -> & -> & ->).
      exists raw, (S (List.length A)), (S (List.length A')). repeat split; try lia.
      exists (l :: A), B, (l :: A'), B'.
      repeat split; try assumption. now constructor.
  - rewrite (commentLine_not_meaningful c Hc).
    specialize (IH i (S i') st).
    destruct (firstRejected step L i st) as [[j x]|s1],
             (firstRejected step L' (S i') st) as [[j' x']|s2]; try exact IH.
    destruct IH as (raw & n & n' & (A & B & A' & B' & -> & -> & HA & HB & -> & ->)
                    & -> & -> & -> & ->).
    exists raw, (List.length A), (S (List.length A')). repeat split; try lia.
    exists A, B, (c :: A'), B'.
    repeat split; try assumption. now constructor.
Qed.

Lemma split_nonempty (t : string) : JS.split t <> [].
Proof.
  destruct t as [|c t]; simpl; [discriminate|].
  destruct (Ascii.eqb c JS.LF); [discriminate|].
  destruct (JS.split t); discriminate.
Qed.

Lemma split_singleton_empty (t : string) :
  JS.split t = [EmptyString] -> t = EmptyString.
Proof.
  destruct t as [|c t]; simpl; [reflexivity|].
  destruct (Ascii.eqb c JS.LF).
  - intros H. inversion H as [H1]. now apply split_nonempty in H1.
  - destruct (JS.split t); discriminate.
Qed.

Lemma interleaved_empty_text (text text' : string) :
  interleaved (JS.split text) (JS.split text') ->
  text' = EmptyString -> text = EmptyString.
Proof.
  intros H ->. simpl in H. apply split_singleton_empty.
  inversion H as [|l L L' HL|c L L' Hc HL]; subst.
  - inversion HL; subst. reflexivity.
  - discriminate Hc.
Qed.

Lemma known_dispatch {A : Type} (d : DiagramType) (a b : A) :
  d <> unknown ->
  match d with
  | unknown => a
  | _ => b
  end = b.
Proof. destruct d; congruence. Qed.

Lemma Flexible_validateSyntax_unknown (startTime now : Z) (text : string) :
  text <> EmptyString ->
  Flexible.detectDiagramType (JS.split text) = unknown ->
  Flexible.validateSyntax startTime now (VString text) =
  noTypeDetected (now - startTime).
Proof.
  intros Hne Hd. unfold Flexible.validateSyntax.
  rewrite (asCode_known _ Hne). cbv zeta. now rewrite Hd.
Qed.

Lemma Flexible_validateSyntax_known (startTime now : Z) (text : string) :
  Flexible.detectDiagramType (JS.split text) <> unknown ->
  Flexible.validateSyntax startTime now (VString text) =
  assemble
    match firstRejected (Flexible_step (Flexible.detectDiagramType (JS.split text)))
            (JS.split text) 0 false with
    | inl (j, x) =>
        Flexible.invalidSyntax (Flexible.detectDiagramType (JS.split text)) x j
    | inr hasType =>
        if negb hasType
        then Flexible.missingDeclaration (Flexible.detectDiagramType (JS.split text))
        else Outcome.valid
    end
    (now - startTime) (Flexible.detectDiagramType (JS.split text))
    (countElements (JS.split text)).
Proof.
  intros Hd.
  assert (Hne : text <> EmptyString).
  { intros ->. apply Hd. apply detect_empty_text. }
  unfold Flexible.validateSyntax. rewrite (asCode_known _ Hne). cbv zeta.
  rewrite (known_dispatch _ _ _ Hd).
  rewrite Flexible_validateByType_scan by exact Hd.
  destruct (firstRejected _ _ _ _) as [[j x]|st]; reflexivity.
Qed.

Lemma DiagramType_eq_dec (a b : DiagramType) : {a = b} + {a <> b}.
Proof. decide equality. Defined.

(** C9, as stated, fails on the empty text: the empty text is rejected
    as an input error, which reports no line; with a comment line in front
    the text is no longer empty and the answer is [no_type] at line 1. *)
Lemma comment_line_gives_the_empty_text_a_line :
  interleaved (JS.split EmptyString) (JS.split ("%% c" ++ nl)) /\
  line (Flexible.validateSyntax 0 0 (VString EmptyString)) = None /\
  line (Flexible.validateSyntax 0 0 (VString ("%% c" ++ nl))) = Some 1.
Proof.
  repeat split.
  change (interleaved [EmptyString] ["%% c"; EmptyString]).
  apply interleaved_comment; [reflexivity|].
  apply interleaved_keep. apply interleaved_nil.
Qed.

(** C9, amended. Let the lines of [text'] be those of [text] with comment
    lines (trimmed text starting with [%%]) inserted anywhere.  The flexible
    validator gives both texts the same [isValid], the same dialect and the
    same element count (the inserted lines are not counted).  When [text] is
    not empty the reported line does not change either: both results are
    [syntax] failures that blame the same line, found at its new index, with
    the same message; or neither is, and kind, message and line (a number or
    none) are equal. *)
Theorem comment_lines_are_transparent (startTime now startTime' now' : Z)
  (text text' : string) :
  interleaved (JS.split text) (JS.split text') ->
  let r := Flexible.validateSyntax startTime now (VString text) in
  let r' := Flexible.validateSyntax startTime' now' (VString text') in
  isValid r' = isValid r /\
  diagramType r' = diagramType r /\
  elementCount r' = elementCount r /\
  (text <> EmptyString ->
   (type r = Some "syntax" /\ type r' = Some "syntax" /\ error r' = error r /\
    exists raw n n',
      sameLineAt (JS.split text) (JS.split text') raw n n' /\
      line r = Some (S n) /\ line r' = Some (S n'))
   \/
   (type r <> Some "syntax" /\ type r' = type r /\ error r' = error r /\
    line r' = line r)).
Proof.
  intros H. cbv zeta.
  assert (Hdet : Flexible.detectDiagramType (JS.split text') =
                 Flexible.detectDiagramType (JS.split text))
    by (apply interleaved_detect; exact H).
  destruct (string_dec text EmptyString) as [->|Hne].
  - (* the empty text: rejected before any scan *)
    change (Flexible.validateSyntax startTime now (VString EmptyString)) with inputError.
    destruct (string_dec text' EmptyString) as [->|Hne'].
    + change (Flexible.validateSyntax startTime' now' (VString EmptyString))
        with inputError.
      repeat split. intros E. now elim E.
    + rewrite Flexible_validateSyntax_unknown; [|exact Hne'|now rewrite Hdet].
      repeat split. intros E. now elim E.
  - assert (Hne' : text' <> EmptyString).
    { intros E. apply Hne. eapply interleaved_empty_text; eassumption. }
    destruct (DiagramType_eq_dec (Flexible.detectDiagramType (JS.split text)) unknown)
      as [Hu|Hkn].
    + rewrite !Flexible_validateSyntax_unknown by congruence.
      repeat split. simpl. intros _. right. repeat split. discriminate.
    + rewrite !Flexible_validateSyntax_known by congruence.
      rewrite Hdet. rewrite (interleaved_countElements _ _ H).
      pose proof (firstRejected_interleaved
                    (Flexible_step (Flexible.detectDiagramType (JS.split text)))
                    _ _ H 0 0 false) as Hscan.
      destruct (firstRejected _ (JS.split text) 0 false) as [[j x]|s1],
               (firstRejected _ (JS.split text') 0 false) as [[j' x']|s2];
        try contradiction.
      * destruct Hscan as (raw & n & n' & Hsame & -> & -> & -> & ->).
        simpl. repeat split. intros _. left. repeat split.
        exists raw, n, n'. repeat split; [exact Hsame| |]; f_equal; lia.
      * subst s2. repeat split. intros _. right.
        destruct s1; simpl; repeat split; discriminate.
Qed.

Lemma comment_lines_are_transparent_witness :
  let text := "pie" ++ nl ++ "bad" in
  let text' := "%% head" ++ nl ++ "pie" ++ nl ++ "  %% mid" ++ nl ++ "bad" ++ nl ++ "%%" in
  let r := Flexible.validateSyntax 0 0 (VString text) in
  let r' := Flexible.validateSyntax 0 0 (VString text') in
  isValid r' = isValid r /\ diagramType r' = diagramType r /\
  elementCount r' = elementCount r /\
  ((type r = Some "syntax" /\ type r' = Some "syntax" /\ error r' = error r /\
    exists raw n n',
      sameLineAt (JS.split text) (JS.split text') raw n n' /\
      line r = Some (S n) /\ line r' = Some (S n'))
   \/
   (type r <> Some "syntax" /\ type r' = type r /\ error r' = error r /\
    line r' = line r)).
Proof.
  cbv zeta.
  pose proof (comment_lines_are_transparent 0 0 0 0
    ("pie" ++ nl ++ "bad")
    ("%% head" ++ nl ++ "pie" ++ nl ++ "  %% mid" ++ nl ++ "bad" ++ nl ++ "%%")) as H.
  destruct H as (A & B & C & D).
  - change (interleaved ["pie"; "bad"] ["%% head"; "pie"; "  %% mid"; "bad"; "%%"]).
    apply interleaved_comment; [reflexivity|].
    apply interleaved_keep.
    apply interleaved_comment; [reflexivity|].
    apply interleaved_keep.
    apply interleaved_comment; [reflexivity|].
    apply interleaved_nil.
  - repeat split; try assumption. apply D. discriminate.
Defined.

(** *** Disjoint declaration rules *)

Section Anchored.
Import JS RegExp.

Lemma m_literal (ic : bool) (n : nat) (R : regex) (p : option ascii)
  (s : string) (k : cont) :
  m ic (Seq (lit n) R) {| prev := p; rest := s |} k =
  match s with
  | EmptyString => false
  | String c s' =>
      if charIn ic false [(n, n)] c
      then m ic R {| prev := Some c; rest := s' |} k else false
  end.
Proof. reflexivity. Qed.

Lemma m_two_literals (ic : bool) (n1 n2 : nat) (R : regex) (p : option ascii)
  (s : string) (k : cont) :
  m ic (Seq (lit n1) (Seq (lit n2) R)) {| prev := p; rest := s |} k = true ->
  exists a b s', s = String a (String b s') /\
    charIn ic false [(n1, n1)] a = true /\ charIn ic false [(n2, n2)] b = true.
Proof.
  rewrite m_literal. destruct s as [|a s]; [discriminate|].
  destruct (charIn ic false [(n1, n1)] a) eqn:E1; [|discriminate].
  rewrite m_literal. destruct s as [|b s']; [discriminate|].
  destruct (charIn ic false [(n2, n2)] b) eqn:E2; [|discriminate].
  intros _. eauto 10.
Qed.

Lemma between_spec (lo hi : nat) (c : ascii) :
  between lo hi c = true <-> lo <= code c <= hi.
Proof.
  unfold between. rewrite andb_true_iff, !Nat.leb_le. tauto.
Qed.

Lemma between_false (lo hi : nat) (c : ascii) :
  between lo hi c = false <-> ~ (lo <= code c <= hi).
Proof.
  rewrite <- between_spec. destruct (between lo hi c); split; congruence.
Qed.

Lemma code_bounded (c : ascii) : code c < 256.
Proof. apply nat_ascii_bounded. Qed.

Lemma code_ascii_of_nat (n : nat) : n < 256 -> code (ascii_of_nat n) = n.
Proof. apply nat_ascii_embedding. Qed.

Lemma code_inj (c : ascii) (n : nat) : code c = n -> c = ascii_of_nat n.
Proof. intros <-. symmetry. apply ascii_nat_embedding. Qed.

Lemma inRanges_single (n : nat) (c : ascii) :
  inRanges [(n, n)] c = true <-> code c = n.
Proof.
  unfold inRanges. simpl. rewrite orb_false_r, between_spec. lia.
Qed.

(** Under the [i] flag a lower-case pattern letter matches that letter
    in either case and nothing else. *)
Lemma charIn_letter (n : nat) (c : ascii) :
  97 <= n <= 122 ->
  charIn true false [(n, n)] c = true -> lowerAscii c = ascii_of_nat n.
Proof.
  intros Hn H. pose proof (code_bounded c) as Hb.
  unfold charIn in H. rewrite xorb_false_l in H.
  apply code_inj. unfold lowerAscii.
  apply orb_prop in H as [H|H].
  - apply inRanges_single in H.
    destruct (between 65 90 c) eqn:U; [apply between_spec in U; lia|exact H].
  - apply andb_prop in H as [Hl H]. apply inRanges_single in H.
    unfold swapCase in H.
    destruct (between 65 90 c) eqn:U.
    + exact H.
    + apply between_false in U.
      destruct (between 97 122 c) eqn:L.
      * apply between_spec in L.
        rewrite code_ascii_of_nat in H by lia. lia.
      * unfold isAsciiLetter in Hl. rewrite L in Hl.
        simpl in Hl. rewrite orb_false_r in Hl. apply between_spec in Hl. lia.
Qed.

Lemma lead_two_literals (n1 n2 : nat) (R : regex) (s : string) :
  97 <= n1 <= 122 -> 97 <= n2 <= 122 ->
  test {| pattern := Seq AssertStart (Seq (lit n1) (Seq (lit n2) R));
          ignoreCase := true |} s = true ->
  lead s = String (ascii_of_nat n1) (String (ascii_of_nat n2) EmptyString).
Proof.
  intros H1 H2 H. rewrite test_anchored in H.
  apply m_two_literals in H as (a & b & s' & -> & Ha & Hb).
  simpl. now rewrite (charIn_letter n1 a H1 Ha), (charIn_letter n2 b H2 Hb).
Qed.

Lemma lead_two_words (n1 n2 n3 n4 : nat) (R1 R2 R3 : regex) (s : string) :
  97 <= n1 <= 122 -> 97 <= n2 <= 122 -> 97 <= n3 <= 122 -> 97 <= n4 <= 122 ->
  test {| pattern :=
            Seq AssertStart
              (Seq (Disj (Seq (lit n1) (Seq (lit n2) R1))
                         (Seq (lit n3) (Seq (lit n4) R2))) R3);
          ignoreCase := true |} s = true ->
  lead s = String (ascii_of_nat n1) (String (ascii_of_nat n2) EmptyString) \/
  lead s = String (ascii_of_nat n3) (String (ascii_of_nat n4) EmptyString).
Proof.
  intros H1 H2 H3 H4 H. rewrite test_anchored in H.
  change (m true (Seq (lit n1) (Seq (lit n2) R1)) {| prev := None; rest := s |}
            (fun y => m true R3 y (fun _ => true))
          || m true (Seq (lit n3) (Seq (lit n4) R2)) {| prev := None; rest := s |}
            (fun y => m true R3 y (fun _ => true)) = true) in H.
  apply orb_prop in H as [H|H];
    apply m_two_literals in H as (a & b & s' & -> & Ha & Hb); simpl.
  - left. now rewrite (charIn_letter n1 a H1 Ha), (charIn_letter n2 b H2 Hb).
  - right. now rewrite (charIn_letter n3 a H3 Ha), (charIn_letter n4 b H4 Hb).
Qed.
End Anchored.

Lemma leads_disjoint (d1 d2 : DiagramType) (x : string) :
  In x (leads d1) -> In x (leads d2) -> d1 = d2.
Proof.
  destruct d1, d2; simpl; intros H1 H2; try reflexivity;
    exfalso; intuition congruence.
Qed.

Ltac rule_lead H :=
  first
    [ apply lead_two_words in H; [destruct H as [H|H]; rewrite H; simpl; auto | lia..]
    | apply lead_two_literals in H; [rewrite H; simpl; auto | lia..] ].

Lemma Flexible_rule_lead (d : DiagramType) (r : RegExp.t) (s : string) :
  In (d, r) Flexible_declarationRules -> RegExp.test r s = true ->
  In (lead s) (leads d).
Proof.
  intros Hin H. unfold Flexible_declarationRules in Hin. simpl in Hin.
  repeat (destruct Hin as [E|Hin];
          [inversion E; subst; clear E; rule_lead H|]).
  contradiction.
Qed.

Lemma Simple_rule_lead (d : DiagramType) (r : RegExp.t) (s : string) :
  In (d, r) Simple_declarationRules -> RegExp.test r s = true ->
  In (lead s) (leads d).
Proof.
  intros Hin H. unfold Simple_declarationRules in Hin. simpl in Hin.
  repeat (destruct Hin as [E|Hin];
          [inversion E; subst; clear E; rule_lead H|]).
  contradiction.
Qed.

Lemma firstDialect_Permutation (p : DiagramType * RegExp.t -> bool)
  (l l' : list (DiagramType * RegExp.t)) :
  Permutation l l' ->
  (forall x y, In x l -> In y l -> p x = true -> p y = true -> fst x = fst y) ->
  firstDialect p l' = firstDialect p l.
Proof.
  unfold firstDialect.
  induction 1 as [|x l l' HP IH|x y l|l l' l'' HP1 IH1 HP2 IH2]; intros Hu.
  - reflexivity.
  - simpl. destruct (p x); [reflexivity|].
    apply IH. intros a b Ha Hb. apply Hu; now right.
  - simpl. destruct (p x) eqn:Ex, (p y) eqn:Ey; try reflexivity.
    assert (E : fst y = fst x).
    { apply Hu; [left; reflexivity|right; left; reflexivity|assumption..]. }
    destruct x, y; simpl in E. now subst.
  - rewrite IH2, IH1; [reflexivity|exact Hu|].
    intros a b Ha Hb. apply Hu; eapply Permutation_in;
      try eassumption; now apply Permutation_sym.
Qed.

Lemma detectFirstMatch_Permutation (rules rules' : list (DiagramType * RegExp.t))
  (lines : list string) :
  (forall d r s, In (d, r) rules -> RegExp.test r s = true -> In (lead s) (leads d)) ->
  Permutation rules rules' ->
  detectFirstMatch rules' lines = detectFirstMatch rules lines.
Proof.
  intros Hl HP. unfold detectFirstMatch.
  destruct (filter _ lines) as [|l0 rest]; [reflexivity|].
  apply (firstDialect_Permutation _ _ _ HP).
  intros [d1 r1] [d2 r2] H1 H2 T1 T2. simpl in *.
  eapply leads_disjoint; eapply Hl; eassumption.
Qed.

(** C7. In each rule table the ten type-declaration rules are pairwise
    disjoint: a line matched by the rules of two dialects forces the two
    dialects to be the same.  Hence testing the rules in any other order
    gives the detector's result. *)
Theorem declaration_rules_are_disjoint :
  (forall line d1 r1 d2 r2,
     In (d1, r1) Flexible_declarationRules -> In (d2, r2) Flexible_declarationRules ->
     RegExp.test r1 line = true -> RegExp.test r2 line = true -> d1 = d2) /\
  (forall line d1 r1 d2 r2,
     In (d1, r1) Simple_declarationRules -> In (d2, r2) Simple_declarationRules ->
     RegExp.test r1 line = true -> RegExp.test r2 line = true -> d1 = d2) /\
  (forall rules' lines,
     Permutation Flexible_declarationRules rules' ->
     detectFirstMatch rules' lines = Flexible.detectDiagramType lines) /\
  (forall rules' lines,
     Permutation Simple_declarationRules rules' ->
     detectFirstMatch rules' lines = Simple.detectDiagramType lines).
Proof.
  repeat split.
  - intros line d1 r1 d2 r2 H1 H2 T1 T2.
    eapply leads_disjoint; eapply Flexible_rule_lead; eassumption.
  - intros line d1 r1 d2 r2 H1 H2 T1 T2.
    eapply leads_disjoint; eapply Simple_rule_lead; eassumption.
  - intros rules' lines HP. rewrite Flexible_detect_first_match.
    apply detectFirstMatch_Permutation; [apply Flexible_rule_lead|exact HP].
  - intros rules' lines HP. rewrite Simple_detect_first_match.
    apply detectFirstMatch_Permutation; [apply Simple_rule_lead|exact HP].
Qed.

Lemma declaration_rules_are_disjoint_witness :
  detectFirstMatch (rev Flexible_declarationRules) ["  %% chart"; " Gantt  "] = gantt /\
  detectFirstMatch (rev Simple_declarationRules) ["flowchart LR"] = graph.
Proof.
  destruct declaration_rules_are_disjoint as (_ & _ & F & S). split.
  - rewrite (F (rev Flexible_declarationRules) ["  %% chart"; " Gantt  "]
               (Permutation_rev _)).
    reflexivity.
  - rewrite (S (rev Simple_declarationRules) ["flowchart LR"] (Permutation_rev _)).
    reflexivity.
Defined.

(* ------------------------------------------------------------------ *)
(** ** Further properties of the validators *)

(** *** Scans read off the text as a whole *)

Lemma firstBad_firstRejected {St : Type} (step : St -> string -> option St)
  (accepts : string -> bool) :
  (forall st line, step st line = None <-> accepts line = false) ->
  forall lines i st,
    match firstRejected step lines i st with
    | inl jx => firstBad accepts lines i = Some jx
    | inr _ => firstBad accepts lines i = None
    end.
Proof.
  intros H lines; induction lines as [|raw ls IH]; intros i st; simpl.
  - reflexivity.
  - destruct (meaningful raw); simpl; [|apply IH].
    destruct (step st (JS.trim raw)) as [st'|] eqn:E.
    + destruct (accepts (JS.trim raw)) eqn:A; simpl; [apply IH|].
      apply (proj2 (H st _)) in A. congruence.
    + apply (proj1 (H _ _)) in E. now rewrite E.
Qed.

Lemma declStep_None (declares shape : string -> bool) (st : bool) (line : string) :
  declStep declares shape st line = None <-> declares line || shape line = false.
Proof.
  unfold declStep. destruct (declares line), (shape line); simpl; split; congruence.
Qed.

Lemma declStep_final (declares shape : string -> bool) (lines : list string) :
  forall i st st',
    firstRejected (declStep declares shape) lines i st = inr st' ->
    st' = st || seenLine declares lines.
Proof.
  induction lines as [|raw ls IH]; intros i st st'; simpl.
  - intros H. inversion H. now rewrite orb_false_r.
  - destruct (meaningful raw); simpl.
    + unfold declStep at 1.
      destruct (declares (JS.trim raw)); simpl.
      * intros H. apply IH in H. subst. now rewrite orb_true_r.
      * destruct (shape (JS.trim raw)); [|discriminate].
        intros H. now apply IH in H.
    + intros H. now apply IH in H.
Qed.

Lemma firstBad_Some (accepts : string -> bool) (lines : list string) :
  forall i j x,
    firstBad accepts lines i = Some (j, x) <->
    exists pre bad suf,
      lines = (pre ++ bad :: suf)%list /\ j = i + List.length pre /\
      x = JS.trim bad /\ meaningful bad = true /\ accepts (JS.trim bad) = false /\
      forall l, In l pre -> meaningful l = true -> accepts (JS.trim l) = true.
Proof.
  induction lines as [|raw ls IH]; intros i j x; simpl.
  - split; [discriminate|]. intros (pre & bad & suf & H & _). now destruct pre.
  - destruct (meaningful raw && negb (accepts (JS.trim raw))) eqn:E.
    + apply andb_prop in E as [Em Ea]. apply negb_true_iff in Ea. split.
      * intros H. inversion H; subst. exists [], raw, ls.
        repeat split; auto; intros l [].
      * intros (pre & bad & suf & H & -> & -> & Hm & Hb & Hpre).
        destruct pre as [|p pre]; simpl in H; inversion H; subst.
        -- now rewrite Nat.add_0_r.
        -- rewrite (Hpre p (or_introl eq_refl) Em) in Ea. discriminate.
    + rewrite IH. split.
      * intros (pre & bad & suf & -> & -> & -> & Hm & Hb & Hpre).
        exists (raw :: pre), bad, suf.
        repeat split; auto; try solve [simpl; lia].
        intros l [<-|Hin] Hl; [|now apply Hpre].
        rewrite Hl in E. simpl in E. now apply negb_false_iff in E.
      * intros (pre & bad & suf & H & -> & -> & Hm & Hb & Hpre).
        destruct pre as [|p pre]; simpl in H; inversion H; subst.
        -- rewrite Hm, Hb in E. discriminate.
        -- exists pre, bad, suf.
           repeat split; auto; try solve [simpl; lia].
           intros l Hin. apply Hpre. now right.
Qed.

Lemma firstBad_None (accepts : string -> bool) (lines : list string) (i : nat) :
  firstBad accepts lines i = None <->
  forall l, In l lines -> meaningful l = true -> accepts (JS.trim l) = true.
Proof.
  revert i; induction lines as [|raw ls IH]; intros i; simpl.
  - split; [intros _ l []|reflexivity].
  - destruct (meaningful raw && negb (accepts (JS.trim raw))) eqn:E.
    + split; [discriminate|]. intros H. apply andb_prop in E as [Em Ea].
      rewrite (H raw (or_introl eq_refl) Em) in Ea. discriminate.
    + rewrite IH. split.
      * intros H l [<-|Hin] Hl; [|now apply H].
        rewrite Hl in E. simpl in E. now apply negb_false_iff in E.
      * intros H l Hin. apply H. now right.
Qed.

Lemma seenLine_true (p : string -> bool) (lines : list string) :
  seenLine p lines = true <->
  exists l, In l lines /\ meaningful l = true /\ p (JS.trim l) = true.
Proof.
  unfold seenLine. rewrite existsb_exists. split.
  - intros (l & Hin & H). apply andb_prop in H as [H1 H2]. eauto.
  - intros (l & Hin & H1 & H2). exists l. now rewrite H1, H2.
Qed.

Lemma Simple_rulesBody_stepBody (ty : RegExp.t) (acc : string -> bool)
  (inv : string -> nat -> Outcome.t) (i : nat) (raw : string) (st : bool) :
  Simple.rulesBody ty acc inv i raw st =
  stepBody (declStep (RegExp.test ty) acc) (fun l j => inv l (j + 1)) i raw st.
Proof.
  unfold Simple.rulesBody, stepBody, declStep. rewrite skipped_meaningful.
  destruct (meaningful raw); simpl; [|reflexivity].
  destruct (RegExp.test ty (JS.trim raw)); [reflexivity|].
  now destruct (acc (JS.trim raw)).
Qed.

Lemma Simple_declarationThenRules_scan (ty : RegExp.t) (acc : string -> bool)
  (inv : string -> nat -> Outcome.t) (missing : Outcome.t) (lines : list string) :
  Simple.declarationThenRules ty acc inv missing lines =
  Normal match firstBad (fun l => RegExp.test ty l || acc l) lines 0 with
         | Some (j, x) => inv x (j + 1)
         | None =>
             if negb (seenLine (RegExp.test ty) lines) then missing
             else Outcome.valid
         end.
Proof.
  unfold Simple.declarationThenRules.
  rewrite (forLines_firstRejected (declStep (RegExp.test ty) acc)
             (fun l j => inv l (j + 1)))
    by (intros; apply Simple_rulesBody_stepBody).
  pose proof (firstBad_firstRejected (declStep (RegExp.test ty) acc)
                (fun l => RegExp.test ty l || acc l)
                (declStep_None _ _) lines 0 false) as H.
  destruct (firstRejected _ lines 0 false) as [[j x]|st] eqn:E.
  - now rewrite H.
  - rewrite H. apply declStep_final in E. subst. reflexivity.
Qed.

Lemma Simple_graphBody_stepBody (i : nat) (raw : string) (st : bool * bool * bool) :
  Simple.graphBody i raw st =
  stepBody Simple_graphStep
    (fun l j => Simple.failure (Simple.quoted "Invalid graph syntax" l) "syntax" (j + 1)
       "Check graph syntax. Valid formats: A[Text], A --> B, subgraph Title")
    i raw st.
Proof.
  destruct st as [[t n] c].
  unfold Simple.graphBody, stepBody, Simple_graphStep. rewrite skipped_meaningful.
  destruct (meaningful raw); simpl; [|reflexivity].
  repeat (destruct (RegExp.test _ (JS.trim raw)); [reflexivity|]). reflexivity.
Qed.

Lemma Simple_graphStep_None (st : bool * bool * bool) (line : string) :
  Simple_graphStep st line = None <->
  Simple_declares graph line || Simple_shape graph line = false.
Proof.
  destruct st as [[t n] c]. unfold Simple_graphStep, Simple_declares, Simple_shape.
  repeat (destruct (RegExp.test _ line); simpl; [split; congruence|]).
  split; congruence.
Qed.

Lemma Simple_graphStep_final (lines : list string) :
  forall i st st',
    firstRejected Simple_graphStep lines i st = inr st' ->
    fst (fst st') = fst (fst st) || seenLine (Simple_declares graph) lines.
Proof.
  induction lines as [|raw ls IH]; intros i st st'; simpl.
  - intros H. inversion H. now rewrite orb_false_r.
  - destruct (meaningful raw); simpl; [|apply IH].
    destruct st as [[t n] c]. unfold Simple_graphStep at 1.
    destruct (RegExp.test Simple.patterns.graph.types (JS.trim raw)); simpl.
    + intros H. apply IH in H. rewrite H. simpl. now rewrite orb_true_r.
    + repeat (destruct (RegExp.test _ (JS.trim raw));
              [intros H; apply IH in H; exact H|]).
      discriminate.
Qed.

Lemma Simple_pieBody_stepBody (i : nat) (raw : string) (st : bool * bool) :
  Simple.pieBody i raw st =
  stepBody Simple_pieStep
    (fun l j => Simple.failure (Simple.quoted "Invalid pie chart syntax" l) "syntax" (j + 1)
       ("Check pie chart syntax. Valid formats: " ++ JS.dq ++ "Label" ++ JS.dq
        ++ " : value"))
    i raw st.
Proof.
  destruct st as [t dd].
  unfold Simple.pieBody, stepBody, Simple_pieStep. rewrite skipped_meaningful.
  destruct (meaningful raw); simpl; [|reflexivity].
  repeat (destruct (RegExp.test _ (JS.trim raw)); [reflexivity|]). reflexivity.
Qed.

Lemma Simple_pieStep_None (st : bool * bool) (line : string) :
  Simple_pieStep st line = None <->
  Simple_declares pie line || Simple_shape pie line = false.
Proof.
  destruct st as [t dd]. unfold Simple_pieStep, Simple_declares, Simple_shape.
  repeat (destruct (RegExp.test _ line); simpl; [split; congruence|]).
  split; congruence.
Qed.

Lemma Simple_pieStep_final (lines : list string) :
  forall i st st',
    firstRejected Simple_pieStep lines i st = inr st' ->
    st' = (fst st || seenLine (Simple_declares pie) lines,
           snd st || seenLine Simple_pieData lines).
Proof.
  induction lines as [|raw ls IH]; intros i st st'; simpl.
  - intros H. inversion H. destruct st'. simpl. now rewrite !orb_false_r.
  - destruct (meaningful raw); simpl; [|apply IH].
    destruct st as [t dd]. unfold Simple_pieStep at 1, Simple_pieData at 1.
    destruct (RegExp.test Simple.patterns.pie.type (JS.trim raw)); simpl.
    + intros H. apply IH in H. subst. simpl. now rewrite orb_true_r.
    + destruct (RegExp.test Simple.patterns.pie.data (JS.trim raw)); simpl;
        [|discriminate].
      intros H. apply IH in H. subst. simpl. now rewrite orb_true_r.
Qed.

Lemma hasKind_rules (acc decl : string -> bool) (label hint : string)
  (missing : Outcome.t) (lines : list string) :
  Outcome.type missing = Some "no_type" -> Outcome.line missing = Some 1 ->
  Outcome.isValid missing = false ->
  let o :=
    match firstBad (fun l => decl l || acc l) lines 0 with
    | Some (j, x) => Simple.failure (Simple.quoted label x) "syntax" (j + 1) hint
    | None => if negb (seenLine decl lines) then missing else Outcome.valid
    end in
  hasKind o (scanKind false decl acc (fun _ => false) lines) /\
  syntaxAt o (firstBad (fun l => decl l || acc l) lines 0).
Proof.
  intros Ht Hl Hv. unfold hasKind, scanKind, syntaxAt. cbv zeta.
  destruct (firstBad _ lines 0) as [[j x]|].
  - repeat split. intros j' x' E. inversion E; subst. eauto.
  - split; [|discriminate].
    destruct (seenLine decl lines); simpl; [split; reflexivity|].
    now rewrite Ht, Hl, Hv.
Qed.

(** For every dialect the scan routine of the simple validator returns,
    and its result has the kind and line that [Simple_scanKind] reads off the
    text. *)
Lemma Simple_validateByType_kind (d : DiagramType) (lines : list string) :
  d <> unknown ->
  exists o, Simple.validateByType d lines = Normal o /\
            hasKind o (Simple_scanKind d lines) /\
            syntaxAt o (firstBad (fun l => Simple_declares d l || Simple_shape d l)
                          lines 0).
Proof.
  intros Hd. unfold Simple_scanKind.
  destruct d; try congruence; cbn [Simple.validateByType isPie];
    try (eexists; split;
         [apply Simple_declarationThenRules_scan
         |apply hasKind_rules; reflexivity]).
  - (* graph *)
    unfold Simple.validateGraph.
    rewrite (forLines_firstRejected Simple_graphStep _ _ Simple_graphBody_stepBody).
    pose proof (firstBad_firstRejected Simple_graphStep
                  (fun l => Simple_declares graph l || Simple_shape graph l)
                  Simple_graphStep_None lines 0 (false, false, false)) as H.
    unfold hasKind, scanKind, syntaxAt.
    destruct (firstRejected _ lines 0 _) as [[j x]|st] eqn:E; rewrite H.
    + eexists; split; [reflexivity|]. repeat split.
      intros j' x' E'. inversion E'; subst. eauto.
    + apply Simple_graphStep_final in E. simpl in E.
      destruct st as [[t n] c]. simpl in E. subst t.
      eexists; split; [reflexivity|]. split; [|discriminate].
      destruct (seenLine _ lines); split; reflexivity.
  - (* pie *)
    unfold Simple.validatePie.
    rewrite (forLines_firstRejected Simple_pieStep _ _ Simple_pieBody_stepBody).
    pose proof (firstBad_firstRejected Simple_pieStep
                  (fun l => Simple_declares pie l || Simple_shape pie l)
                  Simple_pieStep_None lines 0 (false, false)) as H.
    unfold hasKind, scanKind, syntaxAt.
    destruct (firstRejected _ lines 0 _) as [[j x]|st] eqn:E; rewrite H.
    + eexists; split; [reflexivity|]. repeat split.
      intros j' x' E'. inversion E'; subst. eauto.
    + apply Simple_pieStep_final in E. simpl in E. subst st.
      eexists; split; [reflexivity|]. split; [|discriminate].
      destruct (seenLine (Simple_declares pie) lines),
               (seenLine Simple_pieData lines); split; reflexivity.
Qed.

(** *** Lower-casing and case-insensitive rules *)

Section LowerCase.
Import JS RegExp.

Lemma In_allCodeUnits (c : ascii) : In c allCodeUnits.
Proof.
  unfold allCodeUnits. rewrite <- (ascii_nat_embedding c).
  apply in_map. apply in_seq. pose proof (nat_ascii_bounded c). lia.
Qed.

Lemma isWordChar_lowerChar (c : ascii) : isWordChar (lowerChar c) = isWordChar c.
Proof.
  assert (H : forallb (fun c => Bool.eqb (isWordChar (lowerChar c)) (isWordChar c))
                allCodeUnits = true) by (vm_compute; reflexivity).
  rewrite forallb_forall in H. apply eqb_prop. apply H. apply In_allCodeUnits.
Qed.

Lemma toLowerCase_length (s : string) :
  String.length (toLowerCase s) = String.length s.
Proof. induction s as [|c s IH]; simpl; [reflexivity|now rewrite IH]. Qed.

Lemma remaining_lowerState (x : state) : remaining (lowerState x) = remaining x.
Proof. apply toLowerCase_length. Qed.

Lemma repeat_lower (ma : state -> cont -> bool) (g : bool) :
  (forall x k k', (forall y, k' (lowerState y) = k y) ->
                  ma (lowerState x) k' = ma x k) ->
  forall n x k k', (forall y, k' (lowerState y) = k y) ->
    repeat ma g k' n (lowerState x) = repeat ma g k n x.
Proof.
  intros Hma n; induction n as [|n IH]; intros x k k' Hk; simpl.
  - now rewrite Hk.
  - rewrite Hk.
    rewrite (Hma x (fun y => negb (Nat.eqb (remaining y) (remaining x))
                             && repeat ma g k n y)); [reflexivity|].
    intros y. rewrite !remaining_lowerState. f_equal. now apply IH.
Qed.

Lemma m_lower (ic : bool) (r : regex) :
  lowerClosed ic r = true ->
  forall x k k', (forall y, k' (lowerState y) = k y) ->
    m ic r (lowerState x) k' = m ic r x k.
Proof.
  induction r as [|inv rs|a IHa b IHb|a IHa b IHb|g a IHa|g a IHa|g a IHa| | |];
    intros Hc x k k' Hk; cbn [lowerClosed] in Hc; cbn [m].
  - apply Hk.
  - destruct x as [p s]. destruct s as [|c s]; simpl; [reflexivity|].
    rewrite forallb_forall in Hc.
    rewrite (eqb_prop _ _ (Hc c (In_allCodeUnits c))).
    destruct (charIn ic inv rs c); [|reflexivity].
    apply (Hk {| prev := Some c; rest := s |}).
  - apply andb_prop in Hc as [Ha Hb].
    apply (IHa Ha). intros y. now apply (IHb Hb).
  - apply andb_prop in Hc as [Ha Hb].
    now rewrite (IHa Ha x k k' Hk), (IHb Hb x k k' Hk).
  - rewrite remaining_lowerState. apply repeat_lower; [apply (IHa Hc)|exact Hk].
  - apply (IHa Hc). intros y. rewrite remaining_lowerState.
    apply repeat_lower; [apply (IHa Hc)|exact Hk].
  - cbv zeta. rewrite Hk.
    rewrite (IHa Hc x (fun y => negb (Nat.eqb (remaining y) (remaining x)) && k y));
      [reflexivity|].
    intros y. rewrite !remaining_lowerState. f_equal. apply Hk.
  - destruct x as [[p|] s]; simpl; [reflexivity|]. apply (Hk {| prev := None; rest := s |}).
  - destruct x as [p [|c s]]; simpl; [|reflexivity].
    apply (Hk {| prev := p; rest := EmptyString |}).
  - assert (E : xorb (wordAt (prev (lowerState x))) (wordAt (next (lowerState x)))
                = xorb (wordAt (prev x)) (wordAt (next x))).
    { destruct x as [[p|] [|c s]]; simpl; now rewrite ?isWordChar_lowerChar. }
    rewrite E. destruct (xorb (wordAt (prev x)) (wordAt (next x)));
      [apply Hk|reflexivity].
Qed.

Lemma search_lower (ic : bool) (r : regex) :
  lowerClosed ic r = true ->
  forall s p, search ic r (option_map lowerChar p) (toLowerCase s) = search ic r p s.
Proof.
  intros Hc s; induction s as [|c s IH]; intros p; simpl.
  - f_equal. apply (m_lower ic r Hc {| prev := p; rest := EmptyString |}).
    reflexivity.
  - f_equal.
    + apply (m_lower ic r Hc {| prev := p; rest := String c s |}). reflexivity.
    + apply (IH (Some c)).
Qed.

(** A rule whose classes are closed under lower-casing gives the same
    answer on a line and on its lower-cased form. *)
Lemma test_toLowerCase (r : RegExp.t) (s : string) :
  lowerClosed (ignoreCase r) (pattern r) = true ->
  test r (toLowerCase s) = test r s.
Proof. intros Hc. unfold test. apply (search_lower _ _ Hc s None). Qed.

Lemma declarationRules_lowerClosed :
  forallb (fun dr => lowerClosed (ignoreCase (snd dr)) (pattern (snd dr)))
    (Flexible_declarationRules ++ Simple_declarationRules) = true.
Proof. vm_compute. reflexivity. Qed.
End LowerCase.

(** *** Detection and the declaration seen by the scan *)

Lemma filter_blankOrComment (lines : list string) :
  filter (fun l => negb (blankOrComment l)) lines = filter meaningful lines.
Proof. apply filter_ext. intros l. symmetry. apply meaningful_blankOrComment. Qed.

Lemma detectFirstMatch_known (rules : list (DiagramType * RegExp.t))
  (lines : list string) :
  detectFirstMatch rules lines <> unknown ->
  exists l0 rest r,
    filter meaningful lines = l0 :: rest /\
    In (detectFirstMatch rules lines, r) rules /\
    RegExp.test r (JS.toLowerCase (JS.trim l0)) = true.
Proof.
  unfold detectFirstMatch. rewrite filter_blankOrComment.
  destruct (filter meaningful lines) as [|l0 rest]; [congruence|].
  destruct (find _ rules) as [[d r]|] eqn:E; [|congruence].
  intros _. apply find_some in E as [Hin Ht]. exists l0, rest, r. auto.
Qed.

Lemma first_meaningful (lines : list string) (l0 : string) (rest : list string) :
  filter meaningful lines = l0 :: rest ->
  exists pre suf, lines = (pre ++ l0 :: suf)%list /\ meaningful l0 = true /\
                  forall l, In l pre -> meaningful l = false.
Proof.
  induction lines as [|l ls IH]; simpl; [discriminate|].
  destruct (meaningful l) eqn:E.
  - intros H. inversion H; subst. exists [], ls. repeat split; auto. intros l' [].
  - intros H. apply IH in H as (pre & suf & -> & Hm & Hpre).
    exists (l :: pre), suf. repeat split; auto.
    intros l' [<-|Hin]; auto.
Qed.

Lemma rule_test_toLowerCase (d : DiagramType) (r : RegExp.t) (s : string) :
  In (d, r) (Flexible_declarationRules ++ Simple_declarationRules)%list ->
  RegExp.test r (JS.toLowerCase s) = RegExp.test r s.
Proof.
  intros Hin. apply test_toLowerCase.
  pose proof declarationRules_lowerClosed as H. rewrite forallb_forall in H.
  apply (H (d, r) Hin).
Qed.

Lemma Simple_rule_declares (d : DiagramType) (r : RegExp.t) (s : string) :
  In (d, r) Simple_declarationRules -> Simple_declares d s = RegExp.test r s.
Proof.
  unfold Simple_declarationRules. simpl.
  intros H. repeat (destruct H as [E|H]; [inversion E; subst; reflexivity|]).
  contradiction.
Qed.

Lemma Flexible_rule_declares (d : DiagramType) (r : RegExp.t) (s : string) :
  In (d, r) Flexible_declarationRules -> d <> graph ->
  Flexible_declares d s = RegExp.test r s.
Proof.
  unfold Flexible_declarationRules. simpl.
  intros H Hg. repeat (destruct H as [E|H];
                       [inversion E; subst; try congruence; reflexivity|]).
  contradiction.
Qed.

(** When a dialect is detected, the first meaningful line, trimmed,
    matches the declaration rule that the scan of the simple validator
    tests. *)
Lemma Simple_detect_declares (lines : list string) :
  Simple.detectDiagramType lines <> unknown ->
  exists pre l0 suf,
    lines = (pre ++ l0 :: suf)%list /\ meaningful l0 = true /\
    (forall l, In l pre -> meaningful l = false) /\
    Simple_declares (Simple.detectDiagramType lines) (JS.trim l0) = true.
Proof.
  rewrite Simple_detect_first_match. intros H.
  apply detectFirstMatch_known in H as (l0 & rest & r & Hf & Hin & Ht).
  apply first_meaningful in Hf as (pre & suf & -> & Hm & Hpre).
  exists pre, l0, suf. repeat split; auto.
  rewrite (Simple_rule_declares _ _ _ Hin).
  rewrite <- (rule_test_toLowerCase _ r _ (in_or_app _ _ _ (or_intror Hin))).
  exact Ht.
Qed.

Lemma Flexible_detect_declares (lines : list string) :
  Flexible.detectDiagramType lines <> unknown ->
  Flexible.detectDiagramType lines <> graph ->
  exists pre l0 suf,
    lines = (pre ++ l0 :: suf)%list /\ meaningful l0 = true /\
    (forall l, In l pre -> meaningful l = false) /\
    Flexible_declares (Flexible.detectDiagramType lines) (JS.trim l0) = true.
Proof.
  rewrite Flexible_detect_first_match. intros H Hg.
  apply detectFirstMatch_known in H as (l0 & rest & r & Hf & Hin & Ht).
  apply first_meaningful in Hf as (pre & suf & -> & Hm & Hpre).
  exists pre, l0, suf. repeat split; auto.
  rewrite (Flexible_rule_declares _ _ _ Hin Hg).
  rewrite <- (rule_test_toLowerCase _ r _ (in_or_app _ _ _ (or_introl Hin))).
  exact Ht.
Qed.

Lemma seenLine_at (p : string -> bool) (pre : list string) (l0 : string)
  (suf : list string) :
  meaningful l0 = true -> p (JS.trim l0) = true ->
  seenLine p (pre ++ l0 :: suf) = true.
Proof.
  intros Hm Hp. apply seenLine_true. exists l0. repeat split; auto.
  apply in_or_app. right. now left.
Qed.

Lemma Simple_detect_seen (lines : list string) :
  Simple.detectDiagramType lines <> unknown ->
  seenLine (Simple_declares (Simple.detectDiagramType lines)) lines = true.
Proof.
  intros H. destruct (Simple_detect_declares lines H)
    as (pre & l0 & suf & E & Hm & _ & Hd).
  rewrite E at 2. now apply seenLine_at.
Qed.

Lemma Flexible_detect_seen (lines : list string) :
  Flexible.detectDiagramType lines <> unknown ->
  Flexible.detectDiagramType lines <> graph ->
  seenLine (Flexible_declares (Flexible.detectDiagramType lines)) lines = true.
Proof.
  intros H Hg. destruct (Flexible_detect_declares lines H Hg)
    as (pre & l0 & suf & E & Hm & _ & Hd).
  rewrite E at 2. now apply seenLine_at.
Qed.

Lemma Flexible_declares_graph (lines : list string) :
  seenLine (Flexible_declares graph) lines = false.
Proof.
  unfold seenLine. induction lines as [|l ls IH]; simpl; [reflexivity|].
  rewrite IH. now rewrite andb_false_r.
Qed.

Lemma Flexible_validateByType_kind (d : DiagramType) (lines : list string) :
  d <> unknown ->
  exists o, Flexible.validateByType d lines = Normal o /\
            hasKind o (Flexible_scanKind d lines) /\
            (forall j x,
               firstBad (Flexible_accepts d) lines 0 = Some (j, x) ->
               o = Flexible.invalidSyntax d x j) /\
            (firstBad (Flexible_accepts d) lines 0 = None ->
             seenLine (Flexible_declares d) lines = false ->
             o = Flexible.missingDeclaration d).
Proof.
  intros Hd. rewrite Flexible_validateByType_scan by exact Hd.
  pose proof (firstBad_firstRejected (Flexible_step d) (Flexible_accepts d)
                (Flexible_step_None d) lines 0 false) as H.
  unfold Flexible_scanKind, scanKind, hasKind.
  change (fun l => Flexible_declares d l || Flexible_lineShape d l)
    with (Flexible_accepts d).
  destruct (firstRejected _ lines 0 false) as [[j x]|st] eqn:E; rewrite H.
  - eexists; split; [reflexivity|]. repeat split.
    + intros j' x' E'. now inversion E'.
    + discriminate.
  - apply (declStep_final (Flexible_declares d) (Flexible_lineShape d)) in E.
    simpl in E. subst st. eexists; split; [reflexivity|].
    destruct (seenLine (Flexible_declares d) lines); repeat split;
      try discriminate; auto.
Qed.

(** *** The facade, case by case *)

Lemma asCode_Some (v : value) (text : string) :
  asCode v = Some text -> v = VString text /\ text <> EmptyString.
Proof.
  unfold asCode. destruct v as [| |b|z|s|]; simpl; rewrite ?orb_true_r;
    try discriminate.
  destruct s; [discriminate|]. inversion 1. split; [reflexivity|discriminate].
Qed.

Lemma asCode_None (v : value) :
  asCode v = None -> v = VString EmptyString \/ typeofString v = false.
Proof.
  destruct v as [| |b|z|s|]; auto. destruct s; [auto|discriminate].
Qed.

Lemma Simple_validateSyntax_cases (startTime now : Z) (input : value) :
  (asCode input = None /\ Simple.validateSyntax startTime now input = inputError) \/
  (exists text, input = VString text /\ text <> EmptyString /\
     ((Simple.detectDiagramType (JS.split text) = unknown /\
       Simple.validateSyntax startTime now input = noTypeDetected (now - startTime)) \/
      (Simple.detectDiagramType (JS.split text) <> unknown /\
       exists o,
         Simple.validateByType (Simple.detectDiagramType (JS.split text))
           (JS.split text) = Normal o /\
         hasKind o (Simple_scanKind (Simple.detectDiagramType (JS.split text))
                      (JS.split text)) /\
         syntaxAt o (firstBad (fun l =>
                        Simple_declares (Simple.detectDiagramType (JS.split text)) l
                        || Simple_shape (Simple.detectDiagramType (JS.split text)) l)
                       (JS.split text) 0) /\
         Simple.validateSyntax startTime now input =
           assemble o (now - startTime) (Simple.detectDiagramType (JS.split text))
             (countElements (JS.split text))))).
Proof.
  unfold Simple.validateSyntax.
  destruct (asCode input) as [text|] eqn:E; [|left; auto].
  right. apply asCode_Some in E as [-> Hne]. exists text. repeat split; auto.
  cbv zeta.
  destruct (DiagramType_eq_dec (Simple.detectDiagramType (JS.split text)) unknown)
    as [Hu|Hk].
  - left. split; [exact Hu|]. now rewrite Hu.
  - right. split; [exact Hk|].
    destruct (Simple_validateByType_kind _ (JS.split text) Hk) as (o & Ho & Hkind & Hs).
    exists o. repeat split; auto; try apply Hkind.
    rewrite (known_dispatch _ _ _ Hk). now rewrite Ho.
Qed.

Lemma Flexible_validateSyntax_cases (startTime now : Z) (input : value) :
  (asCode input = None /\ Flexible.validateSyntax startTime now input = inputError) \/
  (exists text, input = VString text /\ text <> EmptyString /\
     ((Flexible.detectDiagramType (JS.split text) = unknown /\
       Flexible.validateSyntax startTime now input = noTypeDetected (now - startTime)) \/
      (Flexible.detectDiagramType (JS.split text) <> unknown /\
       exists o,
         Flexible.validateByType (Flexible.detectDiagramType (JS.split text))
           (JS.split text) = Normal o /\
         hasKind o (Flexible_scanKind (Flexible.detectDiagramType (JS.split text))
                      (JS.split text)) /\
         (forall j x,
            firstBad (Flexible_accepts (Flexible.detectDiagramType (JS.split text)))
              (JS.split text) 0 = Some (j, x) ->
            o = Flexible.invalidSyntax (Flexible.detectDiagramType (JS.split text)) x j) /\
         (firstBad (Flexible_accepts (Flexible.detectDiagramType (JS.split text)))
            (JS.split text) 0 = None ->
          seenLine (Flexible_declares (Flexible.detectDiagramType (JS.split text)))
            (JS.split text) = false ->
          o = Flexible.missingDeclaration (Flexible.detectDiagramType (JS.split text))) /\
         Flexible.validateSyntax startTime now input =
           assemble o (now - startTime) (Flexible.detectDiagramType (JS.split text))
             (countElements (JS.split text))))).
Proof.
  unfold Flexible.validateSyntax.
  destruct (asCode input) as [text|] eqn:E; [|left; auto].
  right. apply asCode_Some in E as [-> Hne]. exists text. repeat split; auto.
  cbv zeta.
  destruct (DiagramType_eq_dec (Flexible.detectDiagramType (JS.split text)) unknown)
    as [Hu|Hk].
  - left. split; [exact Hu|]. now rewrite Hu.
  - right. split; [exact Hk|].
    destruct (Flexible_validateByType_kind _ (JS.split text) Hk)
      as (o & Ho & Hkind & Hs & Hm).
    exists o. repeat split; auto; try apply Hkind.
    rewrite (known_dispatch _ _ _ Hk). now rewrite Ho.
Qed.

(** *** What the simple validator returns *)

Lemma scanKind_cases (needsData : bool) (declares shape data : string -> bool)
  (lines : list string) :
  (exists j x, firstBad (fun l => declares l || shape l) lines 0 = Some (j, x) /\
     scanKind needsData declares shape data lines = (Some "syntax", Some (j + 1))) \/
  (firstBad (fun l => declares l || shape l) lines 0 = None /\
   seenLine declares lines = false /\
   scanKind needsData declares shape data lines = (Some "no_type", Some 1)) \/
  (firstBad (fun l => declares l || shape l) lines 0 = None /\
   seenLine declares lines = true /\ needsData = true /\ seenLine data lines = false /\
   scanKind needsData declares shape data lines = (Some "no_data", Some 2)) \/
  (firstBad (fun l => declares l || shape l) lines 0 = None /\
   seenLine declares lines = true /\
   (needsData = true -> seenLine data lines = true) /\
   scanKind needsData declares shape data lines = (None, None)).
Proof.
  unfold scanKind.
  destruct (firstBad _ lines 0) as [[j x]|]; [left; eauto|right].
  destruct (seenLine declares lines); simpl; [right|left; auto].
  destruct needsData; simpl.
  - destruct (seenLine data lines); simpl; [right|left]; repeat split; auto.
  - right. repeat split; auto. discriminate.
Qed.

Lemma hasKind_fields (o : Outcome.t) (kl : option string * option nat) :
  hasKind o kl ->
  Outcome.type o = fst kl /\ Outcome.line o = snd kl /\
  Outcome.isValid o = match fst kl with None => true | Some _ => false end.
Proof.
  intros [H Hv]. destruct kl as [k l]. inversion H; subst. simpl in *. auto.
Qed.

(** X1. The simple validator never answers [unsupported] or [general];
    [no_type] is only the answer for a text without a detected dialect (the
    per-dialect "Missing ... declaration" results cannot be reached through
    [validateSyntax]); [no_data] only comes with the pie dialect; and
    [input_error] is the answer exactly for the rejected input values. *)
Theorem simple_failure_kinds (startTime now : Z) (input : value) :
  let r := Simple.validateSyntax startTime now input in
  type r <> Some "unsupported" /\
  type r <> Some "general" /\
  (type r = Some "no_type" -> r = noTypeDetected (now - startTime)) /\
  (type r = Some "no_data" -> diagramType r = pie) /\
  (type r = Some "input_error" <-> asCode input = None).
Proof.
  cbv zeta.
  destruct (Simple_validateSyntax_cases startTime now input)
    as [[E ->]|(text & -> & Hne & [[Hu ->]|(Hk & o & _ & Hkind & _ & ->)])].
  - repeat split; try discriminate; auto.
  - rewrite (asCode_known _ Hne). repeat split; try discriminate; auto.
  - rewrite (asCode_known _ Hne). simpl.
    apply hasKind_fields in Hkind as (Ht & Hl & Hv).
    pose proof (Simple_detect_seen _ Hk) as Hseen.
    destruct (scanKind_cases (isPie (Simple.detectDiagramType (JS.split text)))
                (Simple_declares (Simple.detectDiagramType (JS.split text)))
                (Simple_shape (Simple.detectDiagramType (JS.split text)))
                Simple_pieData (JS.split text))
      as [(j & x & _ & K)|[(_ & Hs & _)|[(_ & _ & Hp & _ & K)|(_ & _ & _ & K)]]];
      try congruence;
      unfold Simple_scanKind in Ht; rewrite K in Ht; simpl in Ht; rewrite Ht;
      repeat split; try discriminate.
    intros _. destruct (Simple.detectDiagramType (JS.split text)); try discriminate.
    reflexivity.
Qed.

(** X2. The simple validator answers valid exactly for a string with a
    detected dialect whose every meaningful line, trimmed, matches the
    declaration rule or another rule of that dialect and, for the pie
    dialect, at least one of whose lines is a data line. *)
Theorem simple_valid_iff (startTime now : Z) (input : value) :
  isValid (Simple.validateSyntax startTime now input) = true <->
  exists text,
    input = VString text /\
    Simple.detectDiagramType (JS.split text) <> unknown /\
    (forall l, In l (JS.split text) -> meaningful l = true ->
       Simple_declares (Simple.detectDiagramType (JS.split text)) (JS.trim l)
       || Simple_shape (Simple.detectDiagramType (JS.split text)) (JS.trim l) = true) /\
    (Simple.detectDiagramType (JS.split text) = pie ->
     seenLine Simple_pieData (JS.split text) = true).
Proof.
  destruct (Simple_validateSyntax_cases startTime now input)
    as [[E ->]|(text & -> & Hne & [[Hu ->]|(Hk & o & _ & Hkind & _ & ->)])].
  - split; [discriminate|]. intros (text & -> & Hk & _).
    exfalso. apply Hk. destruct text; [reflexivity|discriminate].
  - split; [discriminate|]. intros (text' & E & Hk & _). inversion E; subst. congruence.
  - simpl. apply hasKind_fields in Hkind as (Ht & Hl & Hv). rewrite Hv.
    pose proof (Simple_detect_seen _ Hk) as Hseen.
    destruct (scanKind_cases (isPie (Simple.detectDiagramType (JS.split text)))
                (Simple_declares (Simple.detectDiagramType (JS.split text)))
                (Simple_shape (Simple.detectDiagramType (JS.split text)))
                Simple_pieData (JS.split text))
      as [(j & x & Hb & K)|[(_ & Hs & _)|[(_ & _ & Hp & Hd & K)|(Hb & _ & Hd & K)]]];
      try congruence; unfold Simple_scanKind; rewrite K; simpl.
    + split; [discriminate|]. intros (text' & E & _ & Hall & _).
      inversion E; subst text'.
      pose proof (proj2 (firstBad_None
                           (fun l => Simple_declares
                                       (Simple.detectDiagramType (JS.split text)) l
                                     || Simple_shape
                                          (Simple.detectDiagramType (JS.split text)) l)
                           (JS.split text) 0) Hall).
      congruence.
    + split; [discriminate|]. intros (text' & E & _ & _ & Hpie).
      inversion E; subst text'.
      destruct (Simple.detectDiagramType (JS.split text)); try discriminate.
      rewrite Hpie in Hd by reflexivity. discriminate.
    + split; [|reflexivity]. intros _. exists text. repeat split; auto.
      * exact (proj1 (firstBad_None _ _ 0) Hb).
      * intros Ep. apply Hd. now rewrite Ep.
Qed.

Lemma pie_all_declarations (text : string) :
  (forall l, In l (JS.split text) -> meaningful l = true ->
     RegExp.test Simple.patterns.pie.type (JS.trim l) = true) ->
  firstBad (fun l => Simple_declares pie l || Simple_shape pie l) (JS.split text) 0 = None /\
  seenLine Simple_pieData (JS.split text) = false.
Proof.
  intros Hall. split.
  - apply firstBad_None. intros l Hin Hm. simpl. now rewrite (Hall l Hin Hm).
  - destruct (seenLine Simple_pieData (JS.split text)) eqn:E; [|reflexivity].
    apply seenLine_true in E as (l & Hin & Hm & Hp).
    unfold Simple_pieData in Hp. rewrite (Hall l Hin Hm) in Hp. discriminate.
Qed.

(** X3. The simple validator answers [no_data] exactly for a string with
    detected dialect pie whose every meaningful line, trimmed, matches the pie
    declaration rule; the reported line is then 2, whatever the number of
    lines. *)
Theorem simple_no_data_iff (startTime now : Z) (input : value) :
  (type (Simple.validateSyntax startTime now input) = Some "no_data" <->
   exists text,
     input = VString text /\
     Simple.detectDiagramType (JS.split text) = pie /\
     forall l, In l (JS.split text) -> meaningful l = true ->
       RegExp.test Simple.patterns.pie.type (JS.trim l) = true) /\
  (type (Simple.validateSyntax startTime now input) = Some "no_data" ->
   line (Simple.validateSyntax startTime now input) = Some 2).
Proof.
  destruct (Simple_validateSyntax_cases startTime now input)
    as [[E ->]|(text & -> & Hne & [[Hu ->]|(Hk & o & _ & Hkind & _ & ->)])].
  - split; [|discriminate]. split; [discriminate|].
    intros (text & -> & Hd & _). exfalso.
    destruct text; [vm_compute in Hd|]; discriminate.
  - split; [|discriminate]. split; [discriminate|].
    intros (text' & E & Hd & _). inversion E; subst. congruence.
  - simpl. apply hasKind_fields in Hkind as (Ht & Hl & Hv). rewrite Ht, Hl.
    pose proof (Simple_detect_seen _ Hk) as Hseen.
    assert (Hback : (exists text',
              VString text = VString text' /\
              Simple.detectDiagramType (JS.split text') = pie /\
              forall l, In l (JS.split text') -> meaningful l = true ->
                RegExp.test Simple.patterns.pie.type (JS.trim l) = true) ->
            Simple_scanKind (Simple.detectDiagramType (JS.split text)) (JS.split text)
            = (Some "no_data", Some 2)).
    { intros (text' & E & Hd & Hall). inversion E; subst text'.
      apply pie_all_declarations in Hall as [Hb Hdata].
      unfold Simple_scanKind, scanKind. rewrite Hd in *.
      rewrite Hb, Hseen, Hdata. reflexivity. }
    destruct (scanKind_cases (isPie (Simple.detectDiagramType (JS.split text)))
                (Simple_declares (Simple.detectDiagramType (JS.split text)))
                (Simple_shape (Simple.detectDiagramType (JS.split text)))
                Simple_pieData (JS.split text))
      as [(j & x & Hb & K)|[(_ & Hs & _)|[(Hb & _ & Hp & Hd & K)|(Hb & _ & Hd & K)]]];
      try congruence; unfold Simple_scanKind in *; rewrite K in *; simpl.
    + split; [|discriminate]. split; [discriminate|].
      intros H. apply Hback in H. discriminate H.
    + split; [|reflexivity]. split; [intros _|reflexivity]. exists text.
      destruct (Simple.detectDiagramType (JS.split text)) eqn:Ed; try discriminate.
      repeat split; auto. intros l Hin Hm.
      pose proof (proj1 (firstBad_None _ _ 0) Hb l Hin Hm) as Ha. simpl in Ha.
      destruct (RegExp.test Simple.patterns.pie.type (JS.trim l)) eqn:Et; [reflexivity|].
      simpl in Ha. exfalso.
      assert (seenLine Simple_pieData (JS.split text) = true); [|congruence].
      apply seenLine_true. exists l. repeat split; auto.
      unfold Simple_pieData. now rewrite Et, Ha.
    + split; [|discriminate]. split; [discriminate|].
      intros H. apply Hback in H. discriminate H.
Qed.

Lemma scanKind_syntax_iff (needsData : bool) (declares shape data : string -> bool)
  (lines : list string) (k : nat) :
  (fst (scanKind needsData declares shape data lines) = Some "syntax" /\
   snd (scanKind needsData declares shape data lines) = Some k) <->
  exists pre bad suf,
    lines = (pre ++ bad :: suf)%list /\ k = S (List.length pre) /\
    firstBad (fun l => declares l || shape l) lines 0
      = Some (List.length pre, JS.trim bad) /\
    meaningful bad = true /\
    declares (JS.trim bad) || shape (JS.trim bad) = false /\
    forall l, In l pre -> meaningful l = true ->
      declares (JS.trim l) || shape (JS.trim l) = true.
Proof.
  unfold scanKind.
  destruct (firstBad _ lines 0) as [[j x]|] eqn:E.
  - simpl. split.
    + intros [_ Hk]. inversion Hk; subst k.
      pose proof (proj1 (firstBad_Some _ _ _ _ _) E)
        as (pre & bad & suf & -> & -> & -> & Hm & Hb & Hpre).
      exists pre, bad, suf. repeat split; auto. simpl. lia.
    + intros (pre & bad & suf & _ & -> & E' & _). inversion E'; subst.
      split; [reflexivity|]. f_equal. lia.
  - split.
    + intros [H _]. destruct (seenLine declares lines); simpl in H;
        [destruct (needsData && _); discriminate|discriminate].
    + intros (pre & bad & suf & _ & _ & E' & _). discriminate.
Qed.

(** X4. The simple validator answers [syntax] at line [k] exactly when
    the [k]-th line of the text is the first meaningful line that, trimmed,
    matches none of the rules of the detected dialect; the message then quotes
    that trimmed line.  In particular a reported syntax line lies within the
    text. *)
Theorem simple_syntax_failure_iff (startTime now : Z) (input : value) (k : nat) :
  let r := Simple.validateSyntax startTime now input in
  (type r = Some "syntax" /\ line r = Some k) <->
  exists text pre bad suf,
    input = VString text /\
    Simple.detectDiagramType (JS.split text) <> unknown /\
    JS.split text = (pre ++ bad :: suf)%list /\ k = S (List.length pre) /\
    meaningful bad = true /\
    Simple_declares (Simple.detectDiagramType (JS.split text)) (JS.trim bad)
    || Simple_shape (Simple.detectDiagramType (JS.split text)) (JS.trim bad) = false /\
    (forall l, In l pre -> meaningful l = true ->
       Simple_declares (Simple.detectDiagramType (JS.split text)) (JS.trim l)
       || Simple_shape (Simple.detectDiagramType (JS.split text)) (JS.trim l) = true) /\
    exists label, error r = Some (Simple.quoted label (JS.trim bad)).
Proof.
  cbv zeta.
  destruct (Simple_validateSyntax_cases startTime now input)
    as [[E ->]|(text & -> & Hne & [[Hu ->]|(Hk & o & _ & Hkind & Hsyn & ->)])].
  - split; [intros [H _]; discriminate H|].
    intros (text & pre & bad & suf & -> & Hd & _). exfalso. apply Hd.
    destruct text; [reflexivity|discriminate].
  - split; [intros [H _]; discriminate H|].
    intros (text' & pre & bad & suf & E & Hd & _). inversion E; subst. congruence.
  - simpl. apply hasKind_fields in Hkind as (Ht & Hl & Hv). rewrite Ht, Hl.
    unfold Simple_scanKind. rewrite scanKind_syntax_iff. split.
    + intros (pre & bad & suf & Hs & -> & Hfb & Hm & Hb & Hpre).
      exists text, pre, bad, suf. repeat split; auto.
      destruct (Hsyn _ _ Hfb) as (label & hint & ->). exists label. reflexivity.
    + intros (text' & pre & bad & suf & E & _ & Hs & -> & Hm & Hb & Hpre & _).
      inversion E; subst text'. exists pre, bad, suf. repeat split; auto.
      apply firstBad_Some. exists pre, bad, suf. repeat split; auto.
Qed.

(** *** What the flexible validator returns *)

(** X5. The flexible validator accepts no flowchart: whenever the
    detected dialect is [graph] the result is invalid, either a [syntax]
    failure or, when every line passes, [no_type] with the message
    "Missing graph declaration" at line 1, because the scan never sees the
    declaration of that dialect. *)
Theorem flexible_rejects_every_flowchart (startTime now : Z) (text : string) :
  Flexible.detectDiagramType (JS.split text) = graph ->
  let r := Flexible.validateSyntax startTime now (VString text) in
  isValid r = false /\ diagramType r = graph /\
  (type r = Some "syntax" \/
   (type r = Some "no_type" /\ line r = Some 1 /\
    error r = Some "Missing graph declaration")).
Proof.
  intros Hg. cbv zeta.
  destruct (Flexible_validateSyntax_cases startTime now (VString text))
    as [[E _]|(text' & Et & Hne &
               [[Hu _]|(Hk & o & _ & Hkind & Hs & Hmiss & ->)])].
  - exfalso. destruct text; [vm_compute in Hg|]; discriminate.
  - inversion Et; subst text'. congruence.
  - inversion Et; subst text'. rewrite Hg in *.
    apply hasKind_fields in Hkind as (Ht & Hl & Hv). simpl.
    destruct (scanKind_cases false (Flexible_declares graph) (Flexible_lineShape graph)
                (fun _ => false) (JS.split text))
      as [(j & x & Hb & K)|[(Hb & Hsn & K)|[(_ & _ & Hp & _)|(_ & Hsn & _)]]];
      try discriminate.
    + unfold Flexible_scanKind in *. rewrite K in *. simpl in *.
      rewrite Hv, Ht. auto.
    + unfold Flexible_scanKind in *. rewrite K in *. simpl in *.
      rewrite Hv, Ht, Hl. rewrite (Hmiss Hb Hsn). auto 6.
    + rewrite Flexible_declares_graph in Hsn. discriminate.
Qed.

Lemma flexible_rejects_every_flowchart_witness :
  isValid (Flexible.validateSyntax 0 1 (VString ("flowchart LR" ++ nl ++ "  A --> B")))
  = false.
Proof.
  apply (flexible_rejects_every_flowchart 0 1 ("flowchart LR" ++ nl ++ "  A --> B")).
  reflexivity.
Defined.

(** X6. The flexible validator answers valid exactly for a string whose
    detected dialect is one of the nine other than [graph] and whose every
    meaningful line, trimmed, matches the declaration rule or the line rule of
    that dialect. *)
Theorem flexible_valid_iff (startTime now : Z) (input : value) :
  isValid (Flexible.validateSyntax startTime now input) = true <->
  exists text,
    input = VString text /\
    Flexible.detectDiagramType (JS.split text) <> unknown /\
    Flexible.detectDiagramType (JS.split text) <> graph /\
    forall l, In l (JS.split text) -> meaningful l = true ->
      Flexible_accepts (Flexible.detectDiagramType (JS.split text)) (JS.trim l) = true.
Proof.
  destruct (Flexible_validateSyntax_cases startTime now input)
    as [[E ->]|(text & -> & Hne &
               [[Hu ->]|(Hk & o & _ & Hkind & _ & _ & ->)])].
  - split; [discriminate|]. intros (text & -> & Hk & _).
    exfalso. apply Hk. destruct text; [reflexivity|discriminate].
  - split; [discriminate|]. intros (text' & E & Hk & _). inversion E; subst. congruence.
  - simpl. apply hasKind_fields in Hkind as (Ht & Hl & Hv). rewrite Hv.
    destruct (scanKind_cases false
                (Flexible_declares (Flexible.detectDiagramType (JS.split text)))
                (Flexible_lineShape (Flexible.detectDiagramType (JS.split text)))
                (fun _ => false) (JS.split text))
      as [(j & x & Hb & K)|[(Hb & Hsn & K)|[(_ & _ & Hp & _)|(Hb & Hsn & _ & K)]]];
      try discriminate; unfold Flexible_scanKind; rewrite K; simpl.
    + split; [discriminate|]. intros (text' & E & _ & _ & Hall).
      inversion E; subst text'.
      pose proof (proj2 (firstBad_None
                           (Flexible_accepts (Flexible.detectDiagramType (JS.split text)))
                           (JS.split text) 0) Hall) as Hn.
      unfold Flexible_accepts in Hn. congruence.
    + split; [discriminate|]. intros (text' & E & _ & Hg & _).
      inversion E; subst text'.
      rewrite (Flexible_detect_seen _ Hk Hg) in Hsn. discriminate.
    + split; [|reflexivity]. intros _. exists text. repeat split; auto.
      * intros Hg. rewrite Hg, Flexible_declares_graph in Hsn. discriminate.
      * exact (proj1 (firstBad_None _ _ 0) Hb).
Qed.

(** X7. The flexible validator never answers [general], [unsupported]
    or [no_data]: its scan does not raise.  It answers [no_type] only for a
    text without a detected dialect or for a flowchart, and [input_error]
    exactly for the rejected input values. *)
Theorem flexible_failure_kinds (startTime now : Z) (input : value) :
  let r := Flexible.validateSyntax startTime now input in
  type r <> Some "general" /\
  type r <> Some "unsupported" /\
  type r <> Some "no_data" /\
  (type r = Some "no_type" ->
   r = noTypeDetected (now - startTime) \/ diagramType r = graph) /\
  (type r = Some "input_error" <-> asCode input = None).
Proof.
  cbv zeta.
  destruct (Flexible_validateSyntax_cases startTime now input)
    as [[E ->]|(text & -> & Hne &
               [[Hu ->]|(Hk & o & _ & Hkind & _ & _ & ->)])].
  - repeat split; try discriminate; auto.
  - rewrite (asCode_known _ Hne). repeat split; try discriminate; auto.
  - rewrite (asCode_known _ Hne). simpl.
    apply hasKind_fields in Hkind as (Ht & Hl & Hv).
    destruct (scanKind_cases false
                (Flexible_declares (Flexible.detectDiagramType (JS.split text)))
                (Flexible_lineShape (Flexible.detectDiagramType (JS.split text)))
                (fun _ => false) (JS.split text))
      as [(j & x & Hb & K)|[(Hb & Hsn & K)|[(_ & _ & Hp & _)|(Hb & Hsn & _ & K)]]];
      try discriminate;
      unfold Flexible_scanKind in Ht; rewrite K in Ht; simpl in Ht; rewrite Ht;
      repeat split; try discriminate.
    intros _. right.
    destruct (DiagramType_eq_dec (Flexible.detectDiagramType (JS.split text)) graph)
      as [Hg|Hg]; [exact Hg|].
    rewrite (Flexible_detect_seen _ Hk Hg) in Hsn. discriminate.
Qed.

(** X8. The flexible validator answers [syntax] at line [k] exactly when
    the [k]-th line of the text is the first meaningful line that, trimmed,
    matches none of the rules of the detected dialect; the message is then
    [Invalid <dialect> syntax: ] followed by that trimmed line between double
    quotes. *)
Theorem flexible_syntax_failure_iff (startTime now : Z) (input : value) (k : nat) :
  let r := Flexible.validateSyntax startTime now input in
  (type r = Some "syntax" /\ line r = Some k) <->
  exists text pre bad suf,
    input = VString text /\
    Flexible.detectDiagramType (JS.split text) <> unknown /\
    JS.split text = (pre ++ bad :: suf)%list /\ k = S (List.length pre) /\
    meaningful bad = true /\
    Flexible_rules (Flexible.detectDiagramType (JS.split text)) (JS.trim bad) = false /\
    (forall l, In l pre -> meaningful l = true ->
       Flexible_rules (Flexible.detectDiagramType (JS.split text)) (JS.trim l) = true) /\
    error r = Some ("Invalid " ++ typeName (Flexible.detectDiagramType (JS.split text))
                    ++ " syntax: " ++ JS.dq ++ JS.trim bad ++ JS.dq).
Proof.
  cbv zeta.
  destruct (Flexible_validateSyntax_cases startTime now input)
    as [[E ->]|(text & -> & Hne &
               [[Hu ->]|(Hk & o & _ & Hkind & Hsyn & _ & ->)])].
  - split; [intros [H _]; discriminate H|].
    intros (text & pre & bad & suf & -> & Hd & _). exfalso. apply Hd.
    destruct text; [reflexivity|discriminate].
  - split; [intros [H _]; discriminate H|].
    intros (text' & pre & bad & suf & E & Hd & _). inversion E; subst. congruence.
  - simpl. apply hasKind_fields in Hkind as (Ht & Hl & Hv). rewrite Ht, Hl.
    unfold Flexible_scanKind. rewrite scanKind_syntax_iff. split.
    + intros (pre & bad & suf & Hs & -> & Hfb & Hm & Hb & Hpre).
      exists text, pre, bad, suf. repeat split; auto.
      * now rewrite Flexible_rules_accepts.
      * intros l Hin Hl'. rewrite Flexible_rules_accepts. now apply Hpre.
      * now rewrite (Hsyn _ _ Hfb).
    + intros (text' & pre & bad & suf & E & _ & Hs & -> & Hm & Hb & Hpre & _).
      inversion E; subst text'. exists pre, bad, suf.
      rewrite Flexible_rules_accepts in Hb.
      assert (Hpre' : forall l, In l pre -> meaningful l = true ->
                Flexible_accepts (Flexible.detectDiagramType (JS.split text))
                  (JS.trim l) = true).
      { intros l Hin Hl'. rewrite <- Flexible_rules_accepts. now apply Hpre. }
      repeat split; auto.
      apply firstBad_Some. exists pre, bad, suf. repeat split; auto.
Qed.

(** *** Greediness does not change what a rule accepts *)

Section Greed.
Import JS RegExp.

Lemma repeat_lazify (ma ma' : state -> cont -> bool) (g : bool) (k : cont) :
  forward ma ->
  (forall x k, ma' x k = ma x k) ->
  forall n x, repeat ma' false k n x = repeat ma g k n x.
Proof.
  intros Hf Hma n; induction n as [|n IH]; intros x; simpl.
  - destruct g; [apply orb_false_r|reflexivity].
  - rewrite Hma.
    rewrite (Hf x _ (fun y => negb (Nat.eqb (remaining y) (remaining x))
                              && repeat ma g k n y)).
    + destruct g; [apply orb_comm|reflexivity].
    + intros y _. f_equal. apply IH.
Qed.

Lemma m_lazify (ic : bool) (r : regex) :
  forall x k, m ic (lazify r) x k = m ic r x k.
Proof.
  induction r as [|inv rs|a IHa b IHb|a IHa b IHb|g a IHa|g a IHa|g a IHa| | |];
    intros x k; cbn [lazify m]; try reflexivity.
  - rewrite IHa. apply m_forward. intros y _. apply IHb.
  - now rewrite IHa, IHb.
  - apply repeat_lazify; [apply m_forward|exact IHa].
  - rewrite IHa. apply m_forward. intros y _.
    apply repeat_lazify; [apply m_forward|exact IHa].
  - rewrite IHa. destruct g; [apply orb_comm|reflexivity].
Qed.

Lemma search_lazify (ic : bool) (r : regex) (s : string) :
  forall p, search ic (lazify r) p s = search ic r p s.
Proof.
  induction s as [|c s IH]; intros p; simpl; rewrite m_lazify;
    [reflexivity|now rewrite IH].
Qed.

Lemma test_sameUpToGreed (r1 r2 : RegExp.t) (s : string) :
  sameUpToGreed r1 r2 -> test r1 s = test r2 s.
Proof.
  intros [Hp Hi]. unfold test.
  rewrite <- (search_lazify _ (pattern r1)), <- (search_lazify _ (pattern r2)).
  now rewrite Hp, Hi.
Qed.

End Greed.

Lemma detect_sameUpToGreed (g s c st e ga j p gi mi g' s' c' st' e' ga' j' p' gi' mi'
  : RegExp.t) (lines : list string) :
  sameUpToGreed g g' -> sameUpToGreed s s' -> sameUpToGreed c c' ->
  sameUpToGreed st st' -> sameUpToGreed e e' -> sameUpToGreed ga ga' ->
  sameUpToGreed j j' -> sameUpToGreed p p' -> sameUpToGreed gi gi' ->
  sameUpToGreed mi mi' ->
  detect g s c st e ga j p gi mi lines = detect g' s' c' st' e' ga' j' p' gi' mi' lines.
Proof.
  intros H1 H2 H3 H4 H5 H6 H7 H8 H9 H10. unfold detect.
  destruct (filter _ lines) as [|l0 rest]; [reflexivity|]. cbv zeta.
  now rewrite (test_sameUpToGreed _ _ _ H1), (test_sameUpToGreed _ _ _ H2),
    (test_sameUpToGreed _ _ _ H3), (test_sameUpToGreed _ _ _ H4),
    (test_sameUpToGreed _ _ _ H5), (test_sameUpToGreed _ _ _ H6),
    (test_sameUpToGreed _ _ _ H7), (test_sameUpToGreed _ _ _ H8),
    (test_sameUpToGreed _ _ _ H9), (test_sameUpToGreed _ _ _ H10).
Qed.

Lemma detectDiagramType_agree (lines : list string) :
  Simple.detectDiagramType lines = Flexible.detectDiagramType lines.
Proof.
  apply detect_sameUpToGreed; split; reflexivity.
Qed.

(** X9. The two regex validators detect the same dialect for every
    text (their declaration rules differ only in the greediness of one
    quantifier of the pie rule), and for every input they report the same
    [diagramType] and [elementCount], whatever the clock of each reads. *)
Theorem validators_agree_on_dialect_and_count (startTime now startTime' now' : Z)
  (input : value) :
  (forall lines, Simple.detectDiagramType lines = Flexible.detectDiagramType lines) /\
  diagramType (Simple.validateSyntax startTime now input)
  = diagramType (Flexible.validateSyntax startTime' now' input) /\
  elementCount (Simple.validateSyntax startTime now input)
  = elementCount (Flexible.validateSyntax startTime' now' input).
Proof.
  split; [exact detectDiagramType_agree|].
  destruct (Simple_validateSyntax_cases startTime now input)
    as [[E ->]|(text & -> & Hne & [[Hu ->]|(Hk & o & _ & _ & _ & ->)])].
  - unfold Flexible.validateSyntax. rewrite E. auto.
  - rewrite detectDiagramType_agree in Hu.
    rewrite (Flexible_validateSyntax_unknown _ _ _ Hne Hu). auto.
  - rewrite detectDiagramType_agree in Hk.
    rewrite (Flexible_validateSyntax_known _ _ _ Hk).
    rewrite detectDiagramType_agree. auto.
Qed.

(** *** Detection, read off the text *)

Lemma filter_none (pre : list string) :
  (forall l, In l pre -> meaningful l = false) -> filter meaningful pre = [].
Proof.
  induction pre as [|a pre IH]; intros H; simpl; [reflexivity|].
  rewrite (H a (or_introl eq_refl)). apply IH. intros l Hl. apply H. now right.
Qed.

Lemma detectFirstMatch_at (rules : list (DiagramType * RegExp.t))
  (pre : list string) (l0 : string) (suf : list string) :
  (forall l, In l pre -> meaningful l = false) -> meaningful l0 = true ->
  detectFirstMatch rules (pre ++ l0 :: suf) =
  firstDialect (fun dr => RegExp.test (snd dr) (JS.toLowerCase (JS.trim l0))) rules.
Proof.
  intros Hpre Hm. unfold detectFirstMatch, firstDialect.
  rewrite filter_blankOrComment, filter_app, (filter_none _ Hpre). simpl.
  now rewrite Hm.
Qed.

(** X10. Detection is case-insensitive and decided by one line: the
    flexible validator detects dialect [d] exactly when the first meaningful
    line of the text, trimmed and as written, matches the declaration rule of
    [d]; it detects none exactly when there is no meaningful line or the first
    one matches no declaration rule. *)
Theorem detection_by_first_meaningful_line (lines : list string) (d : DiagramType) :
  ((Flexible.detectDiagramType lines = d /\ d <> unknown) <->
   exists pre l0 suf r,
     lines = (pre ++ l0 :: suf)%list /\
     (forall l, In l pre -> meaningful l = false) /\ meaningful l0 = true /\
     In (d, r) Flexible_declarationRules /\ RegExp.test r (JS.trim l0) = true) /\
  (Flexible.detectDiagramType lines = unknown <->
   (forall l, In l lines -> meaningful l = false) \/
   exists pre l0 suf,
     lines = (pre ++ l0 :: suf)%list /\
     (forall l, In l pre -> meaningful l = false) /\ meaningful l0 = true /\
     forall d' r, In (d', r) Flexible_declarationRules ->
       RegExp.test r (JS.trim l0) = false).
Proof.
  rewrite Flexible_detect_first_match.
  assert (Hrule : forall d' r s, In (d', r) Flexible_declarationRules ->
            RegExp.test r (JS.toLowerCase s) = RegExp.test r s).
  { intros d' r s Hin. apply (rule_test_toLowerCase d'). apply in_or_app. now left. }
  assert (Hknown : forall d', In d' (map fst Flexible_declarationRules) -> d' <> unknown).
  { intros d' Hin E. subst d'. simpl in Hin. intuition discriminate. }
  split; split.
  - intros [Hd Hk]. subst d.
    destruct (detectFirstMatch_known _ _ Hk) as (l0 & rest & r & Hf & Hin & Ht).
    destruct (first_meaningful _ _ _ Hf) as (pre & suf & -> & Hm & Hpre).
    exists pre, l0, suf, r. rewrite (Hrule _ _ _ Hin) in Ht. auto.
  - intros (pre & l0 & suf & r & -> & Hpre & Hm & Hin & Ht).
    split; [|apply Hknown; apply (in_map fst _ _ Hin)].
    rewrite (detectFirstMatch_at _ _ _ _ Hpre Hm). unfold firstDialect.
    destruct (find _ Flexible_declarationRules) as [[d' r']|] eqn:E.
    + apply find_some in E as [Hin' Ht']. simpl in Ht'.
      rewrite (Hrule _ _ _ Hin') in Ht'.
      apply (leads_disjoint d' d (lead (JS.trim l0)));
        eapply Flexible_rule_lead; eassumption.
    + exfalso. pose proof (find_none _ _ E _ Hin) as Hn. simpl in Hn.
      rewrite (Hrule _ _ _ Hin) in Hn. congruence.
  - intros Hu.
    destruct (filter meaningful lines) as [|l0 rest] eqn:Hf.
    + left. intros l Hin. destruct (meaningful l) eqn:Hl; [|reflexivity].
      assert (In l (filter meaningful lines)) by (apply filter_In; auto).
      rewrite Hf in H. contradiction.
    + right. destruct (first_meaningful _ _ _ Hf) as (pre & suf & -> & Hm & Hpre).
      exists pre, l0, suf. repeat split; auto.
      intros d' r Hin. rewrite (detectFirstMatch_at _ _ _ _ Hpre Hm) in Hu.
      unfold firstDialect in Hu.
      destruct (find _ Flexible_declarationRules) as [[d'' r'']|] eqn:E.
      * apply find_some in E as [Hin' _]. subst d''.
        exfalso. apply (Hknown unknown); [|reflexivity].
        apply (in_map fst _ _ Hin').
      * pose proof (find_none _ _ E _ Hin) as Hn. simpl in Hn.
        now rewrite (Hrule _ _ _ Hin) in Hn.
  - intros [Hall|(pre & l0 & suf & -> & Hpre & Hm & Hno)].
    + unfold detectFirstMatch. rewrite filter_blankOrComment.
      now rewrite (filter_none _ Hall).
    + rewrite (detectFirstMatch_at _ _ _ _ Hpre Hm). unfold firstDialect.
      destruct (find _ Flexible_declarationRules) as [[d' r']|] eqn:E; [|reflexivity].
      apply find_some in E as [Hin' Ht']. simpl in Ht'.
      rewrite (Hrule _ _ _ Hin'), (Hno _ _ Hin') in Ht'. discriminate.
Qed.

(** *** The element count *)

Lemma countElements_le (lines : list string) :
  countElements lines <= List.length lines.
Proof. unfold countElements. apply filter_length_le. Qed.

Lemma countElements_meaningful (lines : list string) (l : string) :
  In l lines -> meaningful l = true -> 1 <= countElements lines.
Proof.
  intros Hin Hm. unfold countElements.
  change (1 <= List.length (filter meaningful lines)).
  assert (H : In l (filter meaningful lines)) by (apply filter_In; auto).
  destruct (filter meaningful lines); [contradiction|simpl; lia].
Qed.

(** X11. In a result of the flexible validator [elementCount] is zero
    exactly when no dialect was detected; otherwise it is the number of
    meaningful lines of the text, at least one and at most the number of
    lines. *)
Theorem elementCount_zero_iff_unknown (startTime now : Z) (input : value) :
  let r := Flexible.validateSyntax startTime now input in
  (elementCount r = 0 <-> diagramType r = unknown) /\
  (forall text, input = VString text -> diagramType r <> unknown ->
     elementCount r = countElements (JS.split text) /\
     1 <= elementCount r <= List.length (JS.split text)).
Proof.
  cbv zeta.
  destruct (Flexible_validateSyntax_cases startTime now input)
    as [[E ->]|(text & -> & Hne &
               [[Hu ->]|(Hk & o & _ & _ & _ & _ & ->)])].
  - split; [split; reflexivity|]. intros text _ H. now elim H.
  - split; [split; reflexivity|]. intros text' _ H. now elim H.
  - simpl. destruct (detect_known_meaningful _ _ _ _ _ _ _ _ _ _ _ Hk) as (l & Hin & Hm).
    pose proof (countElements_meaningful _ _ Hin Hm) as H1.
    pose proof (countElements_le (JS.split text)) as H2.
    split.
    + split; [lia|intros E; now elim Hk].
    + intros text' E _. inversion E; subst text'. lia.
Qed.

(** *** Batches *)

Lemma batchLoop_map (validateSyntax : Z -> Z -> value -> Diagnostic)
  (clock : nat -> Z * Z) (diagrams : list value) :
  forall i results,
    batchLoop validateSyntax clock diagrams i results =
    (results ++
     map (fun '(j, v) => (j, validateSyntax (fst (clock j)) (snd (clock j)) v))
         (combine (List.seq i (List.length diagrams)) diagrams))%list.
Proof.
  induction diagrams as [|v ds IH]; intros i results; simpl.
  - now rewrite app_nil_r.
  - rewrite IH, <- app_assoc. reflexivity.
Qed.

Lemma nth_error_indexed {A B : Type} (f : nat * A -> B) (l : list A) :
  forall a i v,
    nth_error l i = Some v ->
    nth_error (map f (combine (List.seq a (List.length l)) l)) i = Some (f (a + i, v)).
Proof.
  induction l as [|x l IH]; intros a i v H.
  - destruct i; discriminate.
  - destruct i as [|i]; simpl in *.
    + inversion H. now rewrite Nat.add_0_r.
    + rewrite (IH (S a) i v H). do 2 f_equal. f_equal. lia.
Qed.

(** X12. [validateBatch] answers one result per input, in the order of
    the inputs: the [i]-th result carries index [i] and is what
    [validateSyntax] answers on the [i]-th input, whatever the other inputs
    are (a rejected input does not stop the batch). *)
Theorem validateBatch_keeps_input_order (clock : nat -> Z * Z) (diagrams : list value) :
  let simple := Simple_validateBatch clock diagrams in
  let flexible := batchLoop Flexible.validateSyntax clock diagrams 0 [] in
  flexible = Flexible.validateBatch clock diagrams /\
  List.length simple = List.length diagrams /\
  List.length flexible = List.length diagrams /\
  forall i v, nth_error diagrams i = Some v ->
    nth_error simple i
    = Some (i, Simple.validateSyntax (fst (clock i)) (snd (clock i)) v) /\
    nth_error flexible i
    = Some (i, Flexible.validateSyntax (fst (clock i)) (snd (clock i)) v).
Proof.
  cbv zeta. unfold Simple_validateBatch. rewrite !batchLoop_map. simpl.
  repeat split.
  - now rewrite length_map, length_combine, length_seq, Nat.min_id.
  - now rewrite length_map, length_combine, length_seq, Nat.min_id.
  - now rewrite (nth_error_indexed _ _ 0 i v H).
  - now rewrite (nth_error_indexed _ _ 0 i v H).
Qed.

(** *** The element count of the engine-delegating validator *)

Lemma startsWith_directive (s : string) :
  JS.startsWith s "%%{" = true -> JS.startsWith s "%%" = true.
Proof.
  unfold JS.startsWith. destruct s as [|a [|b s]]; cbn [String.prefix];
    try discriminate;
    repeat match goal with
           | |- context [ascii_dec ?x ?y] => destruct (ascii_dec x y)
           end; try discriminate.
  now destruct s.
Qed.

Lemma Delegate_countLine_meaningful (count : nat) (line : string) :
  Delegate_countLine count line = if meaningful line then S count else count.
Proof.
  unfold Delegate_countLine, meaningful. cbv zeta.
  destruct (JS.truthy (JS.trim line)); [|reflexivity]. simpl.
  destruct (JS.startsWith (JS.trim line) "%%") eqn:E; [reflexivity|]. simpl.
  destruct (JS.startsWith (JS.trim line) "%%{") eqn:E'; [|reflexivity].
  apply startsWith_directive in E'. congruence.
Qed.

Lemma Delegate_count_fold (lines : list string) :
  forall count,
    fold_left Delegate_countLine lines count = count + countElements lines.
Proof.
  unfold countElements. change (fun l : string => _) with meaningful.
  induction lines as [|l ls IH]; intros count; simpl; [lia|].
  rewrite IH, Delegate_countLine_meaningful.
  destruct (meaningful l); simpl; lia.
Qed.

(** X13. The engine-delegating validator counts the elements of a text
    exactly as the two regex validators do: its additional test for lines
    starting with [%%{] never changes the count, since such a line already
    starts with [%%]. *)
Theorem delegate_counts_like_the_regex_validators (code : string) :
  Delegate_countElements code = countElements (JS.split code) /\
  Delegate_countElements code <= List.length (JS.split code).
Proof.
  unfold Delegate_countElements. rewrite Delegate_count_fold. simpl.
  split; [reflexivity|]. apply countElements_le.
Qed.

(** *** Comment lines and the simple validator *)

Lemma complete_interleaved {St : Type} (body : nat -> string -> St -> flow St)
  (step : St -> string -> option St) (label hint : string)
  (atEnd : St -> Outcome.t) (st0 : St) (L L' : list string) :
  (forall i raw st,
     body i raw st =
     stepBody step
       (fun l j => Simple.failure (Simple.quoted label l) "syntax" (j + 1) hint)
       i raw st) ->
  (forall st, Outcome.type (atEnd st) <> Some "syntax") ->
  interleaved L L' ->
  exists o o',
    complete (forLines body L 0 st0) atEnd = Normal o /\
    complete (forLines body L' 0 st0) atEnd = Normal o' /\
    commentShift L L' o o'.
Proof.
  intros Hbody Hend H.
  rewrite !(forLines_firstRejected step _ body Hbody).
  pose proof (firstRejected_interleaved step _ _ H 0 0 st0) as Hscan.
  destruct (firstRejected step L 0 st0) as [[j x]|s1],
           (firstRejected step L' 0 st0) as [[j' x']|s2];
    try contradiction.
  - destruct Hscan as (raw & n & n' & Hsame & -> & -> & -> & ->).
    do 2 eexists. repeat split. right. repeat split.
    exists raw, n, n'. repeat split; [exact Hsame| |]; simpl; f_equal; lia.
  - subst s2. do 2 eexists. repeat split. left. split; [apply Hend|reflexivity].
Qed.

Lemma Simple_validateByType_interleaved (d : DiagramType) (L L' : list string) :
  d <> unknown -> interleaved L L' ->
  exists o o',
    Simple.validateByType d L = Normal o /\
    Simple.validateByType d L' = Normal o' /\
    commentShift L L' o o'.
Proof.
  intros Hd H.
  destruct d; try congruence; cbn [Simple.validateByType];
    try (eapply complete_interleaved;
         [intros; rewrite Simple_rulesBody_stepBody; reflexivity
         |intros []; simpl; discriminate
         |exact H]).
  - eapply complete_interleaved;
      [intros; rewrite Simple_graphBody_stepBody; reflexivity
      |intros [[[] ?] ?]; simpl; discriminate
      |exact H].
  - eapply complete_interleaved;
      [intros; rewrite Simple_pieBody_stepBody; reflexivity
      |intros [[] []]; simpl; discriminate
      |exact H].
Qed.

(** X14. Let the lines of [text'] be those of [text] with comment lines
    inserted anywhere.  The simple validator gives both texts the same
    [isValid], dialect and element count.  A failure line reported for [text]
    is reported for [text'] too: a [syntax] failure blames the same line,
    found at its new index, with the same message and suggestion; a failure
    of another kind keeps its kind, message and line number. *)
Theorem simple_comment_lines_are_transparent (startTime now startTime' now' : Z)
  (text text' : string) :
  interleaved (JS.split text) (JS.split text') ->
  let r := Simple.validateSyntax startTime now (VString text) in
  let r' := Simple.validateSyntax startTime' now' (VString text') in
  isValid r' = isValid r /\
  diagramType r' = diagramType r /\
  elementCount r' = elementCount r /\
  forall k, line r = Some k ->
    (type r = Some "syntax" /\ type r' = Some "syntax" /\ error r' = error r /\
     suggestion r' = suggestion r /\
     exists raw n n',
       sameLineAt (JS.split text) (JS.split text') raw n n' /\
       k = S n /\ line r' = Some (S n'))
    \/
    (type r <> Some "syntax" /\ type r' = type r /\ error r' = error r /\
     line r' = Some k).
Proof.
  intros H. cbv zeta.
  assert (Hdet : Simple.detectDiagramType (JS.split text') =
                 Simple.detectDiagramType (JS.split text))
    by (apply interleaved_detect; exact H).
  unfold Simple.validateSyntax.
  destruct (string_dec text EmptyString) as [->|Hne].
  - change (asCode (VString EmptyString)) with (@None string). cbv iota.
    destruct (string_dec text' EmptyString) as [->|Hne'].
    + change (asCode (VString EmptyString)) with (@None string). cbv iota.
      repeat split. discriminate.
    + rewrite (asCode_known _ Hne'). cbv zeta. rewrite Hdet.
      change (Simple.detectDiagramType (JS.split EmptyString)) with unknown.
      repeat split. discriminate.
  - assert (Hne' : text' <> EmptyString).
    { intros E. apply Hne. eapply interleaved_empty_text; eassumption. }
    rewrite (asCode_known _ Hne), (asCode_known _ Hne'). cbv zeta. rewrite Hdet.
    destruct (DiagramType_eq_dec (Simple.detectDiagramType (JS.split text)) unknown)
      as [Hu|Hkn].
    + rewrite Hu. repeat split. simpl. intros k Hk. right.
      repeat split; [discriminate|exact Hk].
    + rewrite !(known_dispatch _ _ _ Hkn).
      destruct (Simple_validateByType_interleaved _ _ _ Hkn H)
        as (o & o' & -> & -> & Hshift).
      rewrite (interleaved_countElements _ _ H). simpl.
      destruct Hshift as [[Hns ->]|(Hs & (Hv & He & Ht & Hg) & raw & n & n' & Hsame & Hl & Hl')].
      * repeat split. intros k Hk. right. auto.
      * rewrite Hv. repeat split. intros k Hk. left.
        rewrite Ht, He, Hg. repeat split; auto.
        exists raw, n, n'. repeat split; auto. congruence.
Qed.

Lemma simple_comment_lines_are_transparent_witness :
  let text := "pie" ++ nl ++ "bad" in
  let text' := "%% head" ++ nl ++ "pie" ++ nl ++ "  %% mid" ++ nl ++ "bad" ++ nl ++ "%%" in
  let r := Simple.validateSyntax 0 0 (VString text) in
  let r' := Simple.validateSyntax 0 0 (VString text') in
  isValid r' = isValid r /\ diagramType r' = diagramType r /\
  elementCount r' = elementCount r.
Proof.
  cbv zeta.
  pose proof (simple_comment_lines_are_transparent 0 0 0 0
    ("pie" ++ nl ++ "bad")
    ("%% head" ++ nl ++ "pie" ++ nl ++ "  %% mid" ++ nl ++ "bad" ++ nl ++ "%%")) as H.
  destruct H as (A & B & C & _).
  - change (interleaved ["pie"; "bad"] ["%% head"; "pie"; "  %% mid"; "bad"; "%%"]).
    apply interleaved_comment; [reflexivity|].
    apply interleaved_keep.
    apply interleaved_comment; [reflexivity|].
    apply interleaved_keep.
    apply interleaved_comment; [reflexivity|].
    apply interleaved_nil.
  - repeat split; assumption.
Defined.

(** *** Surrounding white space *)

Lemma forLines_trim {St : Type} (body : nat -> string -> St -> flow St) :
  (forall i r1 r2 st, JS.trim r1 = JS.trim r2 -> body i r1 st = body i r2 st) ->
  forall L L' i st,
    map JS.trim L = map JS.trim L' -> forLines body L i st = forLines body L' i st.
Proof.
  intros Hb L; induction L as [|a L IH]; intros [|b L'] i st E; simpl in *;
    try discriminate; [reflexivity|].
  inversion E as [[E1 E2]]. rewrite (Hb i a b st E1).
  destruct (body i b st); try reflexivity. now apply IH.
Qed.

Lemma filter_trim (L : list string) :
  forall L', map JS.trim L = map JS.trim L' ->
    map JS.trim (filter meaningful L) = map JS.trim (filter meaningful L').
Proof.
  induction L as [|a L IH]; intros [|b L'] E; simpl in *; try discriminate;
    [reflexivity|].
  inversion E as [[E1 E2]].
  assert (Hm : meaningful a = meaningful b) by (unfold meaningful; now rewrite E1).
  rewrite Hm. destruct (meaningful b); simpl; [rewrite E1; f_equal|]; now apply IH.
Qed.

Lemma detect_trim (g s c st e ga j p gi mi : RegExp.t) (L L' : list string) :
  map JS.trim L = map JS.trim L' ->
  detect g s c st e ga j p gi mi L = detect g s c st e ga j p gi mi L'.
Proof.
  intros E. apply filter_trim in E. unfold detect.
  change (filter _ L) with (filter meaningful L).
  change (filter _ L') with (filter meaningful L').
  destruct (filter meaningful L), (filter meaningful L'); simpl in E;
    try discriminate; [reflexivity|].
  inversion E as [[E1 E2]]. cbv zeta. now rewrite E1.
Qed.

Lemma countElements_trim (L L' : list string) :
  map JS.trim L = map JS.trim L' -> countElements L = countElements L'.
Proof.
  intros E. apply filter_trim in E. unfold countElements.
  change (List.length (filter meaningful L) = List.length (filter meaningful L')).
  now rewrite <- (length_map JS.trim (filter meaningful L)), E, length_map.
Qed.

Lemma Flexible_validateByType_trim (d : DiagramType) (L L' : list string) :
  map JS.trim L = map JS.trim L' ->
  Flexible.validateByType d L = Flexible.validateByType d L'.
Proof.
  intros E. unfold Flexible.validateByType.
  rewrite (forLines_trim (Flexible.lineBody d)) with (L' := L'); [reflexivity| |exact E].
  intros i r1 r2 st H. unfold Flexible.lineBody. now rewrite H.
Qed.

Lemma Simple_validateByType_trim (d : DiagramType) (L L' : list string) :
  map JS.trim L = map JS.trim L' ->
  Simple.validateByType d L = Simple.validateByType d L'.
Proof.
  intros E.
  destruct d; cbn [Simple.validateByType]; try reflexivity;
    try (unfold Simple.validateSequence, Simple.validateClassDiagram,
           Simple.validateStateDiagram, Simple.validateERDiagram,
           Simple.validateGantt, Simple.validateJourney, Simple.validateGitGraph,
           Simple.validateMindmap, Simple.declarationThenRules;
         erewrite forLines_trim; [reflexivity| |exact E];
         intros i r1 r2 st H; unfold Simple.rulesBody; now rewrite H).
  - unfold Simple.validateGraph.
    erewrite forLines_trim; [reflexivity| |exact E].
    intros i r1 r2 st H. unfold Simple.graphBody. now rewrite H.
  - unfold Simple.validatePie.
    erewrite forLines_trim; [reflexivity| |exact E].
    intros i r1 r2 st H. unfold Simple.pieBody. now rewrite H.
Qed.

(** X15. White space around the lines of a text is ignored: two
    non-empty texts whose lines are equal after trimming get the same result
    from each regex validator, field for field. *)
Theorem surrounding_whitespace_is_ignored (startTime now : Z) (text text' : string) :
  (text = EmptyString <-> text' = EmptyString) ->
  map JS.trim (JS.split text) = map JS.trim (JS.split text') ->
  Flexible.validateSyntax startTime now (VString text)
  = Flexible.validateSyntax startTime now (VString text') /\
  Simple.validateSyntax startTime now (VString text)
  = Simple.validateSyntax startTime now (VString text').
Proof.
  intros He E.
  destruct (string_dec text EmptyString) as [->|Hne].
  - rewrite (proj1 He eq_refl). split; reflexivity.
  - assert (Hne' : text' <> EmptyString) by (intros E'; apply Hne, He, E').
    unfold Flexible.validateSyntax, Simple.validateSyntax.
    rewrite (asCode_known _ Hne), (asCode_known _ Hne'). cbv zeta.
    unfold Flexible.detectDiagramType, Simple.detectDiagramType.
    rewrite !(detect_trim _ _ _ _ _ _ _ _ _ _ _ _ E).
    rewrite (Flexible_validateByType_trim _ _ _ E),
            (Simple_validateByType_trim _ _ _ E),
            (countElements_trim _ _ E).
    split; reflexivity.
Qed.

Lemma surrounding_whitespace_is_ignored_witness :
  Flexible.validateSyntax 0 1 (VString ("pie" ++ nl ++ "bad"))
  = Flexible.validateSyntax 0 1 (VString ("  pie " ++ nl ++ " bad  ")).
Proof.
  apply (surrounding_whitespace_is_ignored 0 1
           ("pie" ++ nl ++ "bad") ("  pie " ++ nl ++ " bad  ")).
  - split; discriminate.
  - reflexivity.
Defined.

(** *** The summary of a batch *)

Lemma Flexible_isValid_clock (s n s' n' : Z) (v : value) :
  isValid (Flexible.validateSyntax s n v) = isValid (Flexible.validateSyntax s' n' v).
Proof.
  unfold Flexible.validateSyntax.
  destruct (asCode v) as [code|]; [|reflexivity]. cbv zeta.
  destruct (Flexible.detectDiagramType (JS.split code)); try reflexivity;
    now destruct (Flexible.validateByType _ _).
Qed.

Lemma filter_indexed_length {A B : Type} (f : nat * A -> B) (p : B -> bool)
  (q : A -> bool) (l : list A) :
  (forall j v, p (f (j, v)) = q v) ->
  forall a,
    List.length (filter p (map f (combine (List.seq a (List.length l)) l)))
    = List.length (filter q l).
Proof.
  intros H. induction l as [|x l IH]; intros a; simpl; [reflexivity|].
  rewrite H. destruct (q x); simpl; now rewrite IH.
Qed.

Lemma filter_partition_length {A : Type} (p : A -> bool) (l : list A) :
  List.length (filter p l) + List.length (filter (fun x => negb (p x)) l)
  = List.length l.
Proof.
  induction l as [|x l IH]; simpl; [reflexivity|].
  destruct (p x); simpl; lia.
Qed.

(** X16. The summary that the server builds for a batch: [total] is
    the number of inputs, [valid] and [invalid] add up to it, and [valid] is
    the number of inputs that [validateSyntax] accepts, which no reading of
    the clock changes. *)
Theorem batch_summary_counts (clock : nat -> Z * Z) (diagrams : list value) :
  let results := Flexible.validateBatch clock diagrams in
  summaryTotal results = List.length diagrams /\
  summaryValid results + summaryInvalid results = summaryTotal results /\
  forall startTime now,
    summaryValid results =
    List.length (filter (fun v => isValid (Flexible.validateSyntax startTime now v))
                   diagrams).
Proof.
  cbv zeta. unfold summaryTotal, summaryValid, summaryInvalid. repeat split.
  - unfold Flexible.validateBatch.
    now rewrite length_map, length_combine, length_seq, Nat.min_id.
  - apply (filter_partition_length (fun r : nat * Diagnostic => isValid (snd r))).
  - intros startTime now. unfold Flexible.validateBatch.
    apply filter_indexed_length. intros j v. simpl. apply Flexible_isValid_clock.
Qed.
